(** * WanderSync: offline-first synchronisation and rate-limited fetch guard

    A shallow embedding of the synchronisation code of the trip planner:
    the weather service ([retryWithBackoff], [getCityWeather]) and the
    request/response sync helpers and React component logic of the
    application ([pushToCloud], [pullFromCloud], [handleUpdateAndSync], the
    debounced auto-sync effect and [performInitialPull]).

    JavaScript values are a small inductive type; [localStorage] is a finite
    map from strings to strings; asynchronous functions are state-passing
    functions over an explicit world that may return or throw.  Built-in
    functions of the JavaScript runtime that the code calls ([JSON.parse],
    [parseInt], [Date.prototype.toISOString], ...) are the fields of the class
    [Runtime]; every theorem holds for every runtime. *)

From Stdlib Require Import ZArith String Ascii List Bool Lia.
From stdpp Require Import base option gmap strings.
Import ListNotations.

Set Warnings "-register-all".
Local Open Scope string_scope.
Local Open Scope Z_scope.

(** ** JavaScript values *)

(** Objects keep their properties in insertion order, as JavaScript does for
    string keys; the keys of an object are pairwise different.  Numbers are
    the integers (the code computes with [Date.now()] milliseconds only). *)
Inductive js : Type :=
| JUndef
| JNull
| JBool (b : bool)
| JNum (n : Z)
| JStr (s : string)
| JArr (xs : list js)
| JObj (fields : list (string * js)).

(** Thrown values are [Error] objects: the two properties
    [retryWithBackoff] inspects.  [message] is a string when there is one;
    a [status] that is missing or not a number is [None]. *)
Record error : Type := mkError { message : option string; status : option Z }.

Inductive result (A : Type) : Type :=
| Ret (a : A)
| Throw (e : error).
Arguments Ret {A} a.
Arguments Throw {A} e.

(** ToBoolean. *)
Definition js_truthy (v : js) : bool :=
  match v with
  | JUndef | JNull => false
  | JBool b => b
  | JNum n => negb (n =? 0)
  | JStr s => negb (String.eqb s "")
  | JArr _ | JObj _ => true
  end.

(** [o[k]] on the property list of an object; [undefined] when absent. *)
Fixpoint obj_get (k : string) (fields : list (string * js)) : js :=
  match fields with
  | [] => JUndef
  | (k', v) :: rest => if String.eqb k k' then v else obj_get k rest
  end.

(** [o[k] = v]: an existing property keeps its place, a new one goes last. *)
Fixpoint obj_set (k : string) (v : js) (fields : list (string * js))
  : list (string * js) :=
  match fields with
  | [] => [(k, v)]
  | (k', v') :: rest =>
      if String.eqb k k' then (k', v) :: rest else (k', v') :: obj_set k v rest
  end.

(** [v.k] for the property names this program reads ([id], [lastSynced],
    [data], [timestamp], [temp]): none of them is an index or [length], so
    strings, numbers, booleans and arrays answer [undefined].  On [null] and
    [undefined] the access throws a TypeError: [None]. *)
Definition js_prop (v : js) (k : string) : option js :=
  match v with
  | JUndef | JNull => None
  | JObj fields => Some (obj_get k fields)
  | JBool _ | JNum _ | JStr _ | JArr _ => Some JUndef
  end.

(** [s1.includes(s2)]. *)
Fixpoint includes (s sub : string) : bool :=
  String.prefix sub s ||
  match s with
  | EmptyString => false
  | String _ rest => includes rest sub
  end.

(** ** The runtime *)

Class Runtime : Type := {
  (** [JSON.parse]; throws a SyntaxError on malformed text. *)
  JSON_parse : string -> result js;
  (** [JSON.stringify] of a value that has a JSON text. *)
  JSON_stringify : js -> string;
  (** The TypeError of a property access on [null] or [undefined]. *)
  TypeError_nullish : error;
  (** [parseInt(s)]; [None] is NaN. *)
  parseInt : string -> option Z;
  (** [n.toString()] of an integer. *)
  Number_toString : Z -> string;
  (** [new Date(ms).toISOString()]. *)
  Date_toISOString : Z -> string;
  (** [s.toLowerCase()]. *)
  String_toLowerCase : string -> string;
  (** [s.replace(/\s+/g, r)]. *)
  replace_whitespace : string -> string -> string;
  (** ToNumber of a string, an array or an object; [None] is NaN. *)
  ToNumber_other : js -> option Z;
  (** [a > b] when [a] and [b] are not both strings (the operands are then
      coerced to numbers). *)
  gt_coerced : js -> js -> bool;
  (** The own enumerable properties of a string or an array, as an object
      spread copies them (index keys). *)
  spread_indexed : js -> list (string * js)
}.

(** ** localStorage *)

Module Storage.

Definition getItem (k : string) (st : gmap string string) : option string :=
  st !! k.

Definition setItem (k v : string) (st : gmap string string)
  : gmap string string := <[k := v]> st.

Definition removeItem (k : string) (st : gmap string string)
  : gmap string string := delete k st.

End Storage.

(** Truthiness of what [getItem] returned: [null] and the empty string are
    falsy. *)
Definition item_truthy (o : option string) : bool :=
  match o with
  | Some s => negb (String.eqb s "")
  | None => false
  end.

(** ** Asynchronous code: state passing with exceptions *)

(** An [async] function over a world [W] returns or throws, and leaves a new
    world.  [await] is sequencing. *)
Definition M (W A : Type) : Type := W -> result A * W.

Definition ret {W A} (a : A) : M W A := fun w => (Ret a, w).
Definition throw {W A} (e : error) : M W A := fun w => (Throw e, w).
Definition bind {W A B} (m : M W A) (k : A -> M W B) : M W B :=
  fun w => match m w with
           | (Ret a, w1) => k a w1
           | (Throw e, w1) => (Throw e, w1)
           end.
(** [try { m } catch (e) { h e }]. *)
Definition try_catch {W A} (m : M W A) (h : error -> M W A) : M W A :=
  fun w => match m w with
           | (Ret a, w1) => (Ret a, w1)
           | (Throw e, w1) => h e w1
           end.
Definition gets {W A} (f : W -> A) : M W A := fun w => (Ret (f w), w).
Definition modify {W} (f : W -> W) : M W unit := fun w => (Ret tt, f w).
(** A synchronous expression that may throw. *)
Definition lift_result {W A} (r : result A) : M W A := fun w => (r, w).

Notation "'let*' x ':=' m 'in' k" := (bind m (fun x => k))
  (at level 10, x pattern, m at level 100, k at level 200).
Notation "m ';;' k" := (bind m (fun _ => k))
  (at level 100, k at level 200, right associativity).

(** [v.k], throwing the runtime's TypeError on [null] and [undefined]. *)
Definition prop `{Runtime} {W} (v : js) (k : string) : M W js :=
  match js_prop v k with
  | Some x => ret x
  | None => throw TypeError_nullish
  end.

(** * The weather service *)

Module Weather.

Definition WEATHER_CACHE_PREFIX : string := "ws_weather_".
Definition COOLDOWN_KEY : string := "ws_weather_cooldown".
Definition CACHE_DURATION : Z := 4 * 60 * 60 * 1000.
Definition COOLDOWN_DURATION : Z := 15 * 60 * 1000.

(** The world of the service: [localStorage], the clock read by
    [Date.now()], the number of model requests issued so far and the delays
    awaited with [setTimeout], most recent first. *)
Record world : Type := mkWorld {
  ls : gmap string string;
  now : Z;
  calls : nat;
  sleeps : list Z
}.

(** The remote model: what the [n]-th request with a given prompt does, the
    time it takes, and either the [text] of the response ([None] when the
    response has none) or the error it rejects with. *)
Definition network : Type := nat -> string -> Z * result (option string).

Definition set_ls (f : gmap string string -> gmap string string) (w : world)
  : world := mkWorld (f (ls w)) (now w) (calls w) (sleeps w).

(** [await new Promise(resolve => setTimeout(resolve, delay))]. *)
Definition sleep (delay : Z) : M world unit :=
  modify (fun w => mkWorld (ls w) (now w + delay) (calls w) (delay :: sleeps w)).

(** [await ai.models.generateContent({...})]. *)
Definition generateContent (net : network) (prompt : string)
  : M world (option string) :=
  fun w =>
    let '(latency, r) := net (calls w) prompt in
    (r, mkWorld (ls w) (now w + latency) (S (calls w)) (sleeps w)).

(** [error?.message?.includes("429") || error?.status === 429 ||
    error?.message?.includes("RESOURCE_EXHAUSTED")], as a boolean. *)
Definition isRateLimit (e : error) : bool :=
  match message e with Some m => includes m "429" | None => false end
  || match status e with Some n => n =? 429 | None => false end
  || match message e with
     | Some m => includes m "RESOURCE_EXHAUSTED"
     | None => false
     end.

Section Service.
Context `{RT : Runtime}.

(** The body of the [catch] of [retryWithBackoff] up to the retry test:
    a rate-limit error stores the cooldown. *)
Definition noteRateLimit (e : error) : M world unit :=
  if isRateLimit e
  then modify (fun w =>
         set_ls (Storage.setItem COOLDOWN_KEY
                   (Number_toString (now w + COOLDOWN_DURATION))) w)
  else ret tt.

(** The loop [for (let i = 0; i <= maxRetries; i++)] of [retryWithBackoff],
    entered with [remaining = maxRetries + 1 - i] iterations to go, so that
    [i < maxRetries] is [0 < remaining - 1]. *)
Fixpoint retryLoop {A} (fn : M world A) (remaining : nat) (delay : Z)
  : M world A :=
  match remaining with
  | O => throw (mkError (Some "Max retries exceeded") None)
  | S r =>
      try_catch fn (fun e =>
        noteRateLimit e ;;
        if (0 <? r)%nat && isRateLimit e
        then sleep delay ;; retryLoop fn r (delay * 2)
        else throw e)
  end.

Definition retryWithBackoff {A} (fn : M world A) (maxRetries : nat)
  (initialDelay : Z) : M world A :=
  retryLoop fn (S maxRetries) initialDelay.

(** [`${WEATHER_CACHE_PREFIX}${city.toLowerCase().replace(/\s+/g, '_')}`]. *)
Definition cacheKey (city : string) : string :=
  WEATHER_CACHE_PREFIX +:+ replace_whitespace (String_toLowerCase city) "_".

Definition dquote : string := String "034"%char "".

Definition prompt (city : string) : string :=
  "What is the current temperature in " +:+ city +:+
  "? Return only a JSON object with 'temp' (number in Celsius) and 'condition' (short string like "
  +:+ dquote +:+ "Sunny" +:+ dquote +:+ ", " +:+ dquote +:+ "Rainy" +:+ dquote
  +:+ ").".

(** [cooldownUntil && Date.now() < parseInt(cooldownUntil)]. *)
Definition cooldownActive (cooldownUntil : option string) (t : Z) : bool :=
  match cooldownUntil with
  | Some c =>
      negb (String.eqb c "")
      && match parseInt c with Some u => t <? u | None => false end
  | None => false
  end.

(** [if (cached) return JSON.parse(cached).data; return null;], the same
    statements in the cooldown branch and in the final [catch]. *)
Definition cachedDataOrNull (cached : option string) : M world js :=
  match cached with
  | Some c =>
      if String.eqb c "" then ret JNull
      else let* entry := lift_result (JSON_parse c) in prop entry "data"
  | None => ret JNull
  end.

(** ToNumber of the right operand of [Date.now() - timestamp]. *)
Definition js_to_number (v : js) : option Z :=
  match v with
  | JNum n => Some n
  | JUndef => None
  | JNull => Some 0
  | JBool b => Some (if b then 1 else 0)
  | JStr _ | JArr _ | JObj _ => ToNumber_other v
  end.

(** Step 2 of [getCityWeather]: [Some data] when the function returns the
    cached payload, [None] when it goes on to the API call. *)
Definition checkCache (cached : option string) : M world (option js) :=
  match cached with
  | Some c =>
      if String.eqb c "" then ret None
      else
        let* entry := lift_result (JSON_parse c) in
        let* data := prop entry "data" in
        let* timestamp := prop entry "timestamp" in
        let* t := gets now in
        match js_to_number timestamp with
        | Some ts => if t - ts <? CACHE_DURATION then ret (Some data) else ret None
        | None => ret None
        end
  | None => ret None
  end.

(** [response.text || '{}']. *)
Definition textOrEmptyObject (text : option string) : string :=
  match text with
  | Some s => if String.eqb s "" then "{}" else s
  | None => "{}"
  end.

(** Step 3 of [getCityWeather]: the body of the [try]. *)
Definition fetchAndStore (net : network) (city : string) : M world js :=
  let* response :=
    retryWithBackoff (generateContent net (prompt city)) 1 3000 in
  let* weatherData := lift_result (JSON_parse (textOrEmptyObject response)) in
  let* temp := prop weatherData "temp" in
  match temp with
  | JUndef => ret JNull
  | _ =>
      let* t := gets now in
      modify (set_ls (Storage.setItem (cacheKey city)
                (JSON_stringify
                   (JObj [("data", weatherData); ("timestamp", JNum t)])))) ;;
      ret weatherData
  end.

(** [getCityWeather]; constructing the API client (outside the [try]) and
    the calls of [localStorage] are taken not to throw. *)
Definition getCityWeather (net : network) (city : string) : M world js :=
  if String.eqb city "" then ret JNull
  else
    let* cooldownUntil := gets (fun w => Storage.getItem COOLDOWN_KEY (ls w)) in
    let* t := gets now in
    if cooldownActive cooldownUntil t then
      let* cached := gets (fun w => Storage.getItem (cacheKey city) (ls w)) in
      cachedDataOrNull cached
    else
      let* cached := gets (fun w => Storage.getItem (cacheKey city) (ls w)) in
      let* hit := checkCache cached in
      match hit with
      | Some data => ret data
      | None =>
          try_catch (fetchAndStore net city)
                    (fun _ => cachedDataOrNull cached)
      end.

End Service.
End Weather.

(** * The application: push, pull, local edits, debounced sync *)

Module App.

Definition STORAGE_KEY : string := "wanderSync_lifestyle_v4_final".
Definition PENDING_SYNC_KEY : string := "wanderSync_pending_sync".
Definition APP_VERSION : string := "v0.1.0-sync-fix".
(** The delay of the debounce timer, in milliseconds. *)
Definition DEBOUNCE_MS : Z := 2000.

(** What the GET of [pullFromCloud] settles to: a rejection (no
    connectivity, CORS failure, ...) or a response with its [ok] flag and
    body. *)
Inductive fetchResult : Type :=
| FetchRejected (e : error)
| FetchResponse (ok : bool) (body : string).

(** The POST endpoint: whether the [n]-th request, with the given body,
    resolves ([None]: the response is opaque in [no-cors] mode) or rejects. *)
Definition postNetwork : Type := nat -> string -> option error.

(** The [useState] cells of the component that the sync code touches. *)
Record ui : Type := mkUi {
  trip : js;
  isOnline : bool;
  syncing : bool;
  lastSyncedAt : js;
  hasPendingSync : bool
}.

(** A pending [setTimeout] of the auto-sync effect: its id, when it is due,
    and the [trip] and [isOnline] its callback closed over. *)
Record timer : Type := mkTimer {
  timer_id : nat;
  due : Z;
  timer_trip : js;
  timer_online : bool
}.

(** The browser: [localStorage], the clock, [navigator.onLine], the timer
    queue in the order the timers were set, the next timer id, and the
    bodies of the POST requests issued so far, oldest first. *)
Record browser : Type := mkBrowser {
  localStorage : gmap string string;
  clock : Z;
  navigator_onLine : bool;
  timers : list timer;
  nextTimerId : nat;
  posted : list string
}.

(** The component instance: state cells, [debounceTimerRef.current], whether
    a dependency of the auto-sync effect ([trip], [isOnline]) changed since the
    effect last ran, whether the last run of the effect returned its cleanup,
    and the browser. *)
Record state : Type := mkState {
  cells : ui;
  debounceTimerRef : option nat;
  depsChanged : bool;
  hasCleanup : bool;
  env : browser
}.

Definition set_cells (f : ui -> ui) (s : state) : state :=
  mkState (f (cells s)) (debounceTimerRef s) (depsChanged s) (hasCleanup s)
          (env s).
Definition set_env (f : browser -> browser) (s : state) : state :=
  mkState (cells s) (debounceTimerRef s) (depsChanged s) (hasCleanup s)
          (f (env s)).
Definition set_storage (f : gmap string string -> gmap string string)
  : state -> state :=
  set_env (fun b => mkBrowser (f (localStorage b)) (clock b)
                      (navigator_onLine b) (timers b) (nextTimerId b)
                      (posted b)).

(** [setTrip(v)]: every call in the source passes a newly built or newly
    parsed object, so the dependency [trip] of the effect changes. *)
Definition setTrip (v : js) (s : state) : state :=
  let c := cells s in
  mkState (mkUi v (isOnline c) (syncing c) (lastSyncedAt c) (hasPendingSync c))
          (debounceTimerRef s) true (hasCleanup s) (env s).
Definition setIsOnline (b : bool) (s : state) : state :=
  let c := cells s in
  mkState (mkUi (trip c) b (syncing c) (lastSyncedAt c) (hasPendingSync c))
          (debounceTimerRef s)
          (depsChanged s || negb (Bool.eqb b (isOnline c)))
          (hasCleanup s) (env s).
Definition setSyncing (b : bool) : state -> state :=
  set_cells (fun c => mkUi (trip c) (isOnline c) b (lastSyncedAt c)
                        (hasPendingSync c)).
Definition setLastSyncedAt (v : js) : state -> state :=
  set_cells (fun c => mkUi (trip c) (isOnline c) (syncing c) v
                        (hasPendingSync c)).
Definition setHasPendingSync (b : bool) : state -> state :=
  set_cells (fun c => mkUi (trip c) (isOnline c) (syncing c) (lastSyncedAt c)
                        b).

(** [clearTimeout(id)]. *)
Definition clearTimeout (id : nat) : state -> state :=
  set_env (fun b => mkBrowser (localStorage b) (clock b) (navigator_onLine b)
                      (List.filter (fun t => negb (Nat.eqb (timer_id t) id))
                              (timers b))
                      (nextTimerId b) (posted b)).

(** [setTimeout(callback, delay)] for the callback of the effect; returns
    the id of the timer. *)
Definition setTimeout (tr : js) (online : bool) (delay : Z) (s : state)
  : nat * state :=
  let b := env s in
  let id := nextTimerId b in
  (id,
   set_env (fun b => mkBrowser (localStorage b) (clock b) (navigator_onLine b)
                       (timers b ++ [mkTimer id (clock b + delay) tr online])
                       (S id) (posted b)) s).

(** [if (debounceTimerRef.current) clearTimeout(debounceTimerRef.current)];
    timer ids are positive, so a stored id is truthy. *)
Definition clearDebounceTimer (s : state) : state :=
  match debounceTimerRef s with
  | Some id => clearTimeout id s
  | None => s
  end.

Section Component.
Context `{RT : Runtime}.

(** The properties an object spread [{...v}] copies. *)
Definition js_spread (v : js) : list (string * js) :=
  match v with
  | JObj fields => fields
  | JStr _ | JArr _ => spread_indexed v
  | JUndef | JNull | JBool _ | JNum _ => []
  end.

(** [a > b]. *)
Definition js_gt (a b : js) : bool :=
  match a, b with
  | JStr x, JStr y => String.ltb y x
  | _, _ => gt_coerced a b
  end.

(** [{ ...trip, clientVersion: APP_VERSION, pushedAt: new Date().toISOString() }]
    built at time [t]. *)
Definition pushPayload (tr : js) (t : Z) : js :=
  JObj (obj_set "pushedAt" (JStr (Date_toISOString t))
          (obj_set "clientVersion" (JStr APP_VERSION) (js_spread tr))).

(** [await fetch(SHEET_API_URL, { method: 'POST', ..., body })]. *)
Definition fetchPost (net : postNetwork) (body : string) : M state unit :=
  fun s =>
    let n := length (posted (env s)) in
    let s1 := set_env (fun b => mkBrowser (localStorage b) (clock b)
                                  (navigator_onLine b) (timers b)
                                  (nextTimerId b) (posted b ++ [body])) s in
    match net n body with
    | None => (Ret tt, s1)
    | Some e => (Throw e, s1)
    end.

Definition pushToCloud (net : postNetwork) (tr : js) : M state bool :=
  try_catch
    (let* t := gets (fun s => clock (env s)) in
     let payload := pushPayload tr t in
     fetchPost net (JSON_stringify payload) ;;
     modify (set_storage (Storage.removeItem PENDING_SYNC_KEY)) ;;
     ret true)
    (fun _ =>
       modify (set_storage (Storage.setItem PENDING_SYNC_KEY "true")) ;;
       ret false).

(** [pullFromCloud], given what its GET settles to; [null] is [JNull]. *)
Definition pullFromCloud (r : fetchResult) : M state js :=
  try_catch
    (match r with
     | FetchRejected e => throw e
     | FetchResponse ok body =>
         if negb ok then ret JNull
         else
           let* data := lift_result (JSON_parse body) in
           if js_truthy data then
             let* id := prop data "id" in
             if js_truthy id then ret data else ret JNull
           else ret JNull
     end)
    (fun _ => ret JNull).

(** [{ ...updatedTrip, lastSynced: new Date().toISOString() }] at time [t]. *)
Definition stamp (updatedTrip : js) (t : Z) : js :=
  JObj (obj_set "lastSynced" (JStr (Date_toISOString t))
          (js_spread updatedTrip)).

Definition handleUpdateAndSync (updatedTrip : js) (s : state) : state :=
  let tripWithTimestamp := stamp updatedTrip (clock (env s)) in
  let s1 := setTrip tripWithTimestamp s in
  set_storage (Storage.setItem STORAGE_KEY (JSON_stringify tripWithTimestamp))
              s1.

(** The callback the auto-sync effect hands to [setTimeout], with the [trip]
    and [isOnline] of the render that created it.  The request settles
    before the next event is handled. *)
Definition debouncedPush (net : postNetwork) (tr : js) (online : bool)
  : M state unit :=
  if online then
    modify (setSyncing true) ;;
    let* success := pushToCloud net tr in
    (if success : bool then
       let* ls := prop tr "lastSynced" in
       let* t := gets (fun s => clock (env s)) in
       modify (setLastSyncedAt
                 (if js_truthy ls then ls else JStr (Date_toISOString t))) ;;
       modify (setHasPendingSync false)
     else modify (setHasPendingSync true)) ;;
    modify (setSyncing false)
  else
    modify (set_storage (Storage.setItem PENDING_SYNC_KEY "true")) ;;
    modify (setHasPendingSync true).

(** One run of the auto-sync effect after a render in which [trip] or
    [isOnline] changed: first the cleanup the previous run returned, then
    the body. *)
Definition autoSyncEffect (s : state) : state :=
  let s0 := if hasCleanup s then clearDebounceTimer s else s in
  if negb (js_truthy (trip (cells s0))) then
    mkState (cells s0) (debounceTimerRef s0) false false (env s0)
  else
    let s1 := clearDebounceTimer s0 in
    let '(id, s2) :=
      setTimeout (trip (cells s1)) (isOnline (cells s1)) DEBOUNCE_MS s1 in
    mkState (cells s2) (Some id) false true (env s2).

(** React commits the render that follows a state change and runs the
    effect when one of its dependencies changed. *)
Definition commit (s : state) : state :=
  if depsChanged s then autoSyncEffect s else s.

(** [!localData || (cloudData.lastSynced && localData.lastSynced &&
    cloudData.lastSynced > localData.lastSynced)], evaluated left to right. *)
Definition cloudWins (cloudData localData : js) : M state bool :=
  if negb (js_truthy localData) then ret true
  else
    let* c := prop cloudData "lastSynced" in
    if negb (js_truthy c) then ret false
    else
      let* l := prop localData "lastSynced" in
      if negb (js_truthy l) then ret false
      else ret (js_gt c l).

Definition performInitialPull (r : fetchResult) : M state unit :=
  let* online := gets (fun s => navigator_onLine (env s)) in
  if negb online then ret tt
  else
    modify (setSyncing true) ;;
    let* cloudData := pullFromCloud r in
    (if js_truthy cloudData then
       let* local :=
         gets (fun s => Storage.getItem STORAGE_KEY (localStorage (env s))) in
       let* localData :=
         match local with
         | Some l =>
             if String.eqb l "" then ret JNull else lift_result (JSON_parse l)
         | None => ret JNull
         end in
       let* adopt := cloudWins cloudData localData in
       if adopt : bool then
         modify (setTrip cloudData) ;;
         modify (set_storage
                   (Storage.setItem STORAGE_KEY (JSON_stringify cloudData))) ;;
         let* c := prop cloudData "lastSynced" in
         (if js_truthy c then modify (setLastSyncedAt c) else ret tt) ;;
         modify (setHasPendingSync false) ;;
         modify (set_storage (Storage.removeItem PENDING_SYNC_KEY))
       else ret tt   (* the [else if] has an empty body *)
     else ret tt) ;;
    modify (setSyncing false).

(** The state of the first render: the [useState] initialisers. *)
Definition initialState (b : browser) : state :=
  mkState
    (mkUi JNull (navigator_onLine b) false JNull
          (match Storage.getItem PENDING_SYNC_KEY (localStorage b) with
           | Some v => String.eqb v "true"
           | None => false
           end))
    None false false b.

(** The trip a first run starts from, built at time [t]. *)
Definition defaultTrip (t : Z) : js :=
  JObj [("id", JStr ("trip-" +:+ Number_toString t));
        ("name", JStr "JC US Trip 2026");
        ("destination", JStr "US and Toronto");
        ("startDate", JStr "2026-05-15");
        ("endDate", JStr "2026-05-29");
        ("headerImagePosition", JNum 50);
        ("flights", JArr []);
        ("otherTransport", JArr []);
        ("accommodations", JArr []);
        ("events",
         JArr [JObj [("id", JStr "1");
                     ("title", JStr "Arrival Dinner");
                     ("category", JStr "DINING");
                     ("startTime", JStr "2026-05-15T20:00:00");
                     ("isCompleted", JBool false);
                     ("labels",
                      JArr [JObj [("text", JStr "Meal"); ("type", JStr "Meal")]]);
                     ("color", JStr "#C6934B");
                     ("location", JStr "Toronto");
                     ("mapLink",
                      JStr "https://www.google.com/maps/search/?api=1&query=Toronto")]]);
        ("participants", JArr [JStr "JC"; JStr "Wife"]);
        ("expenses", JArr []);
        ("budget", JNum 50000);
        ("tripNotes", JStr "")].

(** The offline-first load of the mount effect: the saved trip, or the
    default one.  ([setSelectedDate] is not modelled, but reading
    [data.startDate] is.)  The effect then starts [performInitialPull], the
    event [InitialPull] below. *)
Definition mountEffect : M state unit :=
  let* saved :=
    gets (fun s => Storage.getItem STORAGE_KEY (localStorage (env s))) in
  if item_truthy saved then
    let* data := lift_result (JSON_parse (default "" saved)) in
    modify (setTrip data) ;;
    let* _ := prop data "startDate" in
    let* ls := prop data "lastSynced" in
    if js_truthy ls then modify (setLastSyncedAt ls) else ret tt
  else
    let* t := gets (fun s => clock (env s)) in
    modify (setTrip (defaultTrip t)).

(** ** The event loop *)

(** A timer fires: its callback runs to completion (a rejection of the
    [async] callback is unhandled and goes nowhere), then React commits. *)
Definition runTimer (net : postNetwork) (s : state) (t : timer) : state :=
  commit (snd (debouncedPush net (timer_trip t) (timer_online t) s)).

Definition isDue (t : Z) (x : timer) : bool := due x <=? t.

(** [dt] milliseconds pass: the timers that are due by then leave the queue
    and fire in the order they were set (all timers of this program have the
    same delay, and their callbacks set and clear no timer). *)
Definition elapse (net : postNetwork) (dt : Z) (s : state) : state :=
  let t := clock (env s) + dt in
  let fired := List.filter (isDue t) (timers (env s)) in
  let s1 :=
    set_env (fun b => mkBrowser (localStorage b) t (navigator_onLine b)
                        (List.filter (fun x => negb (isDue t x)) (timers b))
                        (nextTimerId b) (posted b)) s in
  fold_left (runTimer net) fired s1.

(** The editing surface calls [handleUpdateAndSync]; React then renders and
    commits. *)
Definition localEdit (updatedTrip : js) (s : state) : state :=
  commit (handleUpdateAndSync updatedTrip s).

(** The [online] and [offline] events of [window]. *)
Definition connectivity (b : bool) (s : state) : state :=
  commit (setIsOnline b
            (set_env (fun e => mkBrowser (localStorage e) (clock e) b
                                 (timers e) (nextTimerId e) (posted e)) s)).

Inductive event : Type :=
| Edit (updatedTrip : js)
| Elapse (dt : Z)
| Connectivity (online : bool)
| InitialPull (r : fetchResult).

Definition step (net : postNetwork) (s : state) (ev : event) : state :=
  match ev with
  | Edit d => localEdit d s
  | Elapse dt => elapse net dt s
  | Connectivity b => connectivity b s
  | InitialPull r => commit (snd (performInitialPull r s))
  end.

Definition run (net : postNetwork) (evs : list event) (s : state) : state :=
  fold_left (step net) evs s.




End Component.
End App.

(** * A small runtime for the examples

    JSON restricted to integers and to strings without escapes, ASCII
    letters and white space, dates of the years 0000 to 9999. *)

Module Ref.

Definition quote : ascii := "034"%char.

Definition is_digit (c : ascii) : bool :=
  let n := nat_of_ascii c in ((48 <=? n) && (n <=? 57))%nat.

Definition is_space (c : ascii) : bool :=
  let n := nat_of_ascii c in ((n =? 32) || ((9 <=? n) && (n <=? 13)))%nat.

Fixpoint skip_space (s : string) : string :=
  match s with
  | String c rest => if is_space c then skip_space rest else s
  | EmptyString => s
  end.

(** The longest prefix of digits, as a number; [None] when it is empty. *)
Fixpoint scan_digits (s : string) (acc : option Z) : option Z * string :=
  match s with
  | String c rest =>
      if is_digit c
      then scan_digits rest
             (Some (10 * default 0 acc + (Z.of_nat (nat_of_ascii c) - 48)))
      else (acc, s)
  | EmptyString => (acc, s)
  end.

Definition scan_int (s : string) : option (Z * string) :=
  match s with
  | String "-" rest =>
      match scan_digits rest None with
      | (Some n, r) => Some (- n, r)
      | (None, _) => None
      end
  | _ =>
      match scan_digits s None with
      | (Some n, r) => Some (n, r)
      | (None, _) => None
      end
  end.

Definition parseInt (s : string) : option Z :=
  match skip_space s with
  | String "+" rest => fst (scan_digits rest None)
  | s' => option_map fst (scan_int s')
  end.

(** Decimal digits of a natural number, most significant first. *)
Fixpoint digits_fuel (fuel : nat) (n : Z) (acc : string) : string :=
  match fuel with
  | O => acc
  | S f =>
      let acc' := String (ascii_of_nat (48 + Z.to_nat (n mod 10))) acc in
      if n <? 10 then acc' else digits_fuel f (n / 10) acc'
  end.

Definition Number_toString (n : Z) : string :=
  if n <? 0 then "-" +:+ digits_fuel (S (Z.to_nat (Z.log2 (- n)))) (- n) ""
  else digits_fuel (S (Z.to_nat (Z.log2 n))) n "".

(** [n] in decimal, padded with zeros to [width] digits. *)
Fixpoint pad (width : nat) (n : Z) (acc : string) : string :=
  match width with
  | O => acc
  | S w => pad w (n / 10) (String (ascii_of_nat (48 + Z.to_nat (n mod 10))) acc)
  end.

(** The civil date of a day number counted from 1970-01-01. *)
Definition civil (days : Z) : Z * Z * Z :=
  let z := days + 719468 in
  let era := z / 146097 in
  let doe := z - era * 146097 in
  let yoe := (doe - doe / 1460 + doe / 36524 - doe / 146096) / 365 in
  let doy := doe - (365 * yoe + yoe / 4 - yoe / 100) in
  let mp := (5 * doy + 2) / 153 in
  let d := doy - (153 * mp + 2) / 5 + 1 in
  let m := if mp <? 10 then mp + 3 else mp - 9 in
  let y := yoe + era * 400 + (if m <=? 2 then 1 else 0) in
  (y, m, d).

Definition Date_toISOString (ms : Z) : string :=
  let '(y, m, d) := civil (ms / 86400000) in
  let r := ms mod 86400000 in
  pad 4 y "" +:+ "-" +:+ pad 2 m "" +:+ "-" +:+ pad 2 d "" +:+ "T" +:+
  pad 2 (r / 3600000) "" +:+ ":" +:+ pad 2 (r / 60000 mod 60) "" +:+ ":" +:+
  pad 2 (r / 1000 mod 60) "" +:+ "." +:+ pad 3 (r mod 1000) "" +:+ "Z".

Definition lower (c : ascii) : ascii :=
  let n := nat_of_ascii c in
  if ((65 <=? n) && (n <=? 90))%nat then ascii_of_nat (n + 32) else c.

Fixpoint String_toLowerCase (s : string) : string :=
  match s with
  | String c rest => String (lower c) (String_toLowerCase rest)
  | EmptyString => EmptyString
  end.

(** Every maximal run of white space becomes [r]. *)
Fixpoint replace_from (inRun : bool) (s r : string) : string :=
  match s with
  | String c rest =>
      if is_space c
      then (if inRun then replace_from true rest r
            else r +:+ replace_from true rest r)
      else String c (replace_from false rest r)
  | EmptyString => EmptyString
  end.

Definition replace_whitespace (s r : string) : string := replace_from false s r.

(** *** Writing JSON *)

Definition join (sep : string) (parts : list string) : string :=
  match parts with
  | [] => ""
  | p :: ps => fold_left (fun acc q => acc +:+ sep +:+ q) ps p
  end.

Definition quoted (s : string) : string :=
  String quote (s +:+ String quote "").

(** Properties whose value is [undefined] are left out of an object; in an
    array [undefined] is written [null]. *)
Fixpoint stringify (v : js) : string :=
  match v with
  | JUndef | JNull => "null"
  | JBool true => "true"
  | JBool false => "false"
  | JNum n => Number_toString n
  | JStr s => quoted s
  | JArr xs => "[" +:+ join "," (map stringify xs) +:+ "]"
  | JObj fields =>
      "{" +:+
      join ","
        ((fix members (l : list (string * js)) : list string :=
            match l with
            | [] => []
            | (k, JUndef) :: rest => members rest
            | (k, x) :: rest => (quoted k +:+ ":" +:+ stringify x) :: members rest
            end) fields)
      +:+ "}"
  end.

(** *** Reading JSON *)

(** The characters up to the closing quote, and what follows it. *)
Fixpoint scan_string (s : string) : option (string * string) :=
  match s with
  | EmptyString => None
  | String c rest =>
      if Ascii.eqb c quote then Some ("", rest)
      else if Ascii.eqb c "\"%char then None
      else match scan_string rest with
           | Some (body, r) => Some (String c body, r)
           | None => None
           end
  end.

Definition expect (word : string) (v : js) (s : string) : option (js * string) :=
  if String.prefix word s
  then Some (v, String.substring (String.length word)
                  (String.length s - String.length word) s)
  else None.

Fixpoint parse_value (fuel : nat) (s : string) : option (js * string) :=
  match fuel with
  | O => None
  | S f =>
      match skip_space s with
      | String "n" _ as s' => expect "null" JNull s'
      | String "t" _ as s' => expect "true" (JBool true) s'
      | String "f" _ as s' => expect "false" (JBool false) s'
      | String "[" rest =>
          match skip_space rest with
          | String "]" r => Some (JArr [], r)
          | _ => match parse_elements f rest with
                 | Some (xs, r) => Some (JArr xs, r)
                 | None => None
                 end
          end
      | String "{" rest =>
          match skip_space rest with
          | String "}" r => Some (JObj [], r)
          | _ => match parse_members f rest with
                 | Some (ms, r) =>
                     (* a repeated key keeps its first place and its last value *)
                     Some (JObj (fold_left (fun o '(k, x) => obj_set k x o) ms []),
                           r)
                 | None => None
                 end
          end
      | String c rest as s' =>
          if Ascii.eqb c quote then
            match scan_string rest with
            | Some (body, r) => Some (JStr body, r)
            | None => None
            end
          else match scan_int s' with
               | Some (n, r) => Some (JNum n, r)
               | None => None
               end
      | EmptyString => None
      end
  end
with parse_elements (fuel : nat) (s : string) : option (list js * string) :=
  match fuel with
  | O => None
  | S f =>
      match parse_value f s with
      | Some (x, r) =>
          match skip_space r with
          | String "," r' =>
              match parse_elements f r' with
              | Some (xs, r'') => Some (x :: xs, r'')
              | None => None
              end
          | String "]" r' => Some ([x], r')
          | _ => None
          end
      | None => None
      end
  end
with parse_members (fuel : nat) (s : string)
  : option (list (string * js) * string) :=
  match fuel with
  | O => None
  | S f =>
      match skip_space s with
      | String c rest =>
          if Ascii.eqb c quote then
            match scan_string rest with
            | Some (k, r) =>
                match skip_space r with
                | String ":" r1 =>
                    match parse_value f r1 with
                    | Some (x, r2) =>
                        match skip_space r2 with
                        | String "," r3 =>
                            match parse_members f r3 with
                            | Some (ms, r4) => Some ((k, x) :: ms, r4)
                            | None => None
                            end
                        | String "}" r3 => Some ([(k, x)], r3)
                        | _ => None
                        end
                    | None => None
                    end
                | _ => None
                end
            | None => None
            end
          else None
      | EmptyString => None
      end
  end.

Definition SyntaxError : error :=
  mkError (Some "Unexpected token in JSON") None.

Definition JSON_parse (s : string) : result js :=
  match parse_value (S (String.length s)) s with
  | Some (v, rest) =>
      match skip_space rest with
      | EmptyString => Ret v
      | String _ _ => Throw SyntaxError
      end
  | None => Throw SyntaxError
  end.

Definition ToNumber_other (v : js) : option Z :=
  match v with
  | JStr s =>
      match skip_space s with
      | EmptyString => Some 0
      | s' => match scan_int s' with
              | Some (n, rest) =>
                  match skip_space rest with
                  | EmptyString => Some n
                  | String _ _ => None
                  end
              | None => None
              end
      end
  | _ => None
  end.

Definition ToNumber (v : js) : option Z :=
  match v with
  | JNum n => Some n
  | JUndef => None
  | JNull => Some 0
  | JBool b => Some (if b then 1 else 0)
  | _ => ToNumber_other v
  end.

Definition gt_coerced (a b : js) : bool :=
  match ToNumber a, ToNumber b with
  | Some x, Some y => y <? x
  | _, _ => false
  end.

Fixpoint indexed (i : Z) (xs : list js) : list (string * js) :=
  match xs with
  | [] => []
  | x :: rest => (Number_toString i, x) :: indexed (i + 1) rest
  end.

Fixpoint characters (s : string) : list js :=
  match s with
  | EmptyString => []
  | String c rest => JStr (String c "") :: characters rest
  end.

Definition spread_indexed (v : js) : list (string * js) :=
  match v with
  | JArr xs => indexed 0 xs
  | JStr s => indexed 0 (characters s)
  | _ => []
  end.

Definition runtime : Runtime :=
  Build_Runtime JSON_parse stringify
    (mkError (Some "Cannot read properties of null") None)
    parseInt Number_toString Date_toISOString String_toLowerCase
    replace_whitespace ToNumber_other gt_coerced spread_indexed.

End Ref.

(** * The itinerary view, deletion, and the service worker *)

From Stdlib Require Import OrderedTypeEx Sorted.

(** Built-in functions of the JavaScript host that the view and the
    deletion handler call, besides those of [Runtime]. *)
Class Host : Type := {
  (** [a.localeCompare(b)]: negative, zero or positive. *)
  localeCompare : string -> string -> Z;
  (** ToString of a value that is not a string. *)
  ToString : js -> string;
  (** The time value of [new Date(v)] after [setHours(0, 0, 0, 0)], for a
      value other than [undefined]; [None] is NaN, an invalid date. *)
  Date_localMidnight : js -> option Z;
  (** [a === b] for two arrays or for two objects: whether they are the
      same object, which a value does not tell. *)
  same_object : js -> js -> bool
}.

(** ** The timeline of the selected day

    The two memoised computations of the component, [filteredEvents] and
    [currentCityStatus].  They run during render and throw a TypeError when
    the trip lacks what they read: [None].  [selectedDate] is a string, as
    its state cell declares. *)

Module Timeline.

(** [xs.filter(f)] for a callback that may throw. *)
Fixpoint filterM {A} (f : A -> option bool) (l : list A) : option (list A) :=
  match l with
  | [] => Some []
  | x :: rest =>
      b ← f x; r ← filterM f rest; Some (if b : bool then x :: r else r)
  end.

(** [xs.find(f)]: the first element the callback accepts, [Some None] when
    there is none. *)
Fixpoint findM {A} (f : A -> option bool) (l : list A) : option (option A) :=
  match l with
  | [] => Some None
  | x :: rest => b ← f x; if b : bool then Some (Some x) else findM f rest
  end.

(** The value must be an array for [.filter] to be callable on it: on
    [undefined] and [null] the access throws, on any other value of a JSON
    document [.filter] is not a function. *)
Definition as_array (v : js) : option (list js) :=
  match v with
  | JArr xs => Some xs
  | _ => None
  end.

(** [v.startsWith(p)]: only a string has the method. *)
Definition startsWith (v : js) (p : string) : option bool :=
  match v with
  | JStr s => Some (String.prefix p s)
  | _ => None
  end.

(** The relational operators on the time values of two dates: false when
    one of them is NaN. *)
Definition num_ge (a b : option Z) : bool :=
  match a, b with
  | Some x, Some y => y <=? x
  | _, _ => false
  end.

Definition num_lt (a b : option Z) : bool :=
  match a, b with
  | Some x, Some y => x <? y
  | _, _ => false
  end.

(** [xs.sort(cmp)] by insertion: for a consistent comparator, the one
    order ECMAScript prescribes (sorted, elements that compare equal in the
    order they had).  [insertM] goes past the elements that [x] compares
    greater than. *)
Fixpoint insertM {A} (cmp : A -> A -> option Z) (x : A) (l : list A)
  : option (list A) :=
  match l with
  | [] => Some [x]
  | y :: rest =>
      c ← cmp x y;
      if 0 <? c then r ← insertM cmp x rest; Some (y :: r)
      else Some (x :: l)
  end.

Fixpoint sortM {A} (cmp : A -> A -> option Z) (l : list A)
  : option (list A) :=
  match l with
  | [] => Some []
  | x :: rest => r ← sortM cmp rest; insertM cmp x r
  end.

Section View.
Context `{RT : Runtime} `{HT : Host}.

(** [x => x[key].startsWith(selectedDate)]. *)
Definition startsOn (key selectedDate : string) (x : js) : option bool :=
  t ← js_prop x key; startsWith t selectedDate.

(** [{ ...e, isFlight: false, isStay: false }]. *)
Definition eventItem (e : js) : js :=
  JObj (obj_set "isStay" (JBool false)
          (obj_set "isFlight" (JBool false) (App.js_spread e))).

(** [{ flight: f, isFlight: true, isStay: false, startTime: f.departureTime }]. *)
Definition flightItem (f : js) : option js :=
  t ← js_prop f "departureTime";
  Some (JObj [("flight", f); ("isFlight", JBool true); ("isStay", JBool false);
              ("startTime", t)]).

(** [{ stay: a, isFlight: false, isStay: true, startTime: '23:59:59' }]. *)
Definition stayItem (a : js) : js :=
  JObj [("stay", a); ("isFlight", JBool false); ("isStay", JBool true);
        ("startTime", JStr "23:59:59")].

(** [new Date(v)] with the time of day set to local midnight;
    [new Date(undefined)] is an invalid date. *)
Definition midnight (v : js) : option Z :=
  match v with
  | JUndef => None
  | _ => Date_localMidnight v
  end.

(** The filter of the accommodations: [d_cur >= d_start && d_cur < d_end]. *)
Definition stayCovers (selectedDate : string) (a : js) : option bool :=
  let d_cur := midnight (JStr selectedDate) in
  startDate ← js_prop a "startDate";
  endDate ← js_prop a "endDate";
  Some (num_ge d_cur (midnight startDate) && num_lt d_cur (midnight endDate)).

(** [(a, b) => a.startTime.localeCompare(b.startTime)]: the receiver must
    be a string, the argument is converted to one. *)
Definition byStartTime (a b : js) : option Z :=
  ta ← js_prop a "startTime";
  tb ← js_prop b "startTime";
  match ta with
  | JStr x =>
      Some (localeCompare x (match tb with JStr y => y | _ => ToString tb end))
  | _ => None
  end.

Definition filteredEvents (trip : js) (selectedDate : string)
  : option (list js) :=
  if negb (js_truthy trip) || String.eqb selectedDate "" then Some []
  else
    tripEvents ← js_prop trip "events";
    eventList ← as_array tripEvents;
    shown ← filterM (startsOn "startTime" selectedDate) eventList;
    let events := map eventItem shown in
    tripFlights ← js_prop trip "flights";
    flightList ← as_array tripFlights;
    departing ← filterM (startsOn "departureTime" selectedDate) flightList;
    flights ← mapM flightItem departing;
    tripStays ← js_prop trip "accommodations";
    stayList ← as_array tripStays;
    covering ← filterM (stayCovers selectedDate) stayList;
    let stays := map stayItem covering in
    sortedBase ← sortM byStartTime (events ++ flights)%list;
    Some (sortedBase ++ stays)%list.

(** The callback of [find] in [currentCityStatus]:
    [e.isFlight ? !!e.flight.arrival
                : (e.isStay ? !!e.stay.location : !!e.location)]. *)
Definition placeOf (e : js) : option js :=
  isFlight ← js_prop e "isFlight";
  if js_truthy isFlight then
    flight ← js_prop e "flight"; js_prop flight "arrival"
  else
    isStay ← js_prop e "isStay";
    if js_truthy isStay then
      stay ← js_prop e "stay"; js_prop stay "location"
    else js_prop e "location".

Definition hasPlace (e : js) : option bool :=
  place ← placeOf e; Some (js_truthy place).

(** [currentCityStatus], given [filteredEvents]; the three [return]s after
    the search read the property the search tested. *)
Definition currentCityStatus (filteredEvents : list js) : option js :=
  match filteredEvents with
  | [] => Some JNull
  | _ =>
      found ← findM hasPlace (rev filteredEvents);
      match found with
      | None => Some JNull
      | Some lastItem => placeOf lastItem
      end
  end.

End View.
End Timeline.

(** ** Deleting an item *)

Module Deletion.

(** [ModalMode] without [null]; ['trip'] is [tripSettings]. *)
Inductive ModalMode : Type :=
| event
| accommodation
| flight
| otherTransport
| tripSettings
| expense.

Section Handler.
Context `{RT : Runtime} `{HT : Host}.

(** [a === b]. *)
Definition strict_eq (a b : js) : bool :=
  match a, b with
  | JUndef, JUndef => true
  | JNull, JNull => true
  | JBool x, JBool y => Bool.eqb x y
  | JNum x, JNum y => x =? y
  | JStr x, JStr y => String.eqb x y
  | JArr _, JArr _ => same_object a b
  | JObj _, JObj _ => same_object a b
  | _, _ => false
  end.

(** [x => x.id !== item.id]. *)
Definition otherThan (item x : js) : option bool :=
  xid ← js_prop x "id"; iid ← js_prop item "id"; Some (negb (strict_eq xid iid)).

(** [trip[key].filter(x => x.id !== item.id)]. *)
Definition without (key : string) (item tr : js) : option js :=
  list ← js_prop tr key;
  xs ← Timeline.as_array list;
  kept ← Timeline.filterM (otherThan item) xs;
  Some (JArr kept).

(** The document [executeDelete] hands to [handleUpdateAndSync]: a copy of
    the trip, with one of its lists filtered in the four modes the handler
    knows. *)
Definition updated (mode : option ModalMode) (item tr : js) : option js :=
  let copy := App.js_spread tr in
  match mode with
  | Some event =>
      l ← without "events" item tr; Some (JObj (obj_set "events" l copy))
  | Some accommodation =>
      l ← without "accommodations" item tr;
      Some (JObj (obj_set "accommodations" l copy))
  | Some flight =>
      l ← without "flights" item tr; Some (JObj (obj_set "flights" l copy))
  | Some expense =>
      l ← without "expenses" item tr; Some (JObj (obj_set "expenses" l copy))
  | Some otherTransport | Some tripSettings | None => Some (JObj copy)
  end.

(** [executeDelete], with [itemToDelete] given as its [mode] and [item]
    ([None]: the cell holds [null]).  A TypeError leaves the state as it
    was: [None]. *)
Definition executeDelete (itemToDelete : option (option ModalMode * js))
  (s : App.state) : option App.state :=
  match itemToDelete with
  | None => Some s
  | Some (mode, item) =>
      if negb (js_truthy (App.trip (App.cells s))) then Some s
      else
        doc ← updated mode item (App.trip (App.cells s));
        Some (App.handleUpdateAndSync doc s)
  end.

End Handler.
End Deletion.

(** ** The service worker

    The three event handlers of the worker over an explicit CacheStorage.
    A cache maps request URLs (absolute, without fragment) to responses;
    responses carry no [Vary] header; the [cache.put] the fetch handler
    starts is taken to have completed when the next event is handled. *)

Module ServiceWorker.

Definition CACHE_NAME : string := "wandersync-v7-sync-robust".
Definition API_URL_KEYWORD : string := "macros/s/".

Record request : Type := mkRequest {
  url : string;
  method : string;
  mode : string
}.

Record response : Type := mkResponse {
  status : Z;
  body : string
}.

(** CacheStorage: the caches by name, in the order they were created. *)
Definition cacheStorage : Type := list (string * gmap string response).

(** What the network does with a request: a response, or a rejection. *)
Definition network : Type := request -> option response.

(** [caches.keys()]. *)
Definition keys (cs : cacheStorage) : list string := map fst cs.

(** [caches.delete(name)]. *)
Definition caches_delete (name : string) (cs : cacheStorage) : cacheStorage :=
  List.filter (fun c => negb (String.eqb (fst c) name)) cs.

(** The first response stored for the URL, the caches taken in the order
    of their creation. *)
Fixpoint lookupAll (u : string) (cs : cacheStorage) : option response :=
  match cs with
  | [] => None
  | (_, c) :: rest =>
      match c !! u with
      | Some r => Some r
      | None => lookupAll u rest
      end
  end.

(** [caches.match(request)]: only a GET request matches. *)
Definition caches_match (req : request) (cs : cacheStorage) : option response :=
  if String.eqb (method req) "GET" then lookupAll (url req) cs else None.

(** [caches.open(name)]: the cache is created when there is none of the
    name. *)
Fixpoint caches_open (name : string) (cs : cacheStorage) : cacheStorage :=
  match cs with
  | [] => [(name, ∅)]
  | (n, c) :: rest =>
      if String.eqb n name then cs else (n, c) :: caches_open name rest
  end.

(** [cache.put(u, r)] on the cache of the given name, which exists. *)
Fixpoint cache_put (name u : string) (r : response) (cs : cacheStorage)
  : cacheStorage :=
  match cs with
  | [] => []
  | (n, c) :: rest =>
      if String.eqb n name then (n, <[u := r]> c) :: rest
      else (n, c) :: cache_put name u r rest
  end.


(** What [event.respondWith] is given: the request is left to the browser
    when the handler returns without calling it; a promise that settles
    without a response is a network error for the page. *)
Inductive outcome : Type :=
| Bypass
| Respond (r : option response).

Section Handlers.
(** The absolute URL of a URL relative to the worker's script. *)
Variable resolve : string -> string.


(** The [activate] handler: every cache but the current one is deleted. *)
Definition onActivate (cs : cacheStorage) : cacheStorage :=
  fold_left (fun acc key => caches_delete key acc)
    (List.filter (fun key => negb (String.eqb key CACHE_NAME)) (keys cs)) cs.

(** The [fetch] handler. *)
Definition onFetch (net : network) (req : request) (cs : cacheStorage)
  : outcome * cacheStorage :=
  if includes (url req) API_URL_KEYWORD then (Bypass, cs)
  else
    match caches_match req cs with
    | Some cachedResponse => (Respond (Some cachedResponse), cs)
    | None =>
        match net req with
        | Some networkResponse =>
            if negb (status networkResponse =? 200)
            then (Respond (Some networkResponse), cs)
            else
              (Respond (Some networkResponse),
               let opened := caches_open CACHE_NAME cs in
               (* [cache.put] rejects a request that is not a GET *)
               if String.eqb (method req) "GET"
               then cache_put CACHE_NAME (url req) networkResponse opened
               else opened)
        | None =>
            if String.eqb (mode req) "navigate"
            then (Respond (lookupAll (resolve "./") cs), cs)
            else (Respond None, cs)
        end
    end.

End Handlers.

End ServiceWorker.

(** The endpoint the sync helpers use when no [SYNC_URL] is configured, and
    the URL of a pull at time [t]. *)
Definition SHEET_API_URL : string :=
  "https://script.google.com/macros/s/AKfycbzNWiondifG_ttagkAGglP2WX1hxVNWRxOna-O7Rq5F38J-PrM2asdTodQY-a2HE29X/exec".

Definition pullUrl `{Runtime} (t : Z) : string :=
  SHEET_API_URL +:+ "?t=" +:+ Number_toString t.

(** ** The long press

    [useLongPress]: [start] sets a timer for the callback, [stop] clears the
    timer the ref holds.  The timeline card binds [start] to [mousedown] and
    [touchstart], [stop] to [mouseup], [mouseleave], [touchend] and
    [touchmove]. *)

Module LongPress.

(** The delay when the hook is given none. *)
Definition DEFAULT_MS : Z := 600.

(** [timeoutRef.current], the pending timers with the time each is due,
    the clock, the next timer id (ids are positive), and how often the
    callback has run. *)
Record state : Type := mkState {
  timeoutRef : option nat;
  pending : list (nat * Z);
  clock : Z;
  nextId : nat;
  fired : nat
}.

Definition start (ms : Z) (s : state) : state :=
  mkState (Some (nextId s)) (pending s ++ [(nextId s, clock s + ms)])
          (clock s) (S (nextId s)) (fired s).

Definition stop (s : state) : state :=
  match timeoutRef s with
  | Some id =>
      mkState (timeoutRef s)
              (List.filter (fun t => negb (Nat.eqb (fst t) id)) (pending s))
              (clock s) (nextId s) (fired s)
  | None => s
  end.

(** [dt] milliseconds pass: the timers due by then run the callback. *)
Definition elapse (dt : Z) (s : state) : state :=
  let t := clock s + dt in
  mkState (timeoutRef s)
          (List.filter (fun x => negb (snd x <=? t)) (pending s))
          t (nextId s)
          (fired s + length (List.filter (fun x => snd x <=? t) (pending s))).

End LongPress.

(** * Vocabulary of the statements *)

Section Vocabulary.
Context `{RT : Runtime}.
Import App.

(** A document has an identity when it is an object whose [id] is truthy:
    for a string [id], as the type [Trip] declares it, a non-empty one. *)
Definition hasIdentity (d : js) : Prop :=
  exists fields, d = JObj fields /\ js_truthy (obj_get "id" fields) = true.

(** The state once the POST with the given body has been issued. *)
Definition afterPost (body : string) (s : state) : state :=
  set_env (fun b => mkBrowser (localStorage b) (clock b) (navigator_onLine b)
                      (timers b) (nextTimerId b) (posted b ++ [body])) s.

Definition pushBody (tr : js) (s : state) : string :=
  JSON_stringify (pushPayload tr (clock (env s))).

(** The timer queue once [debounceTimerRef.current] has been cleared. *)
Definition withoutDebounce (s : state) : list timer :=
  match debounceTimerRef s with
  | Some id =>
      List.filter (fun t => negb (Nat.eqb (timer_id t) id)) (timers (env s))
  | None => timers (env s)
  end.

(** The timer a local edit of [updatedTrip] in state [s] sets. *)
Definition editTimer (updatedTrip : js) (s : state) : timer :=
  mkTimer (nextTimerId (env s)) (clock (env s) + DEBOUNCE_MS)
          (stamp updatedTrip (clock (env s))) (isOnline (cells s)).

(** Every timer in the queue is the one [debounceTimerRef] holds: what the
    effect keeps true from the first render on. *)
Definition tidy (s : state) : Prop :=
  forall t, In t (timers (env s)) -> debounceTimerRef s = Some (timer_id t).

(** What a burst leaves behind: one pending push, for the last document. *)
Definition quiet (s : state) (doc : js) (t : Z) (online : bool)
  (sent : list string) : Prop :=
  exists id,
    timers (env s) = [mkTimer id (t + DEBOUNCE_MS) doc online] /\
    debounceTimerRef s = Some id /\
    clock (env s) = t /\
    isOnline (cells s) = online /\
    depsChanged s = false /\
    posted (env s) = sent.

(** [JSON.stringify] gives a non-empty text that [JSON.parse] reads back as
    the same value: what JSON promises for a value made of objects, arrays,
    strings, finite numbers, booleans and [null]. *)
Definition roundTrips (v : js) : Prop :=
  JSON_stringify v <> "" /\ JSON_parse (JSON_stringify v) = Ret v.

(** The value [pullFromCloud] resolves to. *)
Definition pulled (r : fetchResult) : js :=
  match r with
  | FetchResponse true body =>
      match JSON_parse body with
      | Ret (JObj fields) =>
          if js_truthy (obj_get "id" fields) then JObj fields else JNull
      | _ => JNull
      end
  | _ => JNull
  end.

(** [localData] of [performInitialPull]: the stored trip parsed, [null]
    when nothing is stored. *)
Definition localDoc (s : state) : result js :=
  match Storage.getItem STORAGE_KEY (localStorage (env s)) with
  | Some l => if String.eqb l "" then Ret JNull else JSON_parse l
  | None => Ret JNull
  end.

(** The merge condition of [performInitialPull] on a cloud object and a
    local value. *)
Definition cloudNewer (cloud : list (string * js)) (localData : js) : bool :=
  negb (js_truthy localData)
  || (js_truthy (obj_get "lastSynced" cloud)
      && js_truthy (default JUndef (js_prop localData "lastSynced"))
      && js_gt (obj_get "lastSynced" cloud)
               (default JUndef (js_prop localData "lastSynced"))).

(** The state changes of the adopting branch of [performInitialPull]. *)
Definition adopted (cloud : list (string * js)) (s : state) : state :=
  let c := obj_get "lastSynced" cloud in
  let s1 :=
    set_storage (Storage.setItem STORAGE_KEY (JSON_stringify (JObj cloud)))
                (setTrip (JObj cloud) s) in
  let s2 := if js_truthy c then setLastSyncedAt c s1 else s1 in
  set_storage (Storage.removeItem PENDING_SYNC_KEY) (setHasPendingSync false s2).

(** The reconcile policy in the words of the specification, on trip
    documents ([None]: absent): 1. local absent, adopt remote; 2. remote
    absent, keep local; 3. both carry a [lastSynced] timestamp (a non-empty
    string), adopt the one with the greater timestamp, ties keep local;
    4. otherwise keep local. *)
Definition reconcile_spec (local remote : option (list (string * js)))
  : option (list (string * js)) :=
  match local, remote with
  | None, _ => remote
  | Some l, None => Some l
  | Some l, Some r =>
      match obj_get "lastSynced" l, obj_get "lastSynced" r with
      | JStr t1, JStr t2 =>
          if negb (String.eqb t1 "") && negb (String.eqb t2 "")
          then (if String.ltb t1 t2 then Some r else Some l)
          else Some l
      | _, _ => Some l
      end
  end.

(** [lastSynced] is a string when present, as the type [Trip] declares. *)
Definition timestampTyped (d : list (string * js)) : Prop :=
  obj_get "lastSynced" d = JUndef \/ exists t, obj_get "lastSynced" d = JStr t.

(** What reconciliation decides: the trip in memory, the last sync time and
    the pending flag shown, and localStorage. *)
Definition syncView (s : state) : js * js * bool * gmap string string :=
  (trip (cells s), lastSyncedAt (cells s), hasPendingSync (cells s),
   localStorage (env s)).

End Vocabulary.

Section WeatherVocabulary.
Context `{RT : Runtime}.
Import Weather.

(** localStorage once a rate-limit error was caught at time [t]. *)
Definition cool (t : Z) (st : gmap string string) : gmap string string :=
  <[COOLDOWN_KEY := Number_toString (t + COOLDOWN_DURATION)]> st.

(** The delays of [n] successive retries that start at [delay]. *)
Fixpoint backoff (delay : Z) (n : nat) : list Z :=
  match n with
  | O => []
  | S m => delay :: backoff (delay * 2) m
  end.

(** The circuit breaker is open: a cooldown is stored and its end, as
    [parseInt] reads it, is still ahead. *)
Definition cooldownOn (w : world) : Prop :=
  exists c u,
    Storage.getItem COOLDOWN_KEY (ls w) = Some c /\ c <> "" /\
    parseInt c = Some u /\ now w < u.

(** The text the fetch reads from the cache for [city]: the item under the
    cache key; none for the empty key, which the fetch answers before it
    computes a cache key. *)
Definition cacheSlot (w : world) (city : string) : option string :=
  if String.eqb city "" then None
  else Storage.getItem (cacheKey city) (ls w).

(** A cache entry for [city] is stored, and its payload is [d]. *)
Definition storedEntry (w : world) (city : string) (d : js) : Prop :=
  exists text entry,
    cacheSlot w city = Some text /\ text <> "" /\
    JSON_parse text = Ret entry /\ js_prop entry "data" = Some d.

(** No cache entry for [city] is stored. *)
Definition noEntry (w : world) (city : string) : Prop :=
  cacheSlot w city = None.

(** What is stored under the cache key of [city], if anything, is the JSON
    text of a value other than [null]. *)
Definition entryReadable (w : world) (city : string) : Prop :=
  forall text,
    cacheSlot w city = Some text -> text <> "" ->
    exists entry d, JSON_parse text = Ret entry /\ js_prop entry "data" = Some d.


(** The fetch returns the stored payload, or [null] when nothing is stored. *)
Definition fallsBackToCache (net : network) (city : string) (w : world) : Prop :=
  (forall d, storedEntry w city d -> fst (getCityWeather net city w) = Ret d) /\
  (noEntry w city -> fst (getCityWeather net city w) = Ret JNull).

Definition neverThrows (net : network) (city : string) (w : world) : Prop :=
  exists v, fst (getCityWeather net city w) = Ret v.

(** The fetch gets as far as the API call: the key is not empty, no
    cooldown is active, and the cache holds no fresh entry. *)
Definition reachesNetwork (city : string) (w : world) : Prop :=
  city <> "" /\
  cooldownActive (Storage.getItem COOLDOWN_KEY (ls w)) (now w) = false /\
  checkCache (Storage.getItem (cacheKey city) (ls w)) w = (Ret None, w).

(** The network call of the fetch fails for good: the fetch gets as far as
    the API call and the retry wrapper throws (an error that is not
    retried, or the retry failing too). *)
Definition networkFails (net : network) (city : string) (w : world) : Prop :=
  reachesNetwork city w /\
  exists e,
    fst (retryWithBackoff (generateContent net (prompt city)) 1 3000 w) = Throw e.

(** The network call succeeds, leaving world [w1], and the payload it
    delivers parses to [payload]. *)
Definition networkDelivers (net : network) (city : string) (w w1 : world)
  (payload : js) : Prop :=
  exists text,
    retryWithBackoff (generateContent net (prompt city)) 1 3000 w
      = (Ret text, w1) /\
    JSON_parse (textOrEmptyObject text) = Ret payload.

(** The payload has no [temp]. *)
Definition lacksTemp (payload : js) : Prop :=
  forall x, js_prop payload "temp" = Some x -> x = JUndef.

End WeatherVocabulary.

(** * Vocabulary of the statements about the view and the handlers *)

Section ViewVocabulary.
Context `{RT : Runtime} `{HT : Host}.
Import Timeline.

(** The item has, under [key], a string that starts with the date. *)
Definition onDay (key date : string) (x : js) : bool :=
  match js_prop x key with
  | Some (JStr t) => String.prefix date t
  | _ => false
  end.

(** The stay is one the view shows on the date. *)
Definition covers (date : string) (a : js) : bool :=
  default false (stayCovers date a).

(** The timeline entry of a flight. *)
Definition flightEntry (f : js) : js :=
  JObj [("flight", f); ("isFlight", JBool true); ("isStay", JBool false);
        ("startTime", default JUndef (js_prop f "departureTime"))].

(** The item has a string under [key]. *)
Definition timed (key : string) (x : js) : Prop :=
  exists t, js_prop x key = Some (JStr t).

(** The trip has what the timeline reads: its three lists, a start time in
    every event, a departure time in every flight, and no [null] among the
    accommodations. *)
Definition wellFormed (trip : js) : Prop :=
  exists events flights stays,
    js_prop trip "events" = Some (JArr events) /\
    js_prop trip "flights" = Some (JArr flights) /\
    js_prop trip "accommodations" = Some (JArr stays) /\
    Forall (timed "startTime") events /\
    Forall (timed "departureTime") flights /\
    Forall (fun a => a <> JNull /\ a <> JUndef) stays.

(** [a] does not start after [b], as [localeCompare] orders their start
    times. *)
Definition notAfter (a b : js) : Prop :=
  exists ta tb,
    js_prop a "startTime" = Some (JStr ta) /\
    js_prop b "startTime" = Some (JStr tb) /\
    localeCompare ta tb <= 0.

(** [localeCompare] is a consistent comparator, as ECMAScript requires of
    it. *)
Definition consistentComparator : Prop :=
  (forall x y, 0 < localeCompare x y -> localeCompare y x <= 0) /\
  (forall x y z, localeCompare x y <= 0 -> localeCompare y z <= 0 ->
                 localeCompare x z <= 0).

(** The entry is a stay, and the other kinds. *)
Definition isStayItem (it : js) : Prop :=
  js_prop it "isStay" = Some (JBool true) /\
  js_prop it "isFlight" = Some (JBool false).

Definition isBaseItem (it : js) : Prop :=
  js_prop it "isStay" = Some (JBool false).

(** The stay has no location to show. *)
Definition unlocated (a : js) : Prop :=
  forall l, js_prop a "location" = Some l -> js_truthy l = false.

End ViewVocabulary.

Section DeletionVocabulary.
Context `{RT : Runtime} `{HT : Host}.
Import Deletion.

(** The list of the trip a deletion in the given mode filters. *)
Definition listOf (mode : option ModalMode) : option string :=
  match mode with
  | Some event => Some "events"
  | Some accommodation => Some "accommodations"
  | Some flight => Some "flights"
  | Some expense => Some "expenses"
  | Some otherTransport | Some tripSettings | None => None
  end.

(** The identifier of the entry is the string [i]. *)
Definition hasId (i : string) (x : js) : bool :=
  match js_prop x "id" with
  | Some (JStr j) => String.eqb j i
  | _ => false
  end.

(** Every entry has a string for identifier. *)
Definition identified (xs : list js) : Prop :=
  Forall (fun x => exists j, js_prop x "id" = Some (JStr j)) xs.

End DeletionVocabulary.

Section FlagVocabulary.
Context `{RT : Runtime}.
Import App.

(** The pending flag as the component reads it from storage when it
    mounts. *)
Definition flagStored (st : gmap string string) : bool :=
  match Storage.getItem PENDING_SYNC_KEY st with
  | Some v => String.eqb v "true"
  | None => false
  end.

(** The pending indicator shows what is stored, and every pending timer
    carries a trip: the effect sets none while there is no trip. *)
Definition pendingAgrees (s : state) : Prop :=
  hasPendingSync (cells s) = flagStored (localStorage (env s)) /\
  Forall (fun t => js_truthy (timer_trip t) = true) (timers (env s)).

End FlagVocabulary.

(** * Sample data *)

Module Samples.
Import App.

Definition tripLocal : list (string * js) :=
  [("id", JStr "t1burning");
   ("name", JStr "JC US Trip 2026");
   ("startDate", JStr "2026-05-15");
   ("tripNotes", JStr "pack light");
   ("lastSynced", JStr "2026-01-02T00:00:00.000Z")].

Definition tripCloud : list (string * js) :=
  [("id", JStr "t1burning");
   ("name", JStr "JC US Trip 2026");
   ("startDate", JStr "2026-05-15");
   ("tripNotes", JStr "");
   ("lastSynced", JStr "2026-01-01T00:00:00.000Z")].

(** 2026-01-02T12:00:00Z in milliseconds. *)
Definition noon : Z := 1767355200000.

(** A browser with empty storage, no timer, nothing sent. *)
Definition cleanBrowser : browser := mkBrowser ∅ noon true [] 1 [].

(** The component right after it mounted on [cleanBrowser]. *)
Definition mounted : state := @initialState cleanBrowser.

(** A browser whose storage holds [tripLocal], written by the sample
    runtime, and the component mounted on it. *)
Definition savedBrowser : browser :=
  mkBrowser {[ STORAGE_KEY := Ref.stringify (JObj tripLocal) ]} noon true [] 1 [].

Definition resumed : state :=
  snd (@mountEffect Ref.runtime (@initialState savedBrowser)).

(** The response of the sync endpoint that carries [tripCloud]. *)
Definition cloudResponse : fetchResult :=
  FetchResponse true (Ref.stringify (JObj tripCloud)).

(** *** The weather service *)

Definition sunny : js := JObj [("temp", JNum 21); ("condition", JStr "Sunny")].

(** A cache entry written at time 0, long past the freshness window at
    [noon]. *)
Definition entryText : string :=
  Ref.stringify (JObj [("data", sunny); ("timestamp", JNum 0)]).

Definition err429 : error :=
  mkError (Some "got status: 429 Too Many Requests") (Some 429).

Definition err500 : error := mkError (Some "Internal error") (Some 500).

(** Networks that answer every request the same way, after 120 ms. *)
Definition net429 : Weather.network := fun _ _ => (120, Throw err429).
Definition net500 : Weather.network := fun _ _ => (120, Throw err500).
Definition netNull : Weather.network := fun _ _ => (120, Ret (Some "null")).
Definition netNoTemp : Weather.network :=
  fun _ _ => (120, Ret (Some (Ref.stringify (JObj [("condition", JStr "Sunny")])))).

(** A stale entry for Paris, no cooldown. *)
Definition staleWorld : Weather.world :=
  Weather.mkWorld {[ "ws_weather_paris" := entryText ]} noon 0 [].

(** The circuit breaker open for fifteen minutes from [noon], with a stale
    entry for Paris and one under the bare prefix. *)
Definition coolingWorld : Weather.world :=
  Weather.mkWorld
    (<[ "ws_weather_cooldown" := Ref.Number_toString (noon + 900000) ]>
       (<[ "ws_weather_" := entryText ]> {[ "ws_weather_paris" := entryText ]}))
    (noon + 1000) 2 [3000].

(** Something that is not JSON under the cache key of Paris. *)
Definition corruptWorld : Weather.world :=
  Weather.mkWorld {[ "ws_weather_paris" := "oops" ]} noon 0 [].

(** [staleWorld] after one request that took 120 ms. *)
Definition afterOneCall : Weather.world :=
  Weather.mkWorld {[ "ws_weather_paris" := entryText ]} (noon + 120) 1 [].

End Samples.

(** * More sample data *)

Module MoreSamples.

(** An entry for Paris written one second before [noon]. *)
Definition freshText : string :=
  Ref.stringify
    (JObj [("data", Samples.sunny); ("timestamp", JNum (Samples.noon - 1000))]).

Definition freshWorld : Weather.world :=
  Weather.mkWorld {[ "ws_weather_paris" := freshText ]} Samples.noon 0 [].

(** A network that delivers [sunny] after 120 ms. *)
Definition netSunny : Weather.network :=
  fun _ _ => (120, Ret (Some (Ref.stringify Samples.sunny))).

End MoreSamples.

(** * A small host for the examples

    The time zone is UTC and dates are read from strings that begin with
    [YYYY-MM-DD]; strings are ordered by code unit. *)

Module RefHost.

Definition localeCompare (a b : string) : Z :=
  match String.compare a b with
  | Lt => -1
  | Eq => 0
  | Gt => 1
  end.

Fixpoint ToString (v : js) : string :=
  match v with
  | JUndef => "undefined"
  | JNull => "null"
  | JBool true => "true"
  | JBool false => "false"
  | JNum n => Ref.Number_toString n
  | JStr s => s
  | JArr xs =>
      Ref.join ","
        (map (fun x => match x with
                       | JUndef | JNull => ""
                       | _ => ToString x
                       end) xs)
  | JObj _ => "[object Object]"
  end.

Definition digit (c : ascii) : option Z :=
  if Ref.is_digit c then Some (Z.of_nat (nat_of_ascii c) - 48) else None.

(** The day number, counted from 1970-01-01, of a civil date. *)
Definition days_from_civil (y m d : Z) : Z :=
  let y' := if m <=? 2 then y - 1 else y in
  let era := y' / 400 in
  let yoe := y' - era * 400 in
  let doy := (153 * (if 2 <? m then m - 3 else m + 9) + 2) / 5 + d - 1 in
  let doe := yoe * 365 + yoe / 4 - yoe / 100 + doy in
  era * 146097 + doe - 719468.

Definition parseDay (s : string) : option Z :=
  match s with
  | String y1 (String y2 (String y3 (String y4 (String "-"
      (String m1 (String m2 (String "-" (String d1 (String d2 rest))))))))) =>
      a ← digit y1; b ← digit y2; c ← digit y3; e ← digit y4;
      f ← digit m1; g ← digit m2; h ← digit d1; i ← digit d2;
      let y := 1000 * a + 100 * b + 10 * c + e in
      let m := 10 * f + g in
      let d := 10 * h + i in
      if (1 <=? m) && (m <=? 12) && (1 <=? d) && (d <=? 31)
         && match rest with
            | EmptyString => true
            | String "T" _ => true
            | _ => false
            end
      then Some (days_from_civil y m d)
      else None
  | _ => None
  end.

Definition Date_localMidnight (v : js) : option Z :=
  match v with
  | JStr s => day ← parseDay s; Some (day * 86400000)
  | JNum n => Some (n / 86400000 * 86400000)
  | JNull | JBool _ => Some 0
  | JUndef | JArr _ | JObj _ => None
  end.

Definition same_object (a b : js) : bool := false.

Definition host : Host :=
  Build_Host localeCompare ToString Date_localMidnight same_object.

End RefHost.

Module ViewSamples.

Definition dinner : js :=
  JObj [("id", JStr "1"); ("title", JStr "Arrival Dinner");
        ("startTime", JStr "2026-05-15T20:00:00"); ("location", JStr "Toronto")].

Definition museum : js :=
  JObj [("id", JStr "2"); ("title", JStr "Museum");
        ("startTime", JStr "2026-05-15T10:00:00"); ("location", JStr "Downtown")].

Definition hike : js :=
  JObj [("id", JStr "3"); ("title", JStr "Hike");
        ("startTime", JStr "2026-05-16T09:00:00")].

Definition arrival : js :=
  JObj [("id", JStr "f1"); ("flightNo", JStr "AC 016");
        ("departure", JStr "HKG"); ("arrival", JStr "YYZ");
        ("departureTime", JStr "2026-05-15T08:30:00");
        ("arrivalTime", JStr "2026-05-15T18:00:00")].

Definition hotel : js :=
  JObj [("id", JStr "h1"); ("name", JStr "Harbour Hotel");
        ("startDate", JStr "2026-05-15"); ("endDate", JStr "2026-05-18");
        ("location", JStr "1 Harbour Square")].

Definition journey : js :=
  JObj [("id", JStr "t1"); ("name", JStr "JC US Trip 2026");
        ("startDate", JStr "2026-05-15"); ("endDate", JStr "2026-05-29");
        ("events", JArr [dinner; museum; hike]);
        ("flights", JArr [arrival]);
        ("accommodations", JArr [hotel]);
        ("expenses", JArr [])].

End ViewSamples.

(** * Reasoning about asynchronous code *)

Ltac unfold_m :=
  unfold bind, try_catch, ret, throw, gets, modify, lift_result, prop in *.

Ltac settle_cases :=
  repeat split; intros;
  repeat match goal with
    | H : exists _, _ |- _ => destruct H
    | H : _ /\ _ |- _ => destruct H
    | H : Throw _ = Throw _ |- _ => injection H as H; subst
    | H : Ret _ = Throw _ |- _ => discriminate H
    | H : Throw _ = Ret _ |- _ => discriminate H
    | H : forall e, Throw ?x = Throw e -> _ |- _ => specialize (H x eq_refl)
    end;
  repeat match goal with
    | H : Weather.isRateLimit ?e = _ |- context [Weather.isRateLimit ?e] =>
        rewrite H
    end;
  try congruence; try lia; eauto.

(** * Pull *)

Section PullFacts.
Context `{RT : Runtime}.
Import App.

Lemma truthy_string_nonempty (x : string) :
  js_truthy (JStr x) = true <-> x <> "".
Proof.
  simpl. rewrite negb_true_iff. apply String.eqb_neq.
Qed.

Lemma hasIdentity_string_id (fields : list (string * js)) (x : string) :
  obj_get "id" fields = JStr x -> (hasIdentity (JObj fields) <-> x <> "").
Proof.
  intros Hid. rewrite <- truthy_string_nonempty, <- Hid. split.
  - intros (fs & Heq & Ht). by inversion Heq; subst.
  - intros Ht. by exists fields.
Qed.

(** What [data && data.id] decides. *)
Lemma truthy_with_id (d : js) :
  (js_truthy d = true /\
   exists i, js_prop d "id" = Some i /\ js_truthy i = true)
  <-> hasIdentity d.
Proof.
  split.
  - intros (Hd & i & Hp & Hi). destruct d; simpl in *; try discriminate;
      try (injection Hp as <-; discriminate).
    injection Hp as <-. by exists fields.
  - intros (fs & -> & Ht). split; [done|]. by exists (obj_get "id" fs).
Qed.

Lemma pullFromCloud_total (r : fetchResult) (s : state) :
  pullFromCloud r s =
    (Ret match r with
         | FetchResponse true body =>
             match JSON_parse body with
             | Ret (JObj fields) =>
                 if js_truthy (obj_get "id" fields) then JObj fields else JNull
             | _ => JNull
             end
         | _ => JNull
         end, s).
Proof.
  unfold pullFromCloud. unfold_m.
  destruct r as [e|[] body]; simpl; try reflexivity.
  destruct (JSON_parse body) as [d|e]; simpl; try reflexivity.
  destruct d; simpl; try reflexivity.
  - by destruct b.
  - by destruct (n =? 0).
  - by destruct (String.eqb s0 "").
  - by destruct (js_truthy (obj_get "id" fields)).
Qed.

End PullFacts.

Section PullTheorem.
Context `{RT : Runtime}.
Import App.

(** C8. [pullFromCloud] never throws and leaves the state alone; it returns
    a document (a value other than [null]) exactly when the response is ok
    and its body parses to JSON with a non-empty identity field; on a
    rejected request, a response that is not ok, or a body that does not
    parse, it returns [null]. *)
Theorem pull_returns_document_iff_identity (r : fetchResult) (s : state) :
  (exists v, pullFromCloud r s = (Ret v, s)) /\
  (forall d, d <> JNull ->
     (fst (pullFromCloud r s) = Ret d <->
      exists body,
        r = FetchResponse true body /\ JSON_parse body = Ret d /\
        hasIdentity d)) /\
  (forall e, r = FetchRejected e -> fst (pullFromCloud r s) = Ret JNull) /\
  (forall body,
     r = FetchResponse false body -> fst (pullFromCloud r s) = Ret JNull) /\
  (forall body e,
     r = FetchResponse true body -> JSON_parse body = Throw e ->
     fst (pullFromCloud r s) = Ret JNull).
Proof.
  rewrite pullFromCloud_total. simpl. repeat split.
  - eauto.
  - intros Hret. destruct r as [e|[] body]; try (by inversion Hret; subst).
    exists body. destruct (JSON_parse body) as [v|e];
      [|by inversion Hret; subst].
    destruct v; try (by inversion Hret; subst).
    destruct (js_truthy (obj_get "id" fields)) eqn:Hid;
      [|by inversion Hret; subst].
    inversion Hret; subst. repeat split. by exists fields.
  - intros (body & -> & Hparse & fields & -> & Hid). by rewrite Hparse, Hid.
  - by intros e ->.
  - by intros body ->.
  - intros body e -> Hparse. by rewrite Hparse.
Qed.

End PullTheorem.

(** The sample response carries a document with an identity and is
    returned; a rejected request gives [null]. *)
Lemma pull_returns_document_witness :
  let RT := Ref.runtime in
  fst (App.pullFromCloud Samples.cloudResponse Samples.mounted)
    = Ret (JObj Samples.tripCloud) /\
  fst (App.pullFromCloud (App.FetchRejected Samples.err500) Samples.mounted)
    = Ret JNull.
Proof.
  cbv zeta.
  destruct (@pull_returns_document_iff_identity Ref.runtime
              Samples.cloudResponse Samples.mounted) as (_ & Hiff & _).
  destruct (@pull_returns_document_iff_identity Ref.runtime
              (App.FetchRejected Samples.err500) Samples.mounted)
    as (_ & _ & Hrejected & _).
  split; [|by apply (Hrejected Samples.err500)].
  apply Hiff; [discriminate|].
  exists (Ref.stringify (JObj Samples.tripCloud)).
  split; [reflexivity|]. split; [vm_compute; reflexivity|].
  exists Samples.tripCloud. split; reflexivity.
Defined.

(** * Push and the pending flag *)

Section PushFacts.
Context `{RT : Runtime}.
Import App.

Lemma pushToCloud_rejected (net : postNetwork) (tr : js) (s : state) (e : error) :
  net (length (posted (env s))) (pushBody tr s) = Some e ->
  pushToCloud net tr s =
    (Ret false,
     set_storage (Storage.setItem PENDING_SYNC_KEY "true")
       (afterPost (pushBody tr s) s)).
Proof.
  intros Hnet. unfold pushToCloud, fetchPost, pushBody in *. unfold_m.
  simpl. by rewrite Hnet.
Qed.

Lemma pushToCloud_resolved (net : postNetwork) (tr : js) (s : state) :
  net (length (posted (env s))) (pushBody tr s) = None ->
  pushToCloud net tr s =
    (Ret true,
     set_storage (Storage.removeItem PENDING_SYNC_KEY)
       (afterPost (pushBody tr s) s)).
Proof.
  intros Hnet. unfold pushToCloud, fetchPost, pushBody in *. unfold_m.
  simpl. by rewrite Hnet.
Qed.

(** C7. When the POST of a push rejects, [pushToCloud] returns [false] with
    the pending flag stored as ['true']; the timer callback then sets
    [hasPendingSync], and a component mounted later on the same storage
    starts with [hasPendingSync] true.  When the POST resolves,
    [pushToCloud] returns [true] and the stored flag is gone. *)
Theorem push_failure_persists_pending_flag
  (net : postNetwork) (tr : js) (s : state) :
  let attempt := net (length (posted (env s))) (pushBody tr s) in
  let s1 := snd (pushToCloud net tr s) in
  let s2 := snd (debouncedPush net tr true s) in
  (forall e, attempt = Some e ->
     fst (pushToCloud net tr s) = Ret false /\
     Storage.getItem PENDING_SYNC_KEY (localStorage (env s1)) = Some "true" /\
     hasPendingSync (cells s2) = true /\
     Storage.getItem PENDING_SYNC_KEY (localStorage (env s2)) = Some "true" /\
     forall b : browser,
       localStorage b = localStorage (env s2) ->
       hasPendingSync (cells (initialState b)) = true) /\
  (attempt = None ->
     fst (pushToCloud net tr s) = Ret true /\
     Storage.getItem PENDING_SYNC_KEY (localStorage (env s1)) = None /\
     forall b : browser,
       localStorage b = localStorage (env s1) ->
       hasPendingSync (cells (initialState b)) = false).
Proof.
  cbv zeta. split.
  - intros e Hnet. unfold debouncedPush. unfold_m. simpl.
    rewrite (pushToCloud_rejected _ _ _ e Hnet).
    assert (Hnet' :
      net (length (posted (env (setSyncing true s))))
          (pushBody tr (setSyncing true s)) = Some e) by exact Hnet.
    rewrite (pushToCloud_rejected _ _ _ e Hnet'). simpl.
    unfold Storage.getItem, Storage.setItem.
    rewrite !lookup_insert_eq. repeat split.
    intros b ->. unfold initialState, Storage.getItem. simpl.
    by rewrite lookup_insert_eq.
  - intros Hnet. rewrite (pushToCloud_resolved _ _ _ Hnet). simpl.
    unfold Storage.getItem, Storage.removeItem.
    rewrite lookup_delete_eq. repeat split.
    intros b ->. unfold initialState, Storage.getItem. simpl.
    by rewrite lookup_delete_eq.
Qed.

End PushFacts.

(** Scenario C of the specification: the POST is rejected; the flag is
    stored, and a component mounted afterwards starts with it set. *)
Lemma push_failure_witness :
  let RT := Ref.runtime in
  let net : App.postNetwork := fun _ _ => Some Samples.err500 in
  let s2 := snd (App.debouncedPush net (JObj Samples.tripLocal) true
                   Samples.resumed) in
  App.hasPendingSync (App.cells s2) = true /\
  App.hasPendingSync
    (App.cells
       (App.initialState
          (App.mkBrowser (App.localStorage (App.env s2)) (Samples.noon + 60000)
             true [] 1 []))) = true.
Proof.
  cbv zeta.
  destruct (@push_failure_persists_pending_flag Ref.runtime
              (fun _ _ => Some Samples.err500) (JObj Samples.tripLocal)
              Samples.resumed) as (Hfail & _).
  destruct (Hfail Samples.err500 eq_refl) as (_ & _ & Hflag & _ & Hreload).
  split; [exact Hflag|]. by apply Hreload.
Defined.

(** * Local edits *)

Section EditFacts.
Context `{RT : Runtime}.
Import App.

Lemma obj_get_set_eq (k : string) (v : js) (fields : list (string * js)) :
  obj_get k (obj_set k v fields) = v.
Proof.
  induction fields as [|[k' v'] rest IH]; simpl.
  - by rewrite String.eqb_refl.
  - destruct (String.eqb k k') eqn:Hk; simpl; rewrite Hk; [done|apply IH].
Qed.

Lemma obj_get_set_ne (k k' : string) (v : js) (fields : list (string * js)) :
  k' <> k -> obj_get k' (obj_set k v fields) = obj_get k' fields.
Proof.
  intros Hne. induction fields as [|[k0 v0] rest IH]; simpl.
  - by apply String.eqb_neq in Hne as ->.
  - destruct (String.eqb k k0) eqn:Hk; simpl.
    + apply String.eqb_eq in Hk as <-. by apply String.eqb_neq in Hne as ->.
    + by rewrite IH.
Qed.

Lemma handleUpdateAndSync_state (updatedTrip : js) (s : state) :
  handleUpdateAndSync updatedTrip s =
    let d := stamp updatedTrip (clock (env s)) in
    mkState (mkUi d (isOnline (cells s)) (syncing (cells s))
               (lastSyncedAt (cells s)) (hasPendingSync (cells s)))
            (debounceTimerRef s) true (hasCleanup s)
            (mkBrowser (<[STORAGE_KEY := JSON_stringify d]> (localStorage (env s)))
               (clock (env s)) (navigator_onLine (env s)) (timers (env s))
               (nextTimerId (env s)) (posted (env s))).
Proof. reflexivity. Qed.

Lemma filter_twice {A} (f : A -> bool) (l : list A) :
  List.filter f (List.filter f l) = List.filter f l.
Proof.
  induction l as [|x l IH]; simpl; [done|].
  destruct (f x) eqn:Hx; simpl; [by rewrite Hx, IH|done].
Qed.

(** A local edit as one state change: the stamped trip in the state cell and
    in storage, the old debounce timer gone, a new one at the end of the
    queue. *)
Lemma localEdit_state (updatedTrip : js) (s : state) :
  localEdit updatedTrip s =
    let d := stamp updatedTrip (clock (env s)) in
    mkState (mkUi d (isOnline (cells s)) (syncing (cells s))
               (lastSyncedAt (cells s)) (hasPendingSync (cells s)))
            (Some (nextTimerId (env s))) false true
            (mkBrowser (<[STORAGE_KEY := JSON_stringify d]> (localStorage (env s)))
               (clock (env s)) (navigator_onLine (env s))
               (withoutDebounce s ++ [editTimer updatedTrip s])
               (S (nextTimerId (env s))) (posted (env s))).
Proof.
  unfold localEdit, commit. rewrite handleUpdateAndSync_state. cbv zeta.
  unfold autoSyncEffect, withoutDebounce, editTimer, clearDebounceTimer.
  destruct s as [c ref dc hc b]. simpl.
  destruct hc, ref as [id|]; simpl; try reflexivity.
  by rewrite filter_twice.
Qed.

End EditFacts.

Section EditTheorem.
Context `{RT : Runtime}.
Import App.


End EditTheorem.


(** * Reconciliation on the initial pull *)

Section ReconcileFacts.
Context `{RT : Runtime}.
Import App.

Lemma pullFromCloud_pulled (r : fetchResult) (s : state) :
  pullFromCloud r s = (Ret (pulled r), s).
Proof. apply pullFromCloud_total. Qed.

(** [pullFromCloud] resolves to [null] or to an object with an identity. *)
Lemma pulled_cases (r : fetchResult) :
  pulled r = JNull \/
  exists fields, pulled r = JObj fields /\ js_truthy (obj_get "id" fields) = true.
Proof.
  unfold pulled. destruct r as [e|[] body]; auto.
  destruct (JSON_parse body) as [[]|e]; auto.
  destruct (js_truthy (obj_get "id" fields)) eqn:Hid; eauto.
Qed.

Lemma cloudWins_cloudNewer (cloud : list (string * js)) (localData : js)
  (s : state) :
  cloudWins (JObj cloud) localData s = (Ret (cloudNewer cloud localData), s).
Proof.
  unfold cloudWins, cloudNewer. unfold_m. simpl.
  destruct (js_truthy localData) eqn:Hl; simpl; [|done].
  destruct (js_truthy (obj_get "lastSynced" cloud)); simpl; [|done].
  destruct localData; simpl in *; try discriminate; try done.
  by destruct (js_truthy (obj_get "lastSynced" fields)).
Qed.

Lemma performInitialPull_offline (r : fetchResult) (s : state) :
  navigator_onLine (env s) = false -> performInitialPull r s = (Ret tt, s).
Proof.
  intros Hoff. unfold performInitialPull. unfold_m. by rewrite Hoff.
Qed.

(** [performInitialPull] when the browser is online, by what was pulled,
    what is stored, and the merge condition. *)
Lemma performInitialPull_online (r : fetchResult) (s : state) :
  navigator_onLine (env s) = true ->
  performInitialPull r s =
    match pulled r with
    | JObj cloud =>
        match localDoc s with
        | Ret l =>
            if cloudNewer cloud l
            then (Ret tt, setSyncing false (adopted cloud (setSyncing true s)))
            else (Ret tt, setSyncing false (setSyncing true s))
        | Throw e => (Throw e, setSyncing true s)
        end
    | _ => (Ret tt, setSyncing false (setSyncing true s))
    end.
Proof.
  intros Hon. unfold performInitialPull. unfold_m. rewrite Hon.
  cbn [negb]. cbv beta iota. rewrite pullFromCloud_pulled.
  destruct (pulled_cases r) as [->|(cloud & -> & Hid)]; [reflexivity|].
  change (js_truthy (JObj cloud)) with true. cbv iota beta.
  unfold localDoc.
  change (localStorage (env (setSyncing true s))) with (localStorage (env s)).
  destruct (Storage.getItem STORAGE_KEY (localStorage (env s))) as [l|].
  - destruct (String.eqb l ""); cbv beta iota.
    + rewrite cloudWins_cloudNewer.
      destruct (cloudNewer cloud JNull); [|reflexivity].
      unfold adopted. simpl.
      by destruct (js_truthy (obj_get "lastSynced" cloud)).
    + destruct (JSON_parse l) as [v|e]; [|reflexivity].
      cbv beta iota. rewrite cloudWins_cloudNewer.
      destruct (cloudNewer cloud v); [|reflexivity].
      unfold adopted. simpl.
      by destruct (js_truthy (obj_get "lastSynced" cloud)).
  - cbv beta iota. rewrite cloudWins_cloudNewer.
    destruct (cloudNewer cloud JNull); [|reflexivity].
    unfold adopted. simpl.
    by destruct (js_truthy (obj_get "lastSynced" cloud)).
Qed.

Lemma ltb_irrefl (x : string) : String.ltb x x = false.
Proof.
  unfold String.ltb. pose proof (String.compare_antisym x x) as H.
  by destruct (String.compare x x).
Qed.

Lemma ltb_asym (x y : string) : String.ltb x y = true -> String.ltb y x = false.
Proof.
  unfold String.ltb. rewrite (String.compare_antisym x y).
  by destruct (String.compare y x).
Qed.

Lemma ltb_total (x y : string) :
  String.ltb x y = true \/ x = y \/ String.ltb y x = true.
Proof.
  unfold String.ltb. rewrite (String.compare_antisym x y).
  destruct (String.compare y x) eqn:Hc; simpl; auto.
  apply String.compare_eq_iff in Hc. auto.
Qed.

End ReconcileFacts.

Section ReconcileIdempotence.
Context `{RT : Runtime}.
Import App.

Lemma syncView_setSyncing (b : bool) (s : state) :
  syncView (setSyncing b s) = syncView s.
Proof. reflexivity. Qed.

Lemma localDoc_setSyncing (b : bool) (s : state) :
  localDoc (setSyncing b s) = localDoc s.
Proof. reflexivity. Qed.

Lemma syncView_adopted (cloud : list (string * js)) (s : state) :
  syncView (adopted cloud s) =
    (JObj cloud,
     (if js_truthy (obj_get "lastSynced" cloud)
      then obj_get "lastSynced" cloud else lastSyncedAt (cells s)),
     false,
     delete PENDING_SYNC_KEY
       (<[STORAGE_KEY := JSON_stringify (JObj cloud)]> (localStorage (env s)))).
Proof.
  unfold adopted, syncView. by destruct (js_truthy (obj_get "lastSynced" cloud)).
Qed.

(** Adopting the same cloud document a second time changes nothing that
    reconciliation decides. *)
Lemma syncView_adopted_twice (cloud : list (string * js)) (s s' : state) :
  syncView s' = syncView (adopted cloud s) ->
  syncView (adopted cloud s') = syncView (adopted cloud s).
Proof.
  rewrite !syncView_adopted. unfold syncView at 1.
  intros [= _ Hls _ Hst]. rewrite Hls, Hst. f_equal; [f_equal|].
  - by destruct (js_truthy (obj_get "lastSynced" cloud)).
  - apply map_eq. intros k.
    destruct (decide (k = PENDING_SYNC_KEY)) as [->|Hp].
    + by rewrite !lookup_delete_eq.
    + rewrite !lookup_delete_ne by congruence.
      destruct (decide (k = STORAGE_KEY)) as [->|Hk].
      * by rewrite !lookup_insert_eq.
      * by repeat (rewrite ?lookup_delete_ne, ?lookup_insert_ne by congruence).
Qed.

(** What [performInitialPull] leaves is either what it found or the
    adoption of the pulled document. *)
Lemma performInitialPull_view (r : fetchResult) (s : state) :
  syncView (snd (performInitialPull r s)) = syncView s \/
  exists cloud,
    pulled r = JObj cloud /\
    syncView (snd (performInitialPull r s)) = syncView (adopted cloud s).
Proof.
  destruct (navigator_onLine (env s)) eqn:Hon.
  - rewrite (performInitialPull_online _ _ Hon).
    destruct (pulled_cases r) as [->|(cloud & Hp & _)]; [by left|].
    rewrite Hp. destruct (localDoc s) as [l|e]; [|by left].
    destruct (cloudNewer cloud l); [|by left].
    right. exists cloud. split; [done|]. simpl.
    rewrite syncView_setSyncing. by rewrite !syncView_adopted.
  - rewrite (performInitialPull_offline _ _ Hon). by left.
Qed.

Lemma performInitialPull_online_kept (r : fetchResult) (s : state) :
  navigator_onLine (env (snd (performInitialPull r s)))
  = navigator_onLine (env s).
Proof.
  destruct (navigator_onLine (env s)) eqn:Hon.
  - rewrite (performInitialPull_online _ _ Hon).
    destruct (pulled r); try done.
    destruct (localDoc s); [|done]. destruct (cloudNewer fields a); try done.
    simpl. unfold adopted. simpl.
    by destruct (js_truthy (obj_get "lastSynced" fields)).
  - by rewrite (performInitialPull_offline _ _ Hon).
Qed.

End ReconcileIdempotence.

Section ReconcileTheorems.
Context `{RT : Runtime}.
Import App.

(** C1. On an initial pull that delivers a remote document, with a local
    document in storage, both carrying a [lastSynced] timestamp (a
    non-empty string): when the remote timestamp is the greater string the
    remote document is adopted, in the state cell and in storage; when the
    local timestamp is the greater one, or the two are equal, the local copy
    stays as it is. *)
Theorem newer_lastSynced_wins_ties_keep_local
  (r : fetchResult) (s : state) (body stored : string)
  (local remote : list (string * js)) (t1 t2 : string) :
  navigator_onLine (env s) = true ->
  r = FetchResponse true body ->
  JSON_parse body = Ret (JObj remote) ->
  js_truthy (obj_get "id" remote) = true ->
  Storage.getItem STORAGE_KEY (localStorage (env s)) = Some stored ->
  stored <> "" ->
  JSON_parse stored = Ret (JObj local) ->
  obj_get "lastSynced" local = JStr t1 -> t1 <> "" ->
  obj_get "lastSynced" remote = JStr t2 -> t2 <> "" ->
  let s' := snd (performInitialPull r s) in
  fst (performInitialPull r s) = Ret tt /\
  (String.ltb t1 t2 = true ->
     trip (cells s') = JObj remote /\
     Storage.getItem STORAGE_KEY (localStorage (env s'))
       = Some (JSON_stringify (JObj remote)) /\
     lastSyncedAt (cells s') = JStr t2) /\
  (String.ltb t2 t1 = true -> syncView s' = syncView s) /\
  (t1 = t2 -> syncView s' = syncView s).
Proof.
  intros Hon -> Hbody Hid Hstored Hne Hlocal Hl1 Ht1 Hl2 Ht2. cbv zeta.
  rewrite (performInitialPull_online _ _ Hon).
  unfold pulled. rewrite Hbody, Hid.
  unfold localDoc. rewrite Hstored.
  apply String.eqb_neq in Hne. rewrite Hne, Hlocal.
  unfold cloudNewer. simpl. rewrite Hl1, Hl2. simpl.
  apply String.eqb_neq in Ht1, Ht2. rewrite Ht1, Ht2. simpl.
  assert (Hkeep : String.ltb t1 t2 = false ->
            (if String.ltb t1 t2
             then (Ret tt, setSyncing false (adopted remote (setSyncing true s)))
             else (Ret tt, setSyncing false (setSyncing true s))).2
            = setSyncing false (setSyncing true s)) by (by intros ->).
  split; [by destruct (String.ltb t1 t2)|]. split; [|split].
  - intros H. rewrite H. unfold adopted, Storage.getItem, Storage.removeItem,
      Storage.setItem. simpl. rewrite Hl2. simpl. rewrite Ht2. simpl.
    repeat split. rewrite lookup_delete_ne by discriminate.
    apply lookup_insert_eq.
  - intros H. by rewrite (Hkeep (ltb_asym _ _ H)).
  - intros ->. by rewrite (Hkeep (ltb_irrefl _)).
Qed.

(** The stored trip after [performInitialPull]. *)
Lemma performInitialPull_stored (r : fetchResult) (s : state) :
  Storage.getItem STORAGE_KEY (localStorage (env (snd (performInitialPull r s))))
  = if navigator_onLine (env s) then
      match pulled r, localDoc s with
      | JObj cloud, Ret l =>
          if cloudNewer cloud l then Some (JSON_stringify (JObj cloud))
          else Storage.getItem STORAGE_KEY (localStorage (env s))
      | _, _ => Storage.getItem STORAGE_KEY (localStorage (env s))
      end
    else Storage.getItem STORAGE_KEY (localStorage (env s)).
Proof.
  destruct (navigator_onLine (env s)) eqn:Hon.
  - rewrite (performInitialPull_online _ _ Hon).
    destruct (pulled r); try done. destruct (localDoc s); [|done].
    destruct (cloudNewer fields a); [|done].
    unfold adopted, Storage.getItem, Storage.setItem, Storage.removeItem.
    destruct (js_truthy (obj_get "lastSynced" fields)); simpl;
      rewrite lookup_delete_ne by discriminate; apply lookup_insert_eq.
  - by rewrite (performInitialPull_offline _ _ Hon).
Qed.

(** C3. The outcome of [performInitialPull] is determined by what was
    pulled and what is stored: two runs that pull the same value over the
    same stored trip end alike and store the same trip.  Running it a
    second time with the same pull result changes nothing that
    reconciliation decides (trip, last sync time, pending flag, storage).
    When nothing is stored locally, a pulled document is adopted whatever
    its timestamp; when the pull yields no document, the local state
    stays. *)
Theorem reconcile_idempotent_and_absent_sides (r : fetchResult) (s : state) :
  (forall (r' : fetchResult) (s' : state),
     navigator_onLine (env s') = navigator_onLine (env s) ->
     fst (pullFromCloud r' s') = fst (pullFromCloud r s) ->
     Storage.getItem STORAGE_KEY (localStorage (env s'))
       = Storage.getItem STORAGE_KEY (localStorage (env s)) ->
     fst (performInitialPull r' s') = fst (performInitialPull r s) /\
     Storage.getItem STORAGE_KEY
       (localStorage (env (snd (performInitialPull r' s'))))
     = Storage.getItem STORAGE_KEY
         (localStorage (env (snd (performInitialPull r s))))) /\
  syncView (snd (performInitialPull r (snd (performInitialPull r s))))
    = syncView (snd (performInitialPull r s)) /\
  (forall cloud,
     navigator_onLine (env s) = true ->
     fst (pullFromCloud r s) = Ret (JObj cloud) ->
     Storage.getItem STORAGE_KEY (localStorage (env s)) = None ->
     trip (cells (snd (performInitialPull r s))) = JObj cloud /\
     Storage.getItem STORAGE_KEY
       (localStorage (env (snd (performInitialPull r s))))
       = Some (JSON_stringify (JObj cloud))) /\
  (fst (pullFromCloud r s) = Ret JNull ->
   syncView (snd (performInitialPull r s)) = syncView s).
Proof.
  split; [|split; [|split]].
  - intros r' s' Hnav Hpull Hstored.
    rewrite !pullFromCloud_pulled in Hpull. injection Hpull as Hpull.
    assert (Hlocal : localDoc s' = localDoc s)
      by (unfold localDoc; by rewrite Hstored).
    rewrite !performInitialPull_stored, Hnav, Hpull, Hlocal, Hstored.
    split; [|done].
    destruct (navigator_onLine (env s)) eqn:Hon.
    + rewrite (performInitialPull_online _ _ Hon),
        (performInitialPull_online _ _ Hnav), Hpull, Hlocal.
      destruct (pulled r); try done. destruct (localDoc s); [|done].
      by destruct (cloudNewer fields a).
    + by rewrite (performInitialPull_offline _ _ Hon),
        (performInitialPull_offline _ _ Hnav).
  - pose proof (performInitialPull_online_kept r s) as Hnav.
    destruct (navigator_onLine (env s)) eqn:Hon.
    + rewrite (performInitialPull_online _ _ Hnav).
      revert Hnav. rewrite (performInitialPull_online _ _ Hon).
      destruct (pulled r) eqn:Hp; try (intros _; simpl; reflexivity).
      destruct (localDoc s) as [l|e] eqn:Hl.
      * destruct (cloudNewer fields l) eqn:Hc; intros _; simpl snd.
        -- rewrite localDoc_setSyncing.
           destruct (localDoc (adopted fields (setSyncing true s)))
             as [l'|e']; [|done].
           destruct (cloudNewer fields l'); simpl snd;
             rewrite !syncView_setSyncing; [|done].
           apply syncView_adopted_twice. by rewrite !syncView_setSyncing.
        -- rewrite !localDoc_setSyncing, Hl, Hc. done.
      * intros _. simpl snd. rewrite localDoc_setSyncing, Hl. done.
    + rewrite (performInitialPull_offline _ _ Hnav).
      by rewrite (performInitialPull_offline _ _ Hon).
  - intros cloud Hon Hpull Hnone. rewrite pullFromCloud_pulled in Hpull.
    injection Hpull as Hpull.
    rewrite (performInitialPull_online _ _ Hon), Hpull.
    unfold localDoc. rewrite Hnone. unfold cloudNewer. simpl.
    unfold adopted, Storage.getItem, Storage.setItem, Storage.removeItem.
    split.
    + by destruct (js_truthy (obj_get "lastSynced" cloud)).
    + destruct (js_truthy (obj_get "lastSynced" cloud)); simpl;
        rewrite lookup_delete_ne by discriminate; apply lookup_insert_eq.
  - intros Hpull. rewrite pullFromCloud_pulled in Hpull.
    injection Hpull as Hpull.
    destruct (navigator_onLine (env s)) eqn:Hon.
    + by rewrite (performInitialPull_online _ _ Hon), Hpull.
    + by rewrite (performInitialPull_offline _ _ Hon).
Qed.

End ReconcileTheorems.

(** Scenario A of the specification: nothing is stored locally, the pull
    delivers a document; it becomes the trip and is stored. *)
Lemma reconcile_absent_local_witness :
  let RT := Ref.runtime in
  let s' := snd (App.performInitialPull Samples.cloudResponse Samples.mounted) in
  App.trip (App.cells s') = JObj Samples.tripCloud /\
  Storage.getItem App.STORAGE_KEY (App.localStorage (App.env s'))
    = Some (Ref.stringify (JObj Samples.tripCloud)).
Proof.
  cbv zeta.
  destruct (@reconcile_idempotent_and_absent_sides Ref.runtime
              Samples.cloudResponse Samples.mounted) as (_ & _ & Habsent & _).
  apply Habsent; vm_compute; reflexivity.
Defined.

(** Scenario B of the specification: the stored trip was synced on
    2026-01-02, the pulled one on 2026-01-01; the local trip stays. *)
Lemma newer_lastSynced_wins_witness :
  let RT := Ref.runtime in
  syncView (snd (App.performInitialPull Samples.cloudResponse Samples.resumed))
  = syncView Samples.resumed.
Proof.
  cbv zeta.
  refine (proj1 (proj2 (proj2 (@newer_lastSynced_wins_ties_keep_local Ref.runtime
    Samples.cloudResponse Samples.resumed
    (Ref.stringify (JObj Samples.tripCloud))
    (Ref.stringify (JObj Samples.tripLocal))
    Samples.tripLocal Samples.tripCloud
    "2026-01-02T00:00:00.000Z" "2026-01-01T00:00:00.000Z"
    _ _ _ _ _ _ _ _ _ _ _))) _);
    try (vm_compute; first [reflexivity | discriminate]).
Defined.

(** * The retry wrapper *)

Section RetryFacts.
Context `{RT : Runtime}.
Import Weather.

Lemma generateContent_run (net : network) (p : string) (w : world) :
  generateContent net p w =
    (snd (net (calls w) p),
     mkWorld (ls w) (now w + fst (net (calls w) p)) (S (calls w)) (sleeps w)).
Proof. unfold generateContent. by destruct (net (calls w) p). Qed.

Lemma noteRateLimit_run (e : error) (w : world) :
  noteRateLimit e w =
    (Ret tt,
     if isRateLimit e
     then mkWorld (cool (now w) (ls w)) (now w) (calls w) (sleeps w)
     else w).
Proof. unfold noteRateLimit. by destruct (isRateLimit e). Qed.

(** One iteration of the loop. *)
Lemma retryLoop_step (net : network) (p : string) (r : nat) (delay : Z)
  (w : world) :
  retryLoop (generateContent net p) (S r) delay w =
    let w1 := mkWorld (ls w) (now w + fst (net (calls w) p)) (S (calls w))
                (sleeps w) in
    match snd (net (calls w) p) with
    | Ret v => (Ret v, w1)
    | Throw e =>
        if isRateLimit e then
          let w2 := mkWorld (cool (now w1) (ls w)) (now w1) (S (calls w))
                      (sleeps w) in
          if (0 <? r)%nat
          then retryLoop (generateContent net p) r (delay * 2)
                 (mkWorld (ls w2) (now w1 + delay) (S (calls w))
                    (delay :: sleeps w))
          else (Throw e, w2)
        else (Throw e, w1)
    end.
Proof.
  cbn [retryLoop]. unfold try_catch. rewrite generateContent_run.
  destruct (snd (net (calls w) p)) as [v|e]; [done|].
  unfold bind. rewrite noteRateLimit_run.
  destruct (isRateLimit e); simpl; [|by rewrite andb_false_r].
  rewrite andb_true_r. by destruct (0 <? r)%nat.
Qed.

(** The wrapper as [getCityWeather] calls it: at most two attempts. *)
Lemma retryWithBackoff_default (net : network) (p : string) (w : world) :
  retryWithBackoff (generateContent net p) 1 3000 w =
    let t1 := now w + fst (net (calls w) p) in
    let t2 := t1 + 3000 + fst (net (S (calls w)) p) in
    match snd (net (calls w) p) with
    | Ret v => (Ret v, mkWorld (ls w) t1 (S (calls w)) (sleeps w))
    | Throw e =>
        if isRateLimit e then
          match snd (net (S (calls w)) p) with
          | Ret v =>
              (Ret v,
               mkWorld (cool t1 (ls w)) t2 (S (S (calls w))) (3000 :: sleeps w))
          | Throw e2 =>
              (Throw e2,
               mkWorld (if isRateLimit e2 then cool t2 (cool t1 (ls w))
                        else cool t1 (ls w))
                       t2 (S (S (calls w))) (3000 :: sleeps w))
          end
        else (Throw e, mkWorld (ls w) t1 (S (calls w)) (sleeps w))
    end.
Proof.
  unfold retryWithBackoff. rewrite retryLoop_step. cbv zeta.
  destruct (snd (net (calls w) p)) as [v|e]; [done|].
  destruct (isRateLimit e); [|done].
  change (0 <? 1)%nat with true. cbv iota.
  rewrite retryLoop_step. simpl.
  destruct (snd (net (S (calls w)) p)) as [v|e2]; [done|].
  by destruct (isRateLimit e2).
Qed.

(** The attempts and the waits of the loop, whatever the network does. *)
Lemma retryLoop_schedule (net : network) (p : string) (r : nat) :
  forall (delay : Z) (w : world),
    let w' := snd (retryLoop (generateContent net p) (S r) delay w) in
    (calls w < calls w' <= calls w + S r)%nat /\
    sleeps w' = (rev (backoff delay (calls w' - calls w - 1)) ++ sleeps w)%list /\
    (forall k, (S k < calls w' - calls w)%nat ->
       exists e, snd (net (calls w + k)%nat p) = Throw e /\
                 isRateLimit e = true).
Proof.
  induction r as [|r IH]; intros delay w; cbv zeta; rewrite retryLoop_step;
    cbv zeta.
  - destruct (snd (net (calls w) p)) as [v|e]; [|destruct (isRateLimit e)];
      simpl; (split; [lia|]);
      (split; [by replace (S (calls w) - calls w - 1)%nat with 0%nat by lia|]);
      intros k Hk; lia.
  - destruct (snd (net (calls w) p)) as [v|e] eqn:Hfirst;
      [|destruct (isRateLimit e) eqn:Hrl].
    + simpl. split; [lia|]. split; [by replace (S (calls w) - calls w - 1)%nat with 0%nat by lia|].
      intros k Hk; lia.
    + change (0 <? S r)%nat with true. cbv iota.
      specialize (IH (delay * 2)
        (mkWorld (cool (now w + fst (net (calls w) p)) (ls w))
           (now w + fst (net (calls w) p) + delay) (S (calls w))
           (delay :: sleeps w))).
      cbv zeta in IH. cbn [calls sleeps] in IH.
      destruct IH as (Hc & Hs & Hk).
      set (w' := snd (retryLoop _ _ _ _)) in *.
      split; [lia|]. split.
      * rewrite Hs.
        replace (calls w' - calls w - 1)%nat
          with (S (calls w' - S (calls w) - 1))%nat by lia.
        simpl. by rewrite <- app_assoc.
      * intros [|k] Hlt.
        -- exists e. by rewrite Nat.add_0_r.
        -- destruct (Hk k ltac:(lia)) as (e' & He' & Hrl').
           exists e'. by replace (calls w + S k)%nat with (S (calls w) + k)%nat by lia.
    + simpl. split; [lia|]. split; [by replace (S (calls w) - calls w - 1)%nat with 0%nat by lia|].
      intros k Hk; lia.
Qed.

End RetryFacts.

Section RetryTheorem.
Context `{RT : Runtime}.
Import Weather.

Lemma lookup_cool (t : Z) (st : gmap string string) :
  Storage.getItem COOLDOWN_KEY (cool t st)
  = Some (Number_toString (t + COOLDOWN_DURATION)).
Proof. apply lookup_insert_eq. Qed.

Lemma lookup_cool_ne (t : Z) (st : gmap string string) (k : string) :
  k <> COOLDOWN_KEY -> Storage.getItem k (cool t st) = Storage.getItem k st.
Proof.
  intros Hk. unfold cool, Storage.getItem. by rewrite lookup_insert_ne.
Qed.

(** C5. The retry wrapper, for any retry budget and initial delay: it makes
    at least one and at most [maxRetries + 1] attempts; the waits between
    them start at the initial delay and double each time; and an attempt is
    followed by a retry only if it threw a rate-limit error.  As the fetch
    calls it (one retry, 3000 ms): at most two attempts, a second one
    exactly when the first threw a rate-limit error, after one wait of
    3000 ms; and each rate-limit error, on the first attempt or on the
    retry after which nothing follows, stores the cooldown [now() +
    COOLDOWN_DURATION] of the moment it was caught. *)
Theorem retry_policy_one_retry_backoff_cooldown
  (net : network) (p : string) (w : world) :
  (forall (maxRetries : nat) (initialDelay : Z),
     let w' :=
       snd (retryWithBackoff (generateContent net p) maxRetries initialDelay w) in
     (calls w < calls w' <= calls w + S maxRetries)%nat /\
     sleeps w'
       = (rev (backoff initialDelay (calls w' - calls w - 1)) ++ sleeps w)%list /\
     (forall k, (S k < calls w' - calls w)%nat ->
        exists e, snd (net (calls w + k)%nat p) = Throw e /\
                  isRateLimit e = true)) /\
  let run := retryWithBackoff (generateContent net p) 1 3000 w in
  let first := snd (net (calls w) p) in
  let second := snd (net (S (calls w)) p) in
  let t1 := now w + fst (net (calls w) p) in
  let t2 := t1 + 3000 + fst (net (S (calls w)) p) in
  (calls (snd run) = S (calls w) \/ calls (snd run) = S (S (calls w))) /\
  (calls (snd run) = S (S (calls w)) <->
   exists e, first = Throw e /\ isRateLimit e = true) /\
  (calls (snd run) = S (calls w) -> sleeps (snd run) = sleeps w) /\
  (calls (snd run) = S (S (calls w)) -> sleeps (snd run) = 3000 :: sleeps w) /\
  ((forall e, first = Throw e -> isRateLimit e = false) ->
   ls (snd run) = ls w) /\
  (forall e, first = Throw e -> isRateLimit e = true ->
     (forall e2, second = Throw e2 -> isRateLimit e2 = false) ->
     ls (snd run) = cool t1 (ls w) /\
     Storage.getItem COOLDOWN_KEY (ls (snd run))
       = Some (Number_toString (t1 + COOLDOWN_DURATION))) /\
  (forall e e2, first = Throw e -> isRateLimit e = true ->
     second = Throw e2 -> isRateLimit e2 = true ->
     fst run = Throw e2 /\
     ls (snd run) = cool t2 (cool t1 (ls w)) /\
     Storage.getItem COOLDOWN_KEY (ls (snd run))
       = Some (Number_toString (t2 + COOLDOWN_DURATION))).
Proof.
  split; [intros maxRetries initialDelay; apply retryLoop_schedule|].
  cbv zeta. rewrite retryWithBackoff_default. cbv zeta.
  destruct (snd (net (calls w) p)) as [v|e] eqn:Hfirst;
    [|destruct (isRateLimit e) eqn:Hrl;
      [destruct (snd (net (S (calls w)) p)) as [v2|e2] eqn:Hsecond|]];
    simpl; settle_cases; apply lookup_cool.
Qed.

End RetryTheorem.

(** Two rate-limit errors in a row: two attempts, one wait of 3000 ms, the
    second error thrown, and the cooldown of the second error stored. *)
Lemma retry_policy_witness :
  let RT := Ref.runtime in
  let run :=
    Weather.retryWithBackoff
      (Weather.generateContent Samples.net429 (Weather.prompt "Paris")) 1 3000
      Samples.staleWorld in
  fst run = Throw Samples.err429 /\
  Weather.calls (snd run) = 2%nat /\
  Weather.sleeps (snd run) = [3000] /\
  Storage.getItem Weather.COOLDOWN_KEY (Weather.ls (snd run))
    = Some "1767356103240".
Proof.
  cbv zeta.
  destruct (@retry_policy_one_retry_backoff_cooldown Ref.runtime
              Samples.net429 (Weather.prompt "Paris") Samples.staleWorld)
    as (_ & Hdefault).
  cbv zeta in Hdefault.
  destruct Hdefault as (_ & Hretry & _ & Hwait & _ & _ & Hboth).
  destruct (Hboth Samples.err429 Samples.err429 eq_refl eq_refl eq_refl eq_refl)
    as (Hthrown & _ & Hcool).
  pose proof (proj2 Hretry (ex_intro _ Samples.err429 (conj eq_refl eq_refl)))
    as Hcalls.
  split; [exact Hthrown|]. split; [exact Hcalls|]. split.
  - exact (Hwait Hcalls).
  - rewrite Hcool. vm_compute. reflexivity.
Defined.

(** * The guarded fetch *)

Section FetchFacts.
Context `{RT : Runtime}.
Import Weather.

Lemma cacheSlot_nonempty (w : world) (city : string) :
  city <> "" -> cacheSlot w city = Storage.getItem (cacheKey city) (ls w).
Proof.
  intros Hcity. unfold cacheSlot. by apply String.eqb_neq in Hcity as ->.
Qed.


(** The three ways through [getCityWeather] for a non-empty key. *)
Lemma getCityWeather_nonempty (net : network) (city : string) (w : world) :
  city <> "" ->
  getCityWeather net city w =
    let cached := Storage.getItem (cacheKey city) (ls w) in
    if cooldownActive (Storage.getItem COOLDOWN_KEY (ls w)) (now w)
    then cachedDataOrNull cached w
    else
      match checkCache cached w with
      | (Ret (Some data), w1) => (Ret data, w1)
      | (Ret None, w1) =>
          try_catch (fetchAndStore net city)
                    (fun _ => cachedDataOrNull cached) w1
      | (Throw e, w1) => (Throw e, w1)
      end.
Proof.
  intros Hcity. unfold getCityWeather.
  apply String.eqb_neq in Hcity. rewrite Hcity.
  unfold bind at 1. unfold gets at 1. unfold bind at 1. unfold gets at 1.
  cbv zeta.
  destruct (cooldownActive _ _); [reflexivity|].
  unfold bind at 1. unfold gets at 1. unfold bind at 1.
  destruct (checkCache _ w) as [[[d|]|e] w1]; reflexivity.
Qed.

Lemma cachedDataOrNull_world (cached : option string) (w : world) :
  snd (cachedDataOrNull cached w) = w.
Proof.
  unfold cachedDataOrNull. unfold_m.
  destruct cached as [c|]; [|done]. destruct (String.eqb c ""); [done|].
  destruct (JSON_parse c) as [v|e]; [|done]. by destruct (js_prop v "data").
Qed.

Lemma cachedDataOrNull_entry (text : string) (entry d : js) (w : world) :
  text <> "" -> JSON_parse text = Ret entry -> js_prop entry "data" = Some d ->
  cachedDataOrNull (Some text) w = (Ret d, w).
Proof.
  intros Hne Hparse Hdata. unfold cachedDataOrNull. unfold_m.
  apply String.eqb_neq in Hne. by rewrite Hne, Hparse, Hdata.
Qed.

(** With a readable entry the fallback returns, whatever is stored. *)
Lemma cachedDataOrNull_readable (cached : option string) (w : world) :
  (forall text, cached = Some text -> text <> "" ->
     exists entry d, JSON_parse text = Ret entry /\ js_prop entry "data" = Some d) ->
  exists v, cachedDataOrNull cached w = (Ret v, w).
Proof.
  intros Hread. destruct cached as [c|]; [|by exists JNull].
  destruct (String.eqb c "") eqn:Hc.
  - exists JNull. unfold cachedDataOrNull. by rewrite Hc.
  - apply String.eqb_neq in Hc.
    destruct (Hread c eq_refl Hc) as (entry & d & Hparse & Hdata).
    exists d. by apply (cachedDataOrNull_entry c entry).
Qed.

Lemma checkCache_world (cached : option string) (w : world) :
  snd (checkCache cached w) = w.
Proof.
  unfold checkCache. unfold_m.
  destruct cached as [c|]; [|done]. destruct (String.eqb c ""); [done|].
  destruct (JSON_parse c) as [v|e]; [|done].
  destruct (js_prop v "data"); [|done].
  destruct (js_prop v "timestamp") as [ts|]; [|done]. simpl.
  destruct (js_to_number ts); [|done]. by destruct (_ <? _).
Qed.

(** A cache hit returns the payload of the entry. *)
Lemma checkCache_entry (text : string) (entry d : js) (w : world) :
  text <> "" -> JSON_parse text = Ret entry -> js_prop entry "data" = Some d ->
  checkCache (Some text) w = (Ret (Some d), w) \/
  checkCache (Some text) w = (Ret None, w).
Proof.
  intros Hne Hparse Hdata. unfold checkCache. unfold_m.
  apply String.eqb_neq in Hne. rewrite Hne, Hparse, Hdata.
  destruct entry; try discriminate; simpl; auto.
  destruct (js_to_number _); [destruct (_ <? _)|]; auto.
Qed.

Lemma checkCache_absent (w : world) : checkCache None w = (Ret None, w).
Proof. reflexivity. Qed.

Lemma checkCache_emptyText (w : world) : checkCache (Some "") w = (Ret None, w).
Proof. reflexivity. Qed.

(** The retry wrapper writes no key but the cooldown key. *)
Lemma retry_keeps_other_keys (net : network) (p k : string) (w : world) :
  k <> COOLDOWN_KEY ->
  Storage.getItem k (ls (snd (retryWithBackoff (generateContent net p) 1 3000 w)))
  = Storage.getItem k (ls w).
Proof.
  intros Hk. rewrite retryWithBackoff_default. cbv zeta.
  destruct (snd (net (calls w) p)) as [v|e]; [done|].
  destruct (isRateLimit e); [|done].
  destruct (snd (net (S (calls w)) p)) as [v2|e2]; simpl.
  - by apply lookup_cool_ne.
  - destruct (isRateLimit e2); by rewrite !lookup_cool_ne.
Qed.

(** When the network call fails, the [try] block of the fetch throws. *)
Lemma fetchAndStore_fails (net : network) (city : string) (w : world) (e : error) :
  fst (retryWithBackoff (generateContent net (prompt city)) 1 3000 w) = Throw e ->
  fetchAndStore net city w =
    (Throw e, snd (retryWithBackoff (generateContent net (prompt city)) 1 3000 w)).
Proof.
  intros Hfail. unfold fetchAndStore. unfold bind at 1.
  destruct (retryWithBackoff _ _ _ w) as [r w1]. simpl in Hfail. by subst r.
Qed.

(** When the network call delivers a payload, the [try] block stores and
    returns it if it has a [temp], returns [null] if it has none, and
    throws if the payload is [null]. *)
Lemma fetchAndStore_delivers (net : network) (city : string) (w w1 : world)
  (payload : js) :
  networkDelivers net city w w1 payload ->
  fetchAndStore net city w =
    match js_prop payload "temp" with
    | None => (Throw TypeError_nullish, w1)
    | Some JUndef => (Ret JNull, w1)
    | Some _ =>
        (Ret payload,
         set_ls (Storage.setItem (cacheKey city)
                   (JSON_stringify
                      (JObj [("data", payload); ("timestamp", JNum (now w1))])))
                w1)
    end.
Proof.
  intros (text & Hrun & Hparse). unfold fetchAndStore.
  unfold bind at 1. rewrite Hrun. unfold bind at 1. unfold lift_result.
  rewrite Hparse. unfold bind at 1. unfold prop.
  destruct (js_prop payload "temp") as [x|]; [|reflexivity].
  destruct x; reflexivity.
Qed.

End FetchFacts.

Section CooldownTheorem.
Context `{RT : Runtime}.
Import Weather.

Lemma cooldownOn_active (w : world) :
  cooldownOn w ->
  cooldownActive (Storage.getItem COOLDOWN_KEY (ls w)) (now w) = true.
Proof.
  intros (c & u & -> & Hne & Hparse & Hlt). unfold cooldownActive.
  apply String.eqb_neq in Hne. rewrite Hne, Hparse. simpl. lia.
Qed.


End CooldownTheorem.


Lemma sample_reaches_network :
  @reachesNetwork Ref.runtime "Paris" Samples.staleWorld.
Proof. repeat split; try discriminate; vm_compute; reflexivity. Qed.

Section FallbackTheorem.
Context `{RT : Runtime}.
Import Weather.

(** C6, amended.  When the network call of the fetch fails for good, the
    fetch returns the payload of the cache entry stored for the key, and
    [null] when none is stored.  Provided what is stored under the cache key
    of the city, if anything, is the JSON text of a value other than
    [null], the fetch never throws: it returns a value or [null], whatever
    the key, the cooldown and the network. *)
Theorem fetch_falls_back_and_never_throws_on_readable_cache
  (net : network) (city : string) (w : world) :
  (networkFails net city w -> fallsBackToCache net city w) /\
  (entryReadable w city -> neverThrows net city w).
Proof.
  split.
  - intros ((Hcity & Hcool & Hcheck) & e & Hfail). unfold fallsBackToCache.
    rewrite (getCityWeather_nonempty net city w Hcity). cbv zeta.
    rewrite Hcool, Hcheck. unfold try_catch.
    rewrite (fetchAndStore_fails net city w e Hfail). split.
    + intros d (text & entry & Hget & Hne & Hparse & Hdata).
      rewrite (cacheSlot_nonempty w city Hcity) in Hget. rewrite Hget.
      by rewrite (cachedDataOrNull_entry text entry d).
    + intros Hnone. unfold noEntry in Hnone.
      rewrite (cacheSlot_nonempty w city Hcity) in Hnone. by rewrite Hnone.
  - intros Hread. unfold neverThrows.
    destruct (decide (city = "")) as [->|Hcity]; [by exists JNull|].
    unfold entryReadable in Hread.
    rewrite (cacheSlot_nonempty w city Hcity) in Hread.
    rewrite (getCityWeather_nonempty net city w Hcity). cbv zeta.
    pose proof (cachedDataOrNull_readable
                  (Storage.getItem (cacheKey city) (ls w))) as Hfallback.
    destruct (cooldownActive _ _).
    + destruct (Hfallback w Hread) as (v & ->). by exists v.
    + assert (Hcheck :
        (exists d, checkCache (Storage.getItem (cacheKey city) (ls w)) w
                   = (Ret (Some d), w)) \/
        checkCache (Storage.getItem (cacheKey city) (ls w)) w = (Ret None, w)).
      { destruct (Storage.getItem (cacheKey city) (ls w)) as [text|] eqn:Hget;
          [|by right].
        destruct (decide (text = "")) as [->|Hne]; [by right|].
        destruct (Hread text eq_refl Hne) as (entry & d & Hparse & Hdata).
        destruct (checkCache_entry text entry d w Hne Hparse Hdata); eauto. }
      destruct Hcheck as [(d & ->)| ->]; [by exists d|].
      unfold try_catch.
      destruct (fetchAndStore net city w) as [[v|e] w1]; [by exists v|].
      destruct (Hfallback w1 Hread) as (v & ->). by exists v.
Qed.

End FallbackTheorem.

(** Scenario D of the specification, first call: both attempts for Paris
    fail with a 429; the stale entry is returned, after two requests and one
    wait of 3000 ms, and the cooldown is stored. *)
Lemma fetch_falls_back_witness :
  let RT := Ref.runtime in
  let out := Weather.getCityWeather Samples.net429 "Paris" Samples.staleWorld in
  fst out = Ret Samples.sunny /\
  Weather.calls (snd out) = 2%nat /\
  Weather.sleeps (snd out) = [3000] /\
  Storage.getItem Weather.COOLDOWN_KEY (Weather.ls (snd out))
    = Some "1767356103240".
Proof.
  cbv zeta.
  destruct (@fetch_falls_back_and_never_throws_on_readable_cache Ref.runtime
              Samples.net429 "Paris" Samples.staleWorld)
    as (Hfall & _).
  split.
  - apply Hfall.
    + split; [exact sample_reaches_network | by exists Samples.err429].
    + exists Samples.entryText.
      exists (JObj [("data", Samples.sunny); ("timestamp", JNum 0)]).
      repeat split; try discriminate; vm_compute; reflexivity.
  - repeat split; vm_compute; reflexivity.
Defined.

(** C6 as stated fails on a cache entry that is not JSON: the fetch for
    Paris throws the SyntaxError of [JSON.parse]. *)
Lemma fetch_throws_on_corrupt_entry_counterexample :
  let RT := Ref.runtime in
  fst (Weather.getCityWeather Samples.net500 "Paris" Samples.corruptWorld)
    = Throw Ref.SyntaxError /\
  ~ neverThrows Samples.net500 "Paris" Samples.corruptWorld.
Proof.
  cbv zeta. split; [vm_compute; reflexivity|].
  intros (v & Hv). vm_compute in Hv. discriminate.
Qed.

Section PayloadTheorem.
Context `{RT : Runtime}.
Import Weather.

(** C10, amended.  When the fetch reaches the API call and the call
    delivers a payload that parses to a value other than [null] and has no
    [temp], the fetch returns [null] and writes nothing after the call: the
    cache entry of the key is the one stored before (for a key whose cache
    key is not the cooldown key, which the retry wrapper writes), so an
    entry stored before is still stored.  When the payload has a [temp],
    the fetch returns it and overwrites the entry with the payload and the
    time of the write.  When the payload is [null], reading its [temp]
    throws inside the [try] and the fetch answers as on a failure: the
    stored payload, or [null] when nothing is stored. *)
Theorem payload_without_temp_leaves_cache
  (net : network) (city : string) (w w1 : world) (payload : js) :
  reachesNetwork city w ->
  networkDelivers net city w w1 payload ->
  (js_prop payload "temp" = Some JUndef ->
     fst (getCityWeather net city w) = Ret JNull /\
     snd (getCityWeather net city w) = w1 /\
     (cacheKey city <> COOLDOWN_KEY ->
        Storage.getItem (cacheKey city) (ls (snd (getCityWeather net city w)))
          = Storage.getItem (cacheKey city) (ls w) /\
        forall d, storedEntry w city d ->
                  storedEntry (snd (getCityWeather net city w)) city d)) /\
  (forall x, js_prop payload "temp" = Some x -> x <> JUndef ->
     fst (getCityWeather net city w) = Ret payload /\
     Storage.getItem (cacheKey city) (ls (snd (getCityWeather net city w)))
       = Some (JSON_stringify
                 (JObj [("data", payload); ("timestamp", JNum (now w1))]))) /\
  (js_prop payload "temp" = None -> fallsBackToCache net city w).
Proof.
  intros (Hcity & Hcool & Hcheck) Hnet. unfold fallsBackToCache.
  rewrite (getCityWeather_nonempty net city w Hcity). cbv zeta.
  rewrite Hcool, Hcheck. unfold try_catch.
  rewrite (fetchAndStore_delivers net city w w1 payload Hnet).
  destruct Hnet as (text & Hrun & Hparse). split; [|split].
  - intros ->. repeat split.
    + pose proof (retry_keeps_other_keys net (prompt city) _ w H) as Hkeep.
      by rewrite Hrun in Hkeep.
    + intros d (t & entry & Hget & Hrest).
      exists t, entry. split; [|done].
      pose proof (retry_keeps_other_keys net (prompt city) _ w H) as Hkeep.
      rewrite Hrun in Hkeep. simpl in Hkeep.
      rewrite (cacheSlot_nonempty w city Hcity) in Hget.
      rewrite (cacheSlot_nonempty w1 city Hcity). by rewrite Hkeep.
  - intros x -> Hx. destruct x; try done; simpl; split; try done;
      apply lookup_insert_eq.
  - intros ->. split.
    + intros d (t & entry & Hget & Hne & Hp & Hdata).
      rewrite (cacheSlot_nonempty w city Hcity) in Hget. rewrite Hget.
      by rewrite (cachedDataOrNull_entry t entry d).
    + intros Hnone. unfold noEntry in Hnone.
      rewrite (cacheSlot_nonempty w city Hcity) in Hnone. by rewrite Hnone.
Qed.

End PayloadTheorem.

(** A payload with a condition and no temperature: the fetch returns
    [null] and the stale entry for Paris is still the stored one. *)
Lemma payload_without_temp_witness :
  let RT := Ref.runtime in
  let out := Weather.getCityWeather Samples.netNoTemp "Paris" Samples.staleWorld in
  fst out = Ret JNull /\
  Storage.getItem "ws_weather_paris" (Weather.ls (snd out))
    = Some Samples.entryText.
Proof.
  cbv zeta.
  assert (Hnet : @networkDelivers Ref.runtime Samples.netNoTemp "Paris"
                   Samples.staleWorld Samples.afterOneCall
                   (JObj [("condition", JStr "Sunny")])).
  { exists (Some (Ref.stringify (JObj [("condition", JStr "Sunny")]))).
    split; vm_compute; reflexivity. }
  destruct (@payload_without_temp_leaves_cache Ref.runtime Samples.netNoTemp
              "Paris" Samples.staleWorld Samples.afterOneCall _
              sample_reaches_network Hnet) as (Hnull & _).
  destruct (Hnull eq_refl) as (Hret & Hworld & _).
  split; [exact Hret|]. rewrite Hworld. vm_compute. reflexivity.
Defined.

(** C10 as stated fails on the payload [null]: it has no [temp], yet reading
    [temp] throws inside the [try], and the fetch returns the stale entry
    instead of [null]. *)
Lemma payload_null_counterexample :
  let RT := Ref.runtime in
  reachesNetwork "Paris" Samples.staleWorld /\
  networkDelivers Samples.netNull "Paris" Samples.staleWorld
    Samples.afterOneCall JNull /\
  lacksTemp JNull /\
  fst (Weather.getCityWeather Samples.netNull "Paris" Samples.staleWorld)
    = Ret Samples.sunny /\
  fst (Weather.getCityWeather Samples.netNull "Paris" Samples.staleWorld)
    <> Ret JNull.
Proof.
  cbv zeta. split; [exact sample_reaches_network|]. split; [|split; [|split]].
  - exists (Some "null"). split; vm_compute; reflexivity.
  - intros x Hx. discriminate.
  - vm_compute. reflexivity.
  - vm_compute. discriminate.
Qed.

(** * Debounce *)

Section DebounceFacts.
Context `{RT : Runtime}.
Import App.

Lemma tidy_initialState (b : browser) : timers b = [] -> tidy (initialState b).
Proof. intros Hb t Hin. simpl in Hin. rewrite Hb in Hin. destruct Hin. Qed.

Lemma withoutDebounce_tidy (s : state) : tidy s -> withoutDebounce s = [].
Proof.
  unfold tidy, withoutDebounce. intros Htidy.
  destruct (debounceTimerRef s) as [id|].
  - induction (timers (env s)) as [|t l IH]; [done|]. simpl.
    assert (Hid : timer_id t = id).
    { specialize (Htidy t (or_introl eq_refl)). by injection Htidy. }
    rewrite Hid, Nat.eqb_refl. simpl. apply IH.
    intros t' Hin. apply Htidy. by right.
  - destruct (timers (env s)) as [|t l]; [done|].
    specialize (Htidy t (or_introl eq_refl)). discriminate.
Qed.

(** A local edit in a tidy state leaves exactly one timer, its own. *)
Lemma localEdit_tidy_state (updatedTrip : js) (s : state) :
  tidy s ->
  localEdit updatedTrip s =
    let d := stamp updatedTrip (clock (env s)) in
    mkState (mkUi d (isOnline (cells s)) (syncing (cells s))
               (lastSyncedAt (cells s)) (hasPendingSync (cells s)))
            (Some (nextTimerId (env s))) false true
            (mkBrowser (<[STORAGE_KEY := JSON_stringify d]> (localStorage (env s)))
               (clock (env s)) (navigator_onLine (env s))
               [editTimer updatedTrip s]
               (S (nextTimerId (env s))) (posted (env s))).
Proof.
  intros Htidy. rewrite localEdit_state. cbv zeta.
  by rewrite (withoutDebounce_tidy s Htidy).
Qed.

Lemma quiet_tidy (s : state) doc t online sent :
  quiet s doc t online sent -> tidy s.
Proof.
  intros (id & Ht & Href & _) x Hin. rewrite Ht in Hin.
  destruct Hin as [<-|[]]. exact Href.
Qed.

Lemma localEdit_quiet (updatedTrip : js) (s : state) :
  tidy s ->
  quiet (localEdit updatedTrip s) (stamp updatedTrip (clock (env s)))
        (clock (env s)) (isOnline (cells s)) (posted (env s)).
Proof.
  intros Htidy. rewrite (localEdit_tidy_state _ _ Htidy). cbv zeta.
  exists (nextTimerId (env s)). by repeat split.
Qed.




End DebounceFacts.

Section DebounceTheorem.
Context `{RT : Runtime}.
Import App.




End DebounceTheorem.

Section TidyInvariant.
Context `{RT : Runtime}.
Import App.

Lemma tidy_same_queue (s s' : state) :
  timers (env s') = timers (env s) -> debounceTimerRef s' = debounceTimerRef s ->
  tidy s -> tidy s'.
Proof. unfold tidy. intros -> ->. done. Qed.

Lemma tidy_subqueue (s s' : state) :
  (forall t, In t (timers (env s')) -> In t (timers (env s))) ->
  debounceTimerRef s' = debounceTimerRef s ->
  tidy s -> tidy s'.
Proof. unfold tidy. intros Hsub -> Htidy t Hin. auto. Qed.

Lemma commit_tidy (s : state) : tidy s -> tidy (commit s).
Proof.
  intros Htidy. unfold commit. destruct (depsChanged s); [|done].
  unfold autoSyncEffect.
  assert (Hclear : tidy (if hasCleanup s then clearDebounceTimer s else s)).
  { destruct (hasCleanup s); [|done]. unfold clearDebounceTimer.
    destruct (debounceTimerRef s) eqn:Href; [|done].
    apply (tidy_subqueue s); [|done|done].
    intros t Hin. simpl in Hin. apply filter_In in Hin. tauto. }
  set (s0 := if hasCleanup s then clearDebounceTimer s else s) in *.
  destruct (js_truthy (trip (cells s0))); simpl.
  - intros t Hin. simpl in Hin.
    assert (Hnone : timers (env (clearDebounceTimer s0)) = []).
    { pose proof (withoutDebounce_tidy s0 Hclear) as Hw.
      unfold withoutDebounce in Hw. unfold clearDebounceTimer.
      destruct (debounceTimerRef s0); simpl; exact Hw. }
    rewrite Hnone in Hin. simpl in Hin. destruct Hin as [<-|[]].
    reflexivity.
  - by apply (tidy_same_queue s0).
Qed.

Lemma debouncedPush_queue (net : postNetwork) (tr : js) (online : bool)
  (s : state) :
  timers (env (snd (debouncedPush net tr online s))) = timers (env s) /\
  debounceTimerRef (snd (debouncedPush net tr online s)) = debounceTimerRef s.
Proof.
  unfold debouncedPush, pushToCloud, fetchPost. unfold_m.
  destruct online; simpl; [|done].
  destruct (net _ _); simpl; [done|].
  by destruct (js_prop tr "lastSynced").
Qed.

Lemma performInitialPull_queue (r : fetchResult) (s : state) :
  timers (env (snd (performInitialPull r s))) = timers (env s) /\
  debounceTimerRef (snd (performInitialPull r s)) = debounceTimerRef s.
Proof.
  destruct (navigator_onLine (env s)) eqn:Hon.
  - rewrite (performInitialPull_online _ _ Hon).
    destruct (pulled r); try done. destruct (localDoc s); [|done].
    destruct (cloudNewer fields a); [|done]. unfold adopted. simpl.
    by destruct (js_truthy (obj_get "lastSynced" fields)).
  - by rewrite (performInitialPull_offline _ _ Hon).
Qed.

Lemma runTimers_tidy (net : postNetwork) (fired : list timer) :
  forall s, tidy s -> tidy (fold_left (runTimer net) fired s).
Proof.
  induction fired as [|t l IH]; intros s Htidy; [done|]. simpl. apply IH.
  unfold runTimer. apply commit_tidy.
  destruct (debouncedPush_queue net (timer_trip t) (timer_online t) s).
  by apply (tidy_same_queue s).
Qed.

(** X1. [tidy] is kept by every event: from the first render on, the timer
    queue holds at most the one timer [debounceTimerRef] refers to. *)
Theorem tidy_step (net : postNetwork) (s : state) (ev : event) :
  tidy s -> tidy (step net s ev).
Proof.
  intros Htidy. destruct ev as [d|dt|b|r]; simpl.
  - apply (quiet_tidy _ _ _ _ _ (localEdit_quiet d s Htidy)).
  - unfold elapse. apply runTimers_tidy.
    apply (tidy_subqueue s); [|done|done].
    intros t Hin. simpl in Hin. apply filter_In in Hin. tauto.
  - unfold connectivity. apply commit_tidy. by apply (tidy_same_queue s).
  - apply commit_tidy. destruct (performInitialPull_queue r s).
    by apply (tidy_same_queue s).
Qed.

End TidyInvariant.


(** * The cooldown key is a cache key *)

Section KeyCollision.
Context `{RT : Runtime}.
Import Weather.

(** X2. The cooldown is stored under [ws_weather_cooldown], which is also the
    cache key of a city whose normalised name is [cooldown].  While the
    cooldown is active, the fetch for such a city reads the cooldown record
    as its cache entry and returns [undefined]: the [data] of a number. *)
Theorem cooldown_record_read_as_cache_entry
  (net : network) (city c : string) (u n : Z) (w : world) :
  city <> "" ->
  cacheKey city = COOLDOWN_KEY ->
  Storage.getItem COOLDOWN_KEY (ls w) = Some c -> c <> "" ->
  parseInt c = Some u -> now w < u ->
  JSON_parse c = Ret (JNum n) ->
  getCityWeather net city w = (Ret JUndef, w).
Proof.
  intros Hcity Hkey Hget Hne Hint Hlt Hparse.
  rewrite (getCityWeather_nonempty net city w Hcity). cbv zeta.
  rewrite (cooldownOn_active w) by (exists c, u; done).
  rewrite Hkey, Hget. by rewrite (cachedDataOrNull_entry c (JNum n) JUndef).
Qed.

End KeyCollision.

(** The city Cooldown during the sample cooldown. *)
Lemma cooldown_record_witness :
  let RT := Ref.runtime in
  Weather.getCityWeather Samples.net429 "Cooldown" Samples.coolingWorld
  = (Ret JUndef, Samples.coolingWorld).
Proof.
  cbv zeta.
  apply (@cooldown_record_read_as_cache_entry Ref.runtime Samples.net429
           "Cooldown" "1767356100000" 1767356100000 1767356100000);
    try discriminate; vm_compute; reflexivity.
Defined.

(** The freshly mounted component is tidy, and stays so after an edit. *)
Lemma tidy_step_witness :
  let RT := Ref.runtime in
  tidy (App.step (fun _ _ => None) Samples.mounted
          (App.Edit (JObj Samples.tripLocal))).
Proof.
  cbv zeta. apply (@tidy_step Ref.runtime). intros t [].
Defined.

(** * The merge condition and the reconcile policy of the specification *)

Section ReconcileRefinement.
Context `{RT : Runtime}.
Import App.

(** X3. On documents whose [lastSynced] is a string when present, the merge
    condition of [performInitialPull] decides as the reconcile policy of the
    specification does: the remote document is adopted exactly when the
    policy returns it in place of the local one. *)
Theorem merge_condition_refines_reconcile_spec
  (local : option (list (string * js))) (remote : list (string * js)) :
  timestampTyped remote ->
  (forall l, local = Some l -> timestampTyped l) ->
  reconcile_spec local (Some remote)
  = if cloudNewer remote (from_option JObj JNull local)
    then Some remote else local.
Proof.
  intros Hr Hl. destruct local as [l|]; [|reflexivity].
  specialize (Hl l eq_refl). unfold reconcile_spec, cloudNewer. simpl.
  destruct Hl as [Hl|(t1 & Hl)], Hr as [Hr|(t2 & Hr)]; rewrite Hl, Hr; simpl;
    try reflexivity.
  all: repeat match goal with
         | |- context [String.eqb ?x ""] => destruct (String.eqb x "")
         end; simpl; try reflexivity.
  all: match goal with
       | |- context [String.ltb ?x ?y] => by destruct (String.ltb x y)
       end.
Qed.

End ReconcileRefinement.

(** The sample documents: the local one is the newer, and both the policy
    and the merge condition keep it. *)
Lemma merge_condition_witness :
  let RT := Ref.runtime in
  reconcile_spec (Some Samples.tripLocal) (Some Samples.tripCloud)
    = Some Samples.tripLocal /\
  cloudNewer Samples.tripCloud (JObj Samples.tripLocal) = false.
Proof.
  cbv zeta.
  assert (Hc : timestampTyped Samples.tripCloud) by (right; by eexists).
  assert (Hl : forall l, Some Samples.tripLocal = Some l -> timestampTyped l)
    by (intros l [= <-]; right; by eexists).
  pose proof (@merge_condition_refines_reconcile_spec Ref.runtime
                (Some Samples.tripLocal) Samples.tripCloud Hc Hl) as H.
  split; [|reflexivity]. rewrite H. reflexivity.
Defined.

(** * The weather service: cache hits, footprint and the breaker window *)

Section FetchPaths.
Context `{RT : Runtime}.
Import Weather.

(** Step 2 of the fetch on an entry that parses. *)
Lemma checkCache_timed (text : string) (entry d ts : js) (w : world) :
  text <> "" -> JSON_parse text = Ret entry ->
  js_prop entry "data" = Some d -> js_prop entry "timestamp" = Some ts ->
  checkCache (Some text) w =
    (Ret match js_to_number ts with
         | Some n => if now w - n <? CACHE_DURATION then Some d else None
         | None => None
         end, w).
Proof.
  intros Hne Hparse Hdata Hts. unfold checkCache. unfold_m.
  apply String.eqb_neq in Hne. rewrite Hne, Hparse, Hdata, Hts.
  unfold_m. simpl.
  destruct (js_to_number ts) as [n|]; [|reflexivity].
  by destruct (now w - n <? CACHE_DURATION).
Qed.

(** The [try] block of the fetch, by what the retry wrapper gives. *)
Lemma fetchAndStore_run (net : network) (city : string) (w : world) :
  fetchAndStore net city w =
    match retryWithBackoff (generateContent net (prompt city)) 1 3000 w with
    | (Throw e, w1) => (Throw e, w1)
    | (Ret text, w1) =>
        match JSON_parse (textOrEmptyObject text) with
        | Throw e => (Throw e, w1)
        | Ret payload =>
            match js_prop payload "temp" with
            | None => (Throw TypeError_nullish, w1)
            | Some JUndef => (Ret JNull, w1)
            | Some _ =>
                (Ret payload,
                 set_ls (Storage.setItem (cacheKey city)
                           (JSON_stringify
                              (JObj [("data", payload);
                                     ("timestamp", JNum (now w1))])))
                        w1)
            end
        end
    end.
Proof.
  unfold fetchAndStore. unfold bind at 1.
  destruct (retryWithBackoff _ _ _ w) as [[text|e] w1]; [|reflexivity].
  unfold bind at 1. unfold lift_result.
  destruct (JSON_parse (textOrEmptyObject text)) as [payload|e]; [|reflexivity].
  unfold bind at 1. unfold prop.
  destruct (js_prop payload "temp") as [x|]; [|reflexivity].
  destruct x; reflexivity.
Qed.

(** What the retry wrapper, as the fetch calls it, changes. *)
Lemma retry_world (net : network) (p : string) (w : world) :
  let w1 := snd (retryWithBackoff (generateContent net p) 1 3000 w) in
  (calls w < calls w1 <= calls w + 2)%nat /\
  (sleeps w1 = sleeps w \/ sleeps w1 = 3000 :: sleeps w) /\
  (forall k, k <> COOLDOWN_KEY ->
     Storage.getItem k (ls w1) = Storage.getItem k (ls w)).
Proof.
  cbv zeta. split; [|split].
  - rewrite retryWithBackoff_default. cbv zeta.
    destruct (snd (net (calls w) p)) as [v|e]; [simpl; lia|].
    destruct (isRateLimit e); [|simpl; lia].
    destruct (snd (net (S (calls w)) p)); simpl; lia.
  - rewrite retryWithBackoff_default. cbv zeta.
    destruct (snd (net (calls w) p)) as [v|e]; [by left|].
    destruct (isRateLimit e); [|by left].
    destruct (snd (net (S (calls w)) p)); by right.
  - intros k Hk. by apply retry_keeps_other_keys.
Qed.

(** The world a fetch leaves: the one it found, the one the retry wrapper
    left, or that one with the cache entry of the city written. *)
Lemma getCityWeather_footprint (net : network) (city : string) (w : world) :
  let w' := snd (getCityWeather net city w) in
  let w1 := snd (retryWithBackoff (generateContent net (prompt city)) 1 3000 w) in
  w' = w \/ w' = w1 \/
  exists text, w' = set_ls (Storage.setItem (cacheKey city) text) w1.
Proof.
  cbv zeta. destruct (decide (city = "")) as [->|Hcity]; [by left|].
  rewrite (getCityWeather_nonempty net city w Hcity). cbv zeta.
  destruct (cooldownActive _ _); [left; apply cachedDataOrNull_world|].
  pose proof (checkCache_world (Storage.getItem (cacheKey city) (ls w)) w) as Hw.
  destruct (checkCache _ w) as [[[d|]|e] w0]; simpl in Hw; subst w0;
    [by left| |by left].
  unfold try_catch. rewrite fetchAndStore_run.
  destruct (retryWithBackoff _ _ _ w) as [[text|e] w1]; simpl.
  - destruct (JSON_parse (textOrEmptyObject text)) as [payload|e].
    + destruct (js_prop payload "temp") as [x|].
      * destruct x; try (right; right; eexists; reflexivity).
        right; by left.
      * right; left. apply cachedDataOrNull_world.
    + right; left. apply cachedDataOrNull_world.
  - right; left. apply cachedDataOrNull_world.
Qed.

(** While the breaker is open a fetch leaves the world as it found it. *)
Lemma cooldown_fetch_world (net : network) (city : string) (w : world) :
  cooldownOn w -> snd (getCityWeather net city w) = w.
Proof.
  intros Hcool. destruct (decide (city = "")) as [->|Hcity]; [done|].
  rewrite (getCityWeather_nonempty net city w Hcity). cbv zeta.
  rewrite (cooldownOn_active w Hcool). apply cachedDataOrNull_world.
Qed.

End FetchPaths.

Section FreshCache.
Context `{RT : Runtime}.
Import Weather.

(** X4. With no cooldown active and an entry for the city that parses: when
    the entry is younger than [CACHE_DURATION] the fetch returns its payload
    and leaves the world as it found it (no request, no write, no wait);
    when it is that old or older, or its timestamp is not a number, the
    fetch goes on to the API call. *)
Theorem fresh_entry_served_without_request
  (net : network) (city text : string) (entry d ts : js) (w : world) :
  city <> "" ->
  cooldownActive (Storage.getItem COOLDOWN_KEY (ls w)) (now w) = false ->
  Storage.getItem (cacheKey city) (ls w) = Some text -> text <> "" ->
  JSON_parse text = Ret entry ->
  js_prop entry "data" = Some d -> js_prop entry "timestamp" = Some ts ->
  (forall n, js_to_number ts = Some n -> now w - n < CACHE_DURATION ->
     getCityWeather net city w = (Ret d, w)) /\
  (forall n, js_to_number ts = Some n -> CACHE_DURATION <= now w - n ->
     reachesNetwork city w) /\
  (js_to_number ts = None -> reachesNetwork city w).
Proof.
  intros Hcity Hcool Hget Hne Hparse Hdata Hts.
  pose proof (checkCache_timed text entry d ts w Hne Hparse Hdata Hts) as Hcheck.
  split; [|split].
  - intros n Hn Hfresh.
    rewrite (getCityWeather_nonempty net city w Hcity). cbv zeta.
    rewrite Hcool, Hget, Hcheck, Hn.
    assert (Hlt : (now w - n <? CACHE_DURATION) = true) by (apply Z.ltb_lt; lia).
    by rewrite Hlt.
  - intros n Hn Hstale. split; [done|]. split; [done|].
    rewrite Hget, Hcheck, Hn.
    assert (Hlt : (now w - n <? CACHE_DURATION) = false) by (apply Z.ltb_ge; lia).
    by rewrite Hlt.
  - intros Hn. split; [done|]. split; [done|]. by rewrite Hget, Hcheck, Hn.
Qed.

(** X5. A payload the fetch stored is what every later fetch for the city
    returns, without a request, as long as the clock is within
    [CACHE_DURATION] of the write: whatever the network would do, and
    whether or not the breaker opened meanwhile. *)
Theorem delivered_payload_served_from_cache
  (net net' : network) (city : string) (w w1 w2 : world) (payload x : js) :
  reachesNetwork city w ->
  networkDelivers net city w w1 payload ->
  js_prop payload "temp" = Some x -> x <> JUndef ->
  roundTrips (JObj [("data", payload); ("timestamp", JNum (now w1))]) ->
  ls w2 = ls (snd (getCityWeather net city w)) ->
  now w2 - now w1 < CACHE_DURATION ->
  fst (getCityWeather net city w) = Ret payload /\
  getCityWeather net' city w2 = (Ret payload, w2).
Proof.
  intros (Hcity & Hcool & Hcheck) Hnet Htemp Hx [Hne Hparse] Hls Hfresh.
  assert (Hfirst :
    getCityWeather net city w =
      (Ret payload,
       set_ls (Storage.setItem (cacheKey city)
                 (JSON_stringify
                    (JObj [("data", payload); ("timestamp", JNum (now w1))])))
              w1)).
  { rewrite (getCityWeather_nonempty net city w Hcity). cbv zeta.
    rewrite Hcool, Hcheck. unfold try_catch.
    rewrite (fetchAndStore_delivers net city w w1 payload Hnet), Htemp.
    by destruct x. }
  rewrite Hfirst in Hls |- *. split; [done|].
  assert (Hget : Storage.getItem (cacheKey city) (ls w2)
                 = Some (JSON_stringify
                           (JObj [("data", payload);
                                  ("timestamp", JNum (now w1))]))).
  { rewrite Hls. apply lookup_insert_eq. }
  rewrite (getCityWeather_nonempty net' city w2 Hcity). cbv zeta.
  rewrite Hget.
  destruct (cooldownActive (Storage.getItem COOLDOWN_KEY (ls w2)) (now w2)).
  - by apply (cachedDataOrNull_entry _ (JObj [("data", payload);
                                              ("timestamp", JNum (now w1))])).
  - rewrite (checkCache_timed _ _ payload (JNum (now w1)) w2 Hne Hparse
               eq_refl eq_refl).
    simpl.
    assert (Hlt : (now w2 - now w1 <? CACHE_DURATION) = true)
      by (apply Z.ltb_lt; lia).
    by rewrite Hlt.
Qed.

End FreshCache.

(** A stale-free entry for Paris: served as it is, the failing network is
    never asked. *)
Lemma fresh_entry_witness :
  let RT := Ref.runtime in
  Weather.getCityWeather Samples.net500 "Paris" MoreSamples.freshWorld
  = (Ret Samples.sunny, MoreSamples.freshWorld).
Proof.
  cbv zeta.
  assert (Hcity : "Paris" <> "") by discriminate.
  assert (Hne : MoreSamples.freshText <> "") by (vm_compute; discriminate).
  assert (Hparse : Ref.JSON_parse MoreSamples.freshText
                   = Ret (JObj [("data", Samples.sunny);
                                ("timestamp", JNum (Samples.noon - 1000))]))
    by (vm_compute; reflexivity).
  pose proof (@fresh_entry_served_without_request Ref.runtime Samples.net500
                "Paris" MoreSamples.freshText _ Samples.sunny
                (JNum (Samples.noon - 1000)) MoreSamples.freshWorld
                Hcity eq_refl eq_refl Hne Hparse eq_refl eq_refl) as (Hfresh & _).
  apply (Hfresh (Samples.noon - 1000)); [reflexivity|].
  vm_compute. reflexivity.
Defined.

(** Paris is fetched once; sixteen minutes later, with a network that only
    fails, the stored payload is returned and nothing is asked. *)
Lemma delivered_payload_witness :
  let RT := Ref.runtime in
  let first :=
    Weather.getCityWeather MoreSamples.netSunny "Paris" Samples.staleWorld in
  let later :=
    Weather.mkWorld (Weather.ls (snd first)) (Samples.noon + 960000) 1 [] in
  fst first = Ret Samples.sunny /\
  Weather.getCityWeather Samples.net500 "Paris" later = (Ret Samples.sunny, later).
Proof.
  cbv zeta.
  apply (@delivered_payload_served_from_cache Ref.runtime MoreSamples.netSunny
           Samples.net500 "Paris" Samples.staleWorld Samples.afterOneCall _
           Samples.sunny (JNum 21)).
  - exact sample_reaches_network.
  - exists (Some (Ref.stringify Samples.sunny)). split; vm_compute; reflexivity.
  - reflexivity.
  - discriminate.
  - split; vm_compute; [discriminate|reflexivity].
  - reflexivity.
  - vm_compute. reflexivity.
Defined.

Section BreakerWindow.
Context `{RT : Runtime}.
Import Weather.

Lemma retry_rate_limited (net : network) (p : string) (w : world) (e : error) :
  fst (retryWithBackoff (generateContent net p) 1 3000 w) = Throw e ->
  isRateLimit e = true ->
  Storage.getItem COOLDOWN_KEY
    (ls (snd (retryWithBackoff (generateContent net p) 1 3000 w)))
  = Some (Number_toString
            (now (snd (retryWithBackoff (generateContent net p) 1 3000 w))
             + COOLDOWN_DURATION)).
Proof.
  rewrite retryWithBackoff_default. cbv zeta.
  destruct (snd (net (calls w) p)) as [v|e1]; [discriminate|].
  destruct (isRateLimit e1) eqn:Hrl1.
  - destruct (snd (net (S (calls w)) p)) as [v2|e2]; [discriminate|].
    simpl. intros [= ->] Hrl. rewrite Hrl. simpl. apply lookup_cool.
  - simpl. intros [= ->] Hrl. congruence.
Qed.

(** X6. When the API call of a fetch fails for good with a rate-limit
    error, the breaker is open for [COOLDOWN_DURATION] from the moment the
    fetch returns: until then every fetch, for any city and whatever the
    network would do, leaves the world as it found it (no request); from
    then on the cooldown is no longer active.  The runtime is taken to read
    back, with [parseInt], the number it printed. *)
Theorem rate_limited_failure_opens_breaker_window
  (net net' : network) (city city' : string) (w w1 w2 : world) (e : error) :
  reachesNetwork city w ->
  fst (retryWithBackoff (generateContent net (prompt city)) 1 3000 w) = Throw e ->
  isRateLimit e = true ->
  snd (getCityWeather net city w) = w1 ->
  Number_toString (now w1 + COOLDOWN_DURATION) <> "" ->
  parseInt (Number_toString (now w1 + COOLDOWN_DURATION))
    = Some (now w1 + COOLDOWN_DURATION) ->
  ls w2 = ls w1 ->
  (now w2 < now w1 + COOLDOWN_DURATION ->
     cooldownOn w2 /\ snd (getCityWeather net' city' w2) = w2) /\
  (now w1 + COOLDOWN_DURATION <= now w2 ->
     cooldownActive (Storage.getItem COOLDOWN_KEY (ls w2)) (now w2) = false).
Proof.
  intros (Hcity & Hcool & Hcheck) Hfail Hrl Hw1 Hne Hint Hls.
  assert (Hrun : w1 = snd (retryWithBackoff
                              (generateContent net (prompt city)) 1 3000 w)).
  { rewrite <- Hw1. rewrite (getCityWeather_nonempty net city w Hcity).
    cbv zeta. rewrite Hcool, Hcheck. unfold try_catch.
    rewrite (fetchAndStore_fails net city w e Hfail).
    apply cachedDataOrNull_world. }
  pose proof (retry_rate_limited net (prompt city) w e Hfail Hrl) as Hstored.
  rewrite <- Hrun in Hstored. rewrite <- Hls in Hstored.
  split.
  - intros Hlt.
    assert (Hon : cooldownOn w2).
    { exists (Number_toString (now w1 + COOLDOWN_DURATION)),
             (now w1 + COOLDOWN_DURATION). done. }
    split; [exact Hon|]. by apply cooldown_fetch_world.
  - intros Hge. unfold cooldownActive. rewrite Hstored, Hint.
    assert (Hlt : (now w2 <? now w1 + COOLDOWN_DURATION) = false)
      by (apply Z.ltb_ge; lia).
    rewrite Hlt. apply andb_false_r.
Qed.

End BreakerWindow.

(** Paris is refused twice with a 429: a minute later a fetch for Tokyo
    asks nothing, sixteen minutes later the cooldown is over. *)
Lemma breaker_window_witness :
  let RT := Ref.runtime in
  let w1 := snd (Weather.getCityWeather Samples.net429 "Paris" Samples.staleWorld) in
  let soon := Weather.mkWorld (Weather.ls w1) (Weather.now w1 + 60000) 2 [3000] in
  let late := Weather.mkWorld (Weather.ls w1) (Weather.now w1 + 960000) 2 [3000] in
  snd (Weather.getCityWeather Samples.net429 "Tokyo" soon) = soon /\
  Weather.cooldownActive
    (Storage.getItem Weather.COOLDOWN_KEY (Weather.ls late)) (Weather.now late)
  = false.
Proof.
  cbv zeta.
  set (w1 := snd (Weather.getCityWeather Samples.net429 "Paris" Samples.staleWorld)).
  assert (Hne : Ref.Number_toString (Weather.now w1 + Weather.COOLDOWN_DURATION)
                <> "") by (vm_compute; discriminate).
  assert (Hint : Ref.parseInt
                   (Ref.Number_toString (Weather.now w1 + Weather.COOLDOWN_DURATION))
                 = Some (Weather.now w1 + Weather.COOLDOWN_DURATION))
    by (vm_compute; reflexivity).
  split.
  - apply (@rate_limited_failure_opens_breaker_window Ref.runtime
             Samples.net429 Samples.net429 "Paris" "Tokyo" Samples.staleWorld w1
             (Weather.mkWorld (Weather.ls w1) (Weather.now w1 + 60000) 2 [3000])
             Samples.err429 sample_reaches_network eq_refl eq_refl eq_refl
             Hne Hint eq_refl).
    vm_compute. reflexivity.
  - apply (@rate_limited_failure_opens_breaker_window Ref.runtime
             Samples.net429 Samples.net429 "Paris" "Tokyo" Samples.staleWorld w1
             (Weather.mkWorld (Weather.ls w1) (Weather.now w1 + 960000) 2 [3000])
             Samples.err429 sample_reaches_network eq_refl eq_refl eq_refl
             Hne Hint eq_refl).
    vm_compute. discriminate.
Defined.

Section RetryOutcome.
Context `{RT : Runtime}.
Import Weather.



End RetryOutcome.

Section FetchFootprint.
Context `{RT : Runtime}.
Import Weather.

(** X8. A fetch writes at most two keys of localStorage, the cooldown key
    and the cache key of its city: every other key reads as before, and so do
    the two keys of the application, the saved trip and the pending-sync
    flag. *)
Theorem fetch_writes_only_its_two_keys
  (net : network) (city : string) (w : world) :
  (forall k, k <> COOLDOWN_KEY -> k <> cacheKey city ->
     Storage.getItem k (ls (snd (getCityWeather net city w)))
     = Storage.getItem k (ls w)) /\
  Storage.getItem App.STORAGE_KEY (ls (snd (getCityWeather net city w)))
  = Storage.getItem App.STORAGE_KEY (ls w) /\
  Storage.getItem App.PENDING_SYNC_KEY (ls (snd (getCityWeather net city w)))
  = Storage.getItem App.PENDING_SYNC_KEY (ls w).
Proof.
  assert (Hframe : forall k, k <> COOLDOWN_KEY -> k <> cacheKey city ->
            Storage.getItem k (ls (snd (getCityWeather net city w)))
            = Storage.getItem k (ls w)).
  { intros k Hk Hc.
    destruct (retry_world net (prompt city) w) as (_ & _ & Hkeep).
    destruct (getCityWeather_footprint net city w) as [->|[->|(text & ->)]].
    - done.
    - by apply Hkeep.
    - simpl. unfold Storage.getItem, Storage.setItem.
      rewrite lookup_insert_ne by congruence. by apply Hkeep. }
  split; [exact Hframe|].
  split; apply Hframe; unfold cacheKey, WEATHER_CACHE_PREFIX; discriminate.
Qed.

(** X9. A fetch issues at most two requests and waits at most once, for
    3000 ms; a fetch that issued no request changed nothing at all. *)
Theorem fetch_issues_at_most_two_requests
  (net : network) (city : string) (w : world) :
  (calls w <= calls (snd (getCityWeather net city w)) <= calls w + 2)%nat /\
  (sleeps (snd (getCityWeather net city w)) = sleeps w \/
   sleeps (snd (getCityWeather net city w)) = 3000 :: sleeps w) /\
  (calls (snd (getCityWeather net city w)) = calls w ->
   snd (getCityWeather net city w) = w).
Proof.
  destruct (retry_world net (prompt city) w) as (Hcalls & Hsleeps & _).
  destruct (getCityWeather_footprint net city w) as [->|[->|(text & ->)]];
    simpl; repeat split; auto; try lia.
Qed.

End FetchFootprint.

(** * The component: what schedules a push *)

Section SchedulingFacts.
Context `{RT : Runtime}.
Import App.




Lemma truthy_has_props (v : js) (k : string) :
  js_truthy v = true -> exists x, js_prop v k = Some x.
Proof. destruct v; simpl; try discriminate; eauto. Qed.

(** The timer callback, online, when the POST resolves. *)
Lemma debouncedPush_resolved (net : postNetwork) (tr ls : js) (s : state) :
  net (length (posted (env s))) (pushBody tr s) = None ->
  js_prop tr "lastSynced" = Some ls ->
  debouncedPush net tr true s =
    (Ret tt,
     setSyncing false
       (setHasPendingSync false
          (setLastSyncedAt
             (if js_truthy ls then ls
              else JStr (Date_toISOString (clock (env s))))
             (set_storage (Storage.removeItem PENDING_SYNC_KEY)
                (afterPost (pushBody tr s) (setSyncing true s)))))).
Proof.
  intros Hnet Hls. unfold debouncedPush. unfold bind at 1. unfold modify at 1.
  unfold bind at 1.
  assert (Hnet' :
    net (length (posted (env (setSyncing true s))))
        (pushBody tr (setSyncing true s)) = None) by exact Hnet.
  rewrite (pushToCloud_resolved _ _ _ Hnet'). unfold_m. by rewrite Hls.
Qed.

(** The timer callback, online, when the POST rejects. *)
Lemma debouncedPush_rejected (net : postNetwork) (tr : js) (s : state)
  (e : error) :
  net (length (posted (env s))) (pushBody tr s) = Some e ->
  debouncedPush net tr true s =
    (Ret tt,
     setSyncing false
       (setHasPendingSync true
          (set_storage (Storage.setItem PENDING_SYNC_KEY "true")
             (afterPost (pushBody tr s) (setSyncing true s))))).
Proof.
  intros Hnet. unfold debouncedPush. unfold bind at 1. unfold modify at 1.
  unfold bind at 1.
  assert (Hnet' :
    net (length (posted (env (setSyncing true s))))
        (pushBody tr (setSyncing true s)) = Some e) by exact Hnet.
  by rewrite (pushToCloud_rejected _ _ _ e Hnet').
Qed.


End SchedulingFacts.

Section FirstRun.
Context `{RT : Runtime}.
Import App.


End FirstRun.


Section Reconnect.
Context `{RT : Runtime}.
Import App.


End Reconnect.


(** * Push and pull together *)

Section Echo.
Context `{RT : Runtime}.
Import App.

Lemma pushPayload_lastSynced (fields : list (string * js)) (t : Z) :
  js_prop (pushPayload (JObj fields) t) "lastSynced"
  = Some (obj_get "lastSynced" fields).
Proof.
  unfold pushPayload. simpl. by rewrite !obj_get_set_ne by discriminate.
Qed.

Lemma pushPayload_keeps (fields : list (string * js)) (t : Z) (k : string) :
  k <> "clientVersion" -> k <> "pushedAt" ->
  js_prop (pushPayload (JObj fields) t) k = Some (obj_get k fields).
Proof.
  intros Hv Hp. unfold pushPayload. simpl. by rewrite !obj_get_set_ne.
Qed.

(** X12. The body of a push carries every property of the trip but
    [clientVersion] and [pushedAt], which it sets.  So when the endpoint
    answers a pull with the body of a push of the document that is stored
    locally, a document the application stamped, the pull adopts nothing:
    the two [lastSynced] are the same string, and the trip, the last sync
    time, the pending flag and localStorage stay as they are. *)
Theorem own_push_echo_is_not_adopted
  (d : js) (t t' : Z) (s : state) :
  roundTrips (stamp d t) ->
  roundTrips (pushPayload (stamp d t) t') ->
  Storage.getItem STORAGE_KEY (localStorage (env s))
    = Some (JSON_stringify (stamp d t)) ->
  (forall k, k <> "clientVersion" -> k <> "pushedAt" ->
     js_prop (pushPayload (stamp d t) t') k = js_prop (stamp d t) k) /\
  js_prop (pushPayload (stamp d t) t') "clientVersion" = Some (JStr APP_VERSION) /\
  js_prop (pushPayload (stamp d t) t') "pushedAt"
    = Some (JStr (Date_toISOString t')) /\
  fst (performInitialPull
         (FetchResponse true (JSON_stringify (pushPayload (stamp d t) t'))) s)
    = Ret tt /\
  syncView
    (snd (performInitialPull
            (FetchResponse true (JSON_stringify (pushPayload (stamp d t) t'))) s))
  = syncView s.
Proof.
  intros [Hne Hparse] [Hne' Hparse'] Hstored.
  split; [|split; [|split]].
  - intros k Hv Hp. unfold stamp at 1. by rewrite pushPayload_keeps.
  - unfold pushPayload. simpl.
    rewrite obj_get_set_ne by discriminate. by rewrite obj_get_set_eq.
  - unfold pushPayload. simpl. by rewrite obj_get_set_eq.
  - destruct (navigator_onLine (env s)) eqn:Hon;
      [|by rewrite (performInitialPull_offline _ _ Hon)].
    rewrite (performInitialPull_online _ _ Hon).
    unfold pulled. rewrite Hparse'.
    assert (Hlocal : localDoc s = Ret (stamp d t)).
    { unfold localDoc. rewrite Hstored.
      apply String.eqb_neq in Hne. by rewrite Hne. }
    assert (Hkeep : forall fields,
              pushPayload (stamp d t) t' = JObj fields ->
              cloudNewer fields (stamp d t) = false).
    { intros fields Heq. unfold cloudNewer.
      pose proof (pushPayload_lastSynced
                    (obj_set "lastSynced" (JStr (Date_toISOString t))
                       (js_spread d)) t') as Hls.
      change (JObj (obj_set "lastSynced" (JStr (Date_toISOString t))
                      (js_spread d))) with (stamp d t) in Hls.
      rewrite Heq in Hls. simpl in Hls. injection Hls as Hls.
      rewrite Hls, !obj_get_set_eq. simpl.
      rewrite obj_get_set_eq. simpl. rewrite ltb_irrefl.
      by rewrite !andb_false_r. }
    unfold pushPayload in *. simpl in *.
    destruct (js_truthy (obj_get "id" _)); [|done].
    rewrite Hlocal. by rewrite (Hkeep _ eq_refl).
Qed.

End Echo.

(** The resumed component pulls back what it would push: nothing changes. *)
Lemma own_push_echo_witness :
  let RT := Ref.runtime in
  let s := App.handleUpdateAndSync (JObj Samples.tripLocal) Samples.mounted in
  let body :=
    Ref.stringify
      (App.pushPayload (App.stamp (JObj Samples.tripLocal) Samples.noon)
         (Samples.noon + 2000)) in
  syncView (snd (App.performInitialPull (App.FetchResponse true body) s))
  = syncView s.
Proof.
  cbv zeta.
  apply (@own_push_echo_is_not_adopted Ref.runtime (JObj Samples.tripLocal)
           Samples.noon (Samples.noon + 2000)).
  - split; vm_compute; [discriminate|reflexivity].
  - split; vm_compute; [discriminate|reflexivity].
  - vm_compute. reflexivity.
Defined.

Section CorruptCopy.
Context `{RT : Runtime}.
Import App.

(** X13. When the text saved under the trip key is not JSON, neither the
    mount nor a pull repairs it.  The mount effect throws the error of
    [JSON.parse] before it sets a trip.  A pull that delivers a document
    throws the same error after it set [syncing]: the document is not
    adopted, the saved text stays, and [syncing] stays true. *)
Theorem corrupt_saved_trip_is_not_repaired
  (r : fetchResult) (s : state) (text : string) (e : error)
  (cloud : list (string * js)) :
  Storage.getItem STORAGE_KEY (localStorage (env s)) = Some text ->
  text <> "" ->
  JSON_parse text = Throw e ->
  mountEffect (initialState (env s)) = (Throw e, initialState (env s)) /\
  (navigator_onLine (env s) = true -> pulled r = JObj cloud ->
     performInitialPull r s = (Throw e, setSyncing true s)).
Proof.
  intros Hstored Hne Hparse. apply String.eqb_neq in Hne. split.
  - unfold mountEffect. unfold_m.
    change (localStorage (env (initialState (env s))))
      with (localStorage (env s)).
    rewrite Hstored. simpl. by rewrite Hne, Hparse.
  - intros Hon Hpull. rewrite (performInitialPull_online _ _ Hon), Hpull.
    unfold localDoc. by rewrite Hstored, Hne, Hparse.
Qed.

End CorruptCopy.

(** Something that is not JSON under the trip key: the mount throws, and so
    does the pull of the sample document, with [syncing] left on. *)
Lemma corrupt_saved_trip_witness :
  let RT := Ref.runtime in
  let s :=
    App.initialState
      (App.mkBrowser {[ App.STORAGE_KEY := "oops" ]} Samples.noon true [] 1 []) in
  fst (App.mountEffect s) = Throw Ref.SyntaxError /\
  fst (App.performInitialPull Samples.cloudResponse s) = Throw Ref.SyntaxError /\
  App.syncing (App.cells (snd (App.performInitialPull Samples.cloudResponse s)))
  = true.
Proof.
  cbv zeta.
  destruct (@corrupt_saved_trip_is_not_repaired Ref.runtime Samples.cloudResponse
              (App.initialState
                 (App.mkBrowser {[ App.STORAGE_KEY := "oops" ]} Samples.noon
                    true [] 1 []))
              "oops" Ref.SyntaxError Samples.tripCloud)
    as (Hmount & Hpull); try discriminate; try (vm_compute; reflexivity).
  split; [exact (f_equal fst Hmount)|].
  rewrite (Hpull eq_refl ltac:(vm_compute; reflexivity)). by split.
Defined.

Section AdoptionEcho.
Context `{RT : Runtime}.
Import App.


End AdoptionEcho.


(** * The timeline of the selected day *)

Section TimelineFacts.
Context `{RT : Runtime} `{HT : Host}.
Import Timeline.

Lemma filterM_Some {A} (f : A -> option bool) (l r : list A) :
  filterM f l = Some r ->
  r = List.filter (fun x => default false (f x)) l /\
  Forall (fun x => is_Some (f x)) l.
Proof.
  revert r. induction l as [|x l IH]; intros r H; simpl in H.
  - injection H as <-. by split.
  - destruct (f x) as [b|] eqn:Hx; simpl in H; [|discriminate].
    destruct (filterM f l) as [r'|]; simpl in H; [|discriminate].
    injection H as <-. destruct (IH r' eq_refl) as [-> Hall]. split.
    + simpl. rewrite Hx. by destruct b.
    + constructor; [by rewrite Hx|done].
Qed.

Lemma filterM_total {A} (f : A -> option bool) (l : list A) :
  Forall (fun x => is_Some (f x)) l ->
  filterM f l = Some (List.filter (fun x => default false (f x)) l).
Proof.
  induction 1 as [|x l [b Hx] Hall IH]; simpl; [done|].
  rewrite Hx, IH. simpl. by destruct b.
Qed.

Lemma findM_skip {A} (f : A -> option bool) (l1 l2 : list A) :
  Forall (fun x => f x = Some false) l1 -> findM f (l1 ++ l2)%list = findM f l2.
Proof. induction 1 as [|x l Hx Hall IH]; simpl; [done|]. by rewrite Hx. Qed.

Lemma insertM_perm {A} (cmp : A -> A -> option Z) (x : A) (l r : list A) :
  insertM cmp x l = Some r -> Permutation r (x :: l).
Proof.
  revert r. induction l as [|y l IH]; intros r H; simpl in H.
  - by injection H as <-.
  - destruct (cmp x y) as [c|]; simpl in H; [|discriminate].
    destruct (0 <? c).
    + destruct (insertM cmp x l) as [r'|]; simpl in H; [|discriminate].
      injection H as <-. rewrite (IH r' eq_refl). apply perm_swap.
    + by injection H as <-.
Qed.

Lemma sortM_perm {A} (cmp : A -> A -> option Z) (l r : list A) :
  sortM cmp l = Some r -> Permutation r l.
Proof.
  revert r. induction l as [|x l IH]; intros r H; simpl in H.
  - by injection H as <-.
  - destruct (sortM cmp l) as [r'|]; simpl in H; [|discriminate].
    rewrite (insertM_perm cmp x r' r H). by rewrite (IH r' eq_refl).
Qed.

Lemma startsOn_onDay (key date : string) (x : js) :
  default false (startsOn key date x) = onDay key date x.
Proof.
  unfold startsOn, onDay. destruct (js_prop x key) as [t|]; [|done].
  by destruct t.
Qed.

Lemma startsOn_timed (key date : string) (x : js) :
  is_Some (startsOn key date x) <-> timed key x.
Proof.
  unfold startsOn, timed. destruct (js_prop x key) as [t|]; simpl.
  - destruct t; simpl; split; intros [y Hy]; try discriminate; eauto.
  - split; intros [y Hy]; discriminate.
Qed.

Lemma stayCovers_defined (date : string) (a : js) :
  is_Some (stayCovers date a) <-> a <> JNull /\ a <> JUndef.
Proof.
  unfold stayCovers. destruct a; simpl; split;
    try (intros [y Hy]; discriminate); try (intros [? ?]; done);
    try (intros _; split; discriminate); intros _; eauto.
Qed.

Lemma filter_onDay (key date : string) (l : list js) :
  List.filter (fun x => default false (startsOn key date x)) l
  = List.filter (onDay key date) l.
Proof. apply List.filter_ext. intros x. apply startsOn_onDay. Qed.

Lemma flightItem_entry (f y : js) : flightItem f = Some y -> y = flightEntry f.
Proof.
  unfold flightItem, flightEntry.
  destruct (js_prop f "departureTime"); simpl; [|discriminate].
  by intros [= <-].
Qed.

Lemma mapM_flightItem (l fl : list js) :
  mapM flightItem l = Some fl -> fl = map flightEntry l.
Proof.
  intros H. apply mapM_Some_1 in H.
  induction H as [|x y l k Hx Hall IH]; [done|].
  simpl. by rewrite (flightItem_entry x y Hx), IH.
Qed.

Lemma mapM_flightItem_total (l : list js) :
  Forall (timed "departureTime") l -> mapM flightItem l = Some (map flightEntry l).
Proof.
  intros Hall. apply mapM_Some_2.
  induction Hall as [|x l [t Hx] Hall IH]; simpl; constructor; [|done].
  unfold flightItem, flightEntry. by rewrite Hx.
Qed.

Lemma timed_object (key : string) (x : js) :
  timed key x -> exists fields, x = JObj fields.
Proof. intros [t Ht]. destruct x; try discriminate. eauto. Qed.

Lemma eventItem_prop (e : js) (k : string) :
  timed "startTime" e -> k <> "isStay" -> k <> "isFlight" ->
  js_prop (eventItem e) k = js_prop e k.
Proof.
  intros Ht Hs Hf. destruct (timed_object _ _ Ht) as [fields ->].
  unfold eventItem. simpl. by rewrite !obj_get_set_ne.
Qed.

Lemma eventItem_timed (e : js) :
  timed "startTime" e -> timed "startTime" (eventItem e).
Proof.
  intros [t Ht]. exists t.
  rewrite eventItem_prop; try discriminate; [done|by exists t].
Qed.

Lemma flightEntry_timed (f : js) :
  timed "departureTime" f -> timed "startTime" (flightEntry f).
Proof. intros [t Ht]. exists t. unfold flightEntry. by rewrite Ht. Qed.

Lemma eventItem_base (e : js) : isBaseItem (eventItem e).
Proof. unfold isBaseItem, eventItem. simpl. by rewrite obj_get_set_eq. Qed.

Lemma flightEntry_base (f : js) : isBaseItem (flightEntry f).
Proof. reflexivity. Qed.

Lemma stayItem_stay (a : js) : isStayItem (stayItem a).
Proof. by split. Qed.

Lemma filter_Forall {A} (P : A -> Prop) (f : A -> bool) (l : list A) :
  Forall P l -> Forall P (List.filter f l).
Proof.
  induction 1 as [|x l Hx Hall IH]; simpl; [constructor|].
  destruct (f x); [by constructor|done].
Qed.

(** The comparator on two items that have a start time. *)
Lemma byStartTime_timed (a b : js) (ta tb : string) :
  js_prop a "startTime" = Some (JStr ta) ->
  js_prop b "startTime" = Some (JStr tb) ->
  byStartTime a b = Some (localeCompare ta tb).
Proof. intros Ha Hb. unfold byStartTime. by rewrite Ha, Hb. Qed.

Lemma insertM_total (x : js) (l : list js) :
  timed "startTime" x -> Forall (timed "startTime") l ->
  exists r, insertM byStartTime x l = Some r.
Proof.
  intros [tx Hx] Hall. induction Hall as [|y l [ty Hy] Hall [r IH]]; simpl.
  - eauto.
  - rewrite (byStartTime_timed x y tx ty Hx Hy). simpl.
    destruct (0 <? localeCompare tx ty); [|eauto].
    rewrite IH. simpl. eauto.
Qed.

Lemma sortM_total (l : list js) :
  Forall (timed "startTime") l -> exists r, sortM byStartTime l = Some r.
Proof.
  induction 1 as [|x l Hx Hall [r IH]]; simpl; [eauto|].
  rewrite IH. simpl. apply insertM_total; [done|].
  by rewrite (sortM_perm byStartTime l r IH).
Qed.

End TimelineFacts.

Section TimelineRuns.
Context `{RT : Runtime} `{HT : Host}.
Import Timeline.

Lemma filteredEvents_guard (trip : js) (date : string) :
  js_truthy trip = false \/ date = "" -> filteredEvents trip date = Some [].
Proof.
  intros [H| ->]; unfold filteredEvents; [by rewrite H|].
  simpl. by rewrite orb_true_r.
Qed.

(** What the timeline is when the trip has its three lists. *)
Lemma filteredEvents_Some (trip : js) (date : string) (items : list js) :
  js_truthy trip = true -> date <> "" ->
  filteredEvents trip date = Some items ->
  exists events flights stays base,
    js_prop trip "events" = Some (JArr events) /\
    js_prop trip "flights" = Some (JArr flights) /\
    js_prop trip "accommodations" = Some (JArr stays) /\
    Forall (timed "startTime") events /\
    Forall (timed "departureTime") flights /\
    Forall (fun a => a <> JNull /\ a <> JUndef) stays /\
    sortM byStartTime
      (map eventItem (List.filter (onDay "startTime" date) events) ++
       map flightEntry (List.filter (onDay "departureTime" date) flights))%list
      = Some base /\
    items = (base ++ map stayItem (List.filter (covers date) stays))%list.
Proof.
  intros Ht Hd H. unfold filteredEvents in H. rewrite Ht in H.
  apply String.eqb_neq in Hd. rewrite Hd in H. simpl in H.
  destruct (js_prop trip "events") as [te|] eqn:He; simpl in H; [|discriminate].
  destruct te as [| | | | |events|]; simpl in H; try discriminate.
  destruct (filterM _ events) as [shown|] eqn:Hshown; simpl in H; [|discriminate].
  destruct (js_prop trip "flights") as [tf|] eqn:Hf; simpl in H; [|discriminate].
  destruct tf as [| | | | |flights|]; simpl in H; try discriminate.
  destruct (filterM _ flights) as [departing|] eqn:Hdep; simpl in H;
    [|discriminate].
  destruct (mapM flightItem departing) as [fl|] eqn:Hfl; simpl in H;
    [|discriminate].
  destruct (js_prop trip "accommodations") as [ta|] eqn:Ha; simpl in H;
    [|discriminate].
  destruct ta as [| | | | |stays|]; simpl in H; try discriminate.
  destruct (filterM _ stays) as [covering|] eqn:Hcov; simpl in H; [|discriminate].
  destruct (sortM _ _) as [base|] eqn:Hsort; simpl in H; [|discriminate].
  injection H as <-.
  apply filterM_Some in Hshown as [-> Hev], Hdep as [-> Hfls], Hcov as [-> Hst].
  apply mapM_flightItem in Hfl as ->. rewrite !filter_onDay in Hsort.
  exists events, flights, stays, base. repeat split; try done.
  - eapply Forall_impl; [exact Hev|]. intros x. apply startsOn_timed.
  - eapply Forall_impl; [exact Hfls|]. intros x. apply startsOn_timed.
  - eapply Forall_impl; [exact Hst|]. intros x. apply stayCovers_defined.
Qed.

(** The timeline of a trip that has what the view reads. *)
Lemma filteredEvents_wellFormed (trip : js) (date : string)
  (events flights stays : list js) :
  js_truthy trip = true -> date <> "" ->
  js_prop trip "events" = Some (JArr events) ->
  js_prop trip "flights" = Some (JArr flights) ->
  js_prop trip "accommodations" = Some (JArr stays) ->
  Forall (timed "startTime") events ->
  Forall (timed "departureTime") flights ->
  Forall (fun a => a <> JNull /\ a <> JUndef) stays ->
  exists base,
    sortM byStartTime
      (map eventItem (List.filter (onDay "startTime" date) events) ++
       map flightEntry (List.filter (onDay "departureTime" date) flights))%list
      = Some base /\
    filteredEvents trip date
    = Some (base ++ map stayItem (List.filter (covers date) stays))%list.
Proof.
  intros Ht Hd He Hf Ha Hev Hfl Hst.
  assert (Htimed : Forall (timed "startTime")
            (map eventItem (List.filter (onDay "startTime" date) events) ++
             map flightEntry (List.filter (onDay "departureTime" date) flights))%list).
  { apply Forall_app. split.
    - apply List.Forall_map. apply filter_Forall.
      eapply Forall_impl; [exact Hev|]. intros x. apply eventItem_timed.
    - apply List.Forall_map. apply filter_Forall.
      eapply Forall_impl; [exact Hfl|]. intros x. apply flightEntry_timed. }
  destruct (sortM_total _ Htimed) as [base Hsort].
  exists base. split; [done|].
  unfold filteredEvents. rewrite Ht. apply String.eqb_neq in Hd. rewrite Hd.
  simpl. rewrite He. simpl.
  rewrite (filterM_total (startsOn "startTime" date) events)
    by (eapply Forall_impl; [exact Hev|]; intros x; apply startsOn_timed).
  simpl. rewrite Hf. simpl.
  rewrite (filterM_total (startsOn "departureTime" date) flights)
    by (eapply Forall_impl; [exact Hfl|]; intros x; apply startsOn_timed).
  simpl. rewrite !filter_onDay.
  rewrite mapM_flightItem_total by (by apply filter_Forall).
  simpl. rewrite Ha. simpl.
  rewrite (filterM_total (stayCovers date) stays)
    by (eapply Forall_impl; [exact Hst|]; intros x; apply stayCovers_defined).
  simpl. by rewrite Hsort.
Qed.

End TimelineRuns.

Section TimelineOrder.
Context `{RT : Runtime} `{HT : Host}.
Import Timeline.

Lemma insertM_sorted (x : js) (l r : list js) :
  consistentComparator ->
  timed "startTime" x -> Forall (timed "startTime") l ->
  StronglySorted notAfter l ->
  insertM byStartTime x l = Some r -> StronglySorted notAfter r.
Proof.
  intros [Hanti Htrans] [tx Hx] Hall Hsorted. revert r.
  induction Hsorted as [|y l Hs IH Hy]; intros r H; simpl in H.
  - injection H as <-. repeat constructor.
  - inversion Hall as [|? ? [ty Hty] Hall']; subst.
    rewrite (byStartTime_timed x y tx ty Hx Hty) in H. simpl in H.
    destruct (0 <? localeCompare tx ty) eqn:Hc.
    + destruct (insertM byStartTime x l) as [r'|] eqn:Hins; simpl in H;
        [|discriminate].
      injection H as <-. constructor; [by apply IH|].
      rewrite (insertM_perm _ _ _ _ Hins). constructor; [|done].
      exists ty, tx. repeat split; try done. apply Hanti. by apply Z.ltb_lt.
    + injection H as <-. apply Z.ltb_ge in Hc.
      constructor; [by constructor|]. constructor.
      * exists tx, ty. by repeat split.
      * eapply Forall_impl; [exact Hy|].
        intros z (ty' & tz & Hy' & Hz & Hle).
        exists tx, tz. repeat split; try done.
        rewrite Hty in Hy'. injection Hy' as <-.
        by apply (Htrans tx ty tz).
Qed.

Lemma sortM_sorted (l r : list js) :
  consistentComparator -> Forall (timed "startTime") l ->
  sortM byStartTime l = Some r -> StronglySorted notAfter r.
Proof.
  intros Hcmp Hall. revert r.
  induction Hall as [|x l Hx Hall IH]; intros r H; simpl in H.
  - injection H as <-. constructor.
  - destruct (sortM byStartTime l) as [r'|] eqn:Hs; simpl in H; [|discriminate].
    apply (insertM_sorted x r' r Hcmp Hx); [|by apply IH|done].
    by rewrite (sortM_perm byStartTime l r' Hs).
Qed.

End TimelineOrder.

Section TimelineTheorems.
Context `{RT : Runtime} `{HT : Host}.
Import Timeline.

(** X15. With a trip and a day selected, the timeline is, when it is
    computed at all: the events whose start time begins with the day and the
    flights whose departure time begins with it, each once, followed by the
    stays the day falls in, in the order the trip lists them.  Nothing else
    is shown, and nothing of the day is left out. *)
Theorem timeline_shows_exactly_the_day
  (trip : js) (date : string) (items events flights stays : list js) :
  js_truthy trip = true -> date <> "" ->
  js_prop trip "events" = Some (JArr events) ->
  js_prop trip "flights" = Some (JArr flights) ->
  js_prop trip "accommodations" = Some (JArr stays) ->
  filteredEvents trip date = Some items ->
  exists base,
    items = (base ++ map stayItem (List.filter (covers date) stays))%list /\
    Permutation base
      (map eventItem (List.filter (onDay "startTime" date) events) ++
       map flightEntry (List.filter (onDay "departureTime" date) flights))%list.
Proof.
  intros Ht Hd He Hf Ha H.
  destruct (filteredEvents_Some trip date items Ht Hd H)
    as (ev & fl & st & base & He' & Hf' & Ha' & _ & _ & _ & Hsort & ->).
  rewrite He in He'. rewrite Hf in Hf'. rewrite Ha in Ha'.
  injection He' as <-. injection Hf' as <-. injection Ha' as <-.
  exists base. split; [done|]. by apply (sortM_perm byStartTime).
Qed.

(** X16. Given that [localeCompare] is a consistent comparator, the
    timeline is the events and flights of the day in the order of their
    start times, then the stays: no stay comes before an event or a
    flight. *)
Theorem timeline_is_ordered_by_start_time
  (trip : js) (date : string) (items : list js) :
  consistentComparator ->
  filteredEvents trip date = Some items ->
  exists base stays,
    items = (base ++ stays)%list /\
    StronglySorted notAfter base /\
    Forall isBaseItem base /\
    Forall isStayItem stays.
Proof.
  intros Hcmp H.
  destruct (js_truthy trip) eqn:Ht; [destruct (decide (date = "")) as [->|Hd]|].
  - rewrite filteredEvents_guard in H by (by right). injection H as <-.
    exists [], []. repeat split; constructor.
  - destruct (filteredEvents_Some trip date items Ht Hd H)
      as (ev & fl & st & base & _ & _ & _ & Hev & Hfl & _ & Hsort & ->).
    exists base, (map stayItem (List.filter (covers date) st)).
    split; [done|]. split; [|split].
    + eapply (sortM_sorted _ base Hcmp); [|exact Hsort].
      apply Forall_app. split; apply List.Forall_map; apply filter_Forall.
      * eapply Forall_impl; [exact Hev|]. intros x. apply eventItem_timed.
      * eapply Forall_impl; [exact Hfl|]. intros x. apply flightEntry_timed.
    + rewrite (sortM_perm byStartTime _ base Hsort).
      apply Forall_app. split; apply List.Forall_map.
      * apply Forall_forall. intros x _. apply eventItem_base.
      * apply Forall_forall. intros x _. apply flightEntry_base.
    + apply List.Forall_map. apply Forall_forall. intros x _. apply stayItem_stay.
  - rewrite filteredEvents_guard in H by (by left). injection H as <-.
    exists [], []. repeat split; constructor.
Qed.

Lemma hasPlace_stay (a l : js) :
  js_prop a "location" = Some l ->
  placeOf (stayItem a) = Some l /\ hasPlace (stayItem a) = Some (js_truthy l).
Proof.
  intros Hl. unfold hasPlace, placeOf, stayItem. simpl. by rewrite Hl.
Qed.

(** X17. The city the weather is asked for is the location of a stay
    whenever the day falls in a stay that has one: the last such stay of the
    trip's list, whatever events and flights the day has and wherever they
    are. *)
Theorem weather_city_is_the_last_located_stay
  (trip : js) (date : string) (items stays pre post : list js) (a loc : js) :
  js_truthy trip = true -> date <> "" ->
  filteredEvents trip date = Some items ->
  js_prop trip "accommodations" = Some (JArr stays) ->
  List.filter (covers date) stays = (pre ++ a :: post)%list ->
  js_prop a "location" = Some loc -> js_truthy loc = true ->
  Forall unlocated post ->
  currentCityStatus items = Some loc.
Proof.
  intros Ht Hd H Ha Hsplit Hloc Htruthy Hpost.
  destruct (filteredEvents_Some trip date items Ht Hd H)
    as (ev & fl & st & base & _ & _ & Ha' & _ & _ & Hst & _ & ->).
  rewrite Ha in Ha'. injection Ha' as <-. rewrite Hsplit.
  assert (Hdefined : Forall (fun b => b <> JNull /\ b <> JUndef) post).
  { assert (Hall : Forall (fun b => b <> JNull /\ b <> JUndef)
                     (pre ++ a :: post)%list)
      by (rewrite <- Hsplit; by apply filter_Forall).
    apply Forall_app in Hall as [_ Hall]. by inversion Hall. }
  assert (Hskip : Forall (fun x => hasPlace x = Some false)
                    (rev (map stayItem post))).
  { apply List.Forall_rev. apply List.Forall_map.
    apply Forall_forall. intros b Hin.
    rewrite Forall_forall in Hdefined, Hpost.
    destruct (Hdefined b Hin) as [Hn Hu].
    destruct (js_prop b "location") as [l|] eqn:Hl;
      [|destruct b; try discriminate; done].
    destruct (hasPlace_stay b l Hl) as [_ ->]. by rewrite (Hpost b Hin l Hl). }
  unfold currentCityStatus.
  destruct (base ++ map stayItem (pre ++ a :: post))%list as [|i rest] eqn:E.
  { apply app_eq_nil in E as [_ E]. rewrite map_app in E.
    apply app_eq_nil in E as [_ E]. discriminate. }
  rewrite <- E. rewrite rev_app_distr, map_app, rev_app_distr. simpl.
  rewrite <- !app_assoc. rewrite (findM_skip _ _ _ Hskip). simpl.
  destruct (hasPlace_stay a loc Hloc) as [Hplace ->]. rewrite Htruthy. simpl.
  exact Hplace.
Qed.

(** X18. The timeline is computed without an error exactly when the trip
    has what the view reads: lists of events, flights and accommodations, a
    start time (a string) in every event, a departure time in every flight,
    no [null] among the accommodations.  A trip without one of these makes
    the render throw as soon as a day is selected; with no trip or no day
    selected the timeline is empty. *)
Theorem timeline_throws_exactly_on_malformed_trip (trip : js) (date : string) :
  (js_truthy trip = false \/ date = "" -> filteredEvents trip date = Some []) /\
  (js_truthy trip = true -> date <> "" ->
   ((exists items, filteredEvents trip date = Some items) <-> wellFormed trip)).
Proof.
  split; [apply filteredEvents_guard|]. intros Ht Hd. split.
  - intros [items H].
    destruct (filteredEvents_Some trip date items Ht Hd H)
      as (ev & fl & st & base & He & Hf & Ha & Hev & Hfl & Hst & _).
    by exists ev, fl, st.
  - intros (ev & fl & st & He & Hf & Ha & Hev & Hfl & Hst).
    destruct (filteredEvents_wellFormed trip date ev fl st Ht Hd He Hf Ha
                Hev Hfl Hst) as (base & _ & ->).
    eauto.
Qed.

End TimelineTheorems.

Lemma refHost_consistent : @consistentComparator RefHost.host.
Proof.
  assert (Hle : forall x y, RefHost.localeCompare x y <= 0 <->
                            String.compare x y <> Gt).
  { intros x y. unfold RefHost.localeCompare.
    destruct (String.compare x y); split; intros; try done; lia. }
  split.
  - intros x y. simpl. unfold RefHost.localeCompare.
    rewrite (String.compare_antisym y x).
    destruct (String.compare x y); simpl; lia.
  - intros x y z. simpl. rewrite !Hle. intros Hxy Hyz.
    destruct (String.compare x y) eqn:Exy; [| |done].
    + apply String.compare_eq_iff in Exy as ->. done.
    + destruct (String.compare y z) eqn:Eyz; [| |done].
      * apply String.compare_eq_iff in Eyz as <-. by rewrite Exy.
      * apply String_as_OT.cmp_lt in Exy, Eyz.
        pose proof (String_as_OT.lt_trans _ _ _ Exy Eyz) as Hlt.
        apply String_as_OT.cmp_lt in Hlt.
        unfold String_as_OT.cmp in Hlt. by rewrite Hlt.
Qed.

(** The sample trip on its first day: the flight, the museum, the dinner,
    and the hotel last. *)
Lemma timeline_day_witness :
  let RT := Ref.runtime in
  let HT := RefHost.host in
  exists items base,
    Timeline.filteredEvents ViewSamples.journey "2026-05-15" = Some items /\
    items = (base ++ map Timeline.stayItem [ViewSamples.hotel])%list /\
    Permutation base
      (map Timeline.eventItem [ViewSamples.dinner; ViewSamples.museum] ++
       map flightEntry [ViewSamples.arrival])%list.
Proof.
  cbv zeta.
  destruct (@Timeline.filteredEvents Ref.runtime RefHost.host
              ViewSamples.journey "2026-05-15") as [items|] eqn:H;
    [|vm_compute in H; discriminate].
  exists items.
  destruct (@timeline_shows_exactly_the_day Ref.runtime RefHost.host
              ViewSamples.journey "2026-05-15" items
              [ViewSamples.dinner; ViewSamples.museum; ViewSamples.hike]
              [ViewSamples.arrival] [ViewSamples.hotel]
              eq_refl ltac:(discriminate) eq_refl eq_refl eq_refl H)
    as (base & Hitems & Hperm).
  exists base. split; [done|]. split; [exact Hitems|exact Hperm].
Defined.

Lemma timeline_order_witness :
  let RT := Ref.runtime in
  let HT := RefHost.host in
  exists items base stays,
    Timeline.filteredEvents ViewSamples.journey "2026-05-15" = Some items /\
    items = (base ++ stays)%list /\
    StronglySorted notAfter base /\ Forall isStayItem stays.
Proof.
  cbv zeta.
  destruct (@Timeline.filteredEvents Ref.runtime RefHost.host
              ViewSamples.journey "2026-05-15") as [items|] eqn:H;
    [|vm_compute in H; discriminate].
  exists items.
  destruct (@timeline_is_ordered_by_start_time Ref.runtime RefHost.host
              ViewSamples.journey "2026-05-15" items refHost_consistent H)
    as (base & stays & Hitems & Hsorted & _ & Hstays).
  by exists base, stays.
Defined.

(** The dinner is in Toronto, the hotel gives its address: the weather is
    asked for the address. *)
Lemma weather_city_witness :
  let RT := Ref.runtime in
  let HT := RefHost.host in
  exists items,
    Timeline.filteredEvents ViewSamples.journey "2026-05-15" = Some items /\
    Timeline.currentCityStatus items = Some (JStr "1 Harbour Square").
Proof.
  cbv zeta.
  destruct (@Timeline.filteredEvents Ref.runtime RefHost.host
              ViewSamples.journey "2026-05-15") as [items|] eqn:H;
    [|vm_compute in H; discriminate].
  exists items. split; [done|].
  apply (@weather_city_is_the_last_located_stay Ref.runtime RefHost.host
           ViewSamples.journey "2026-05-15" items [ViewSamples.hotel]
           [] [] ViewSamples.hotel (JStr "1 Harbour Square")
           eq_refl ltac:(discriminate) H eq_refl);
    [vm_compute; reflexivity|reflexivity|reflexivity|constructor].
Defined.

(** * Deleting an item *)

Section DeletionTheorems.
Context `{RT : Runtime} `{HT : Host}.
Import App Deletion.

Lemma otherThan_identified (item : js) (i : string) (xs : list js) :
  js_prop item "id" = Some (JStr i) -> identified xs ->
  Timeline.filterM (otherThan item) xs
  = Some (List.filter (fun x => negb (hasId i x)) xs).
Proof.
  intros Hi Hxs.
  rewrite filterM_total.
  - f_equal. apply List.filter_ext_in. intros x Hin.
    unfold identified in Hxs. rewrite List.Forall_forall in Hxs.
    destruct (Hxs x Hin) as [j Hj].
    unfold otherThan, hasId. by rewrite Hj, Hi.
  - eapply Forall_impl; [exact Hxs|]. intros x [j Hj].
    unfold otherThan. rewrite Hj, Hi. simpl. eauto.
Qed.

Lemma without_identified (key : string) (item tr : js) (i : string)
  (xs : list js) :
  js_prop tr key = Some (JArr xs) ->
  js_prop item "id" = Some (JStr i) -> identified xs ->
  without key item tr
  = Some (JArr (List.filter (fun x => negb (hasId i x)) xs)).
Proof.
  intros Hkey Hi Hxs. unfold without. rewrite Hkey. simpl.
  by rewrite (otherThan_identified item i xs Hi Hxs).
Qed.

(** X19. Deleting in one of the four modes that have a list (event,
    accommodation, flight, expense), from a trip whose entries of that list
    have strings for identifiers: the list loses every entry whose
    identifier is the item's, and only those, the others keeping their
    order; every other property of the trip but [lastSynced] is as before;
    and the result is what is stored under the trip key. *)
Theorem delete_removes_the_entries_with_the_id
  (mode : option ModalMode) (key : string) (item : js) (i : string)
  (xs : list js) (s : state) :
  listOf mode = Some key ->
  js_truthy (trip (cells s)) = true ->
  js_prop (trip (cells s)) key = Some (JArr xs) ->
  identified xs ->
  js_prop item "id" = Some (JStr i) ->
  exists s',
    executeDelete (Some (mode, item)) s = Some s' /\
    js_prop (trip (cells s')) key
      = Some (JArr (List.filter (fun x => negb (hasId i x)) xs)) /\
    (forall k, k <> key -> k <> "lastSynced" ->
       js_prop (trip (cells s')) k = js_prop (trip (cells s)) k) /\
    js_prop (trip (cells s')) "lastSynced"
      = Some (JStr (Date_toISOString (clock (env s)))) /\
    Storage.getItem STORAGE_KEY (localStorage (env s'))
      = Some (JSON_stringify (trip (cells s'))).
Proof.
  intros Hmode Htruthy Hkey Hxs Hi.
  destruct (trip (cells s)) as [| | | | | |fields] eqn:Htrip; try discriminate.
  unfold executeDelete. rewrite Htrip. simpl negb. cbv iota.
  assert (Hupd : updated mode item (JObj fields)
                 = Some (JObj (obj_set key
                                 (JArr (List.filter (fun x => negb (hasId i x)) xs))
                                 fields))).
  { destruct mode as [[]|]; simpl in Hmode; try discriminate;
      injection Hmode as <-; unfold updated;
      by rewrite (without_identified _ item (JObj fields) i xs Hkey Hi Hxs). }
  rewrite Hupd. simpl. eexists. split; [reflexivity|].
  assert (Hne : key <> "lastSynced")
    by (destruct mode as [[]|]; simpl in Hmode; try discriminate;
        injection Hmode as <-; discriminate).
  unfold handleUpdateAndSync, stamp, Storage.getItem, Storage.setItem.
  simpl. repeat split.
  - rewrite obj_get_set_ne by done. by rewrite obj_get_set_eq.
  - intros k Hk Hl. by rewrite !obj_get_set_ne.
  - by rewrite obj_get_set_eq.
  - apply lookup_insert_eq.
Qed.

(** X20. Deleting in a mode that has no list (the trip settings, other
    transport, no mode) removes nothing: the trip keeps every property but
    [lastSynced], which is stamped anew, and the change of the trip makes
    the next commit set the debounce timer, so an unchanged trip is pushed.
    Deleting from a trip in which the list of the mode is missing, or is
    not an array, throws before anything is changed. *)
Theorem delete_without_a_list_only_restamps
  (mode : option ModalMode) (item : js) (s : state)
  (fields : list (string * js)) :
  trip (cells s) = JObj fields ->
  (listOf mode = None ->
     exists s',
       executeDelete (Some (mode, item)) s = Some s' /\
       trip (cells s') = stamp (trip (cells s)) (clock (env s)) /\
       (forall k, k <> "lastSynced" ->
          js_prop (trip (cells s')) k = js_prop (trip (cells s)) k) /\
       depsChanged s' = true) /\
  (forall key, listOf mode = Some key ->
     Timeline.as_array (obj_get key fields) = None ->
     executeDelete (Some (mode, item)) s = None).
Proof.
  intros Htrip. split.
  - intros Hmode. unfold executeDelete. rewrite Htrip. simpl negb. cbv iota.
    assert (Hupd : updated mode item (JObj fields) = Some (JObj fields))
      by (destruct mode as [[]|]; simpl in Hmode; try discriminate; reflexivity).
    rewrite Hupd. simpl. eexists. split; [reflexivity|].
    unfold handleUpdateAndSync, stamp. simpl. repeat split.
    intros k Hk. by rewrite obj_get_set_ne.
  - intros key Hmode Hbad. unfold executeDelete. rewrite Htrip.
    simpl negb. cbv iota.
    assert (Hnone : without key item (JObj fields) = None)
      by (unfold without; simpl; by rewrite Hbad).
    destruct mode as [[]|]; simpl in Hmode; try discriminate;
      injection Hmode as <-; unfold updated; by rewrite Hnone.
Qed.

End DeletionTheorems.

(** The museum is deleted from the sample trip: the dinner and the hike
    stay, in that order. *)
Lemma delete_entry_witness :
  let RT := Ref.runtime in
  let HT := RefHost.host in
  let s := App.setTrip ViewSamples.journey Samples.mounted in
  exists s',
    Deletion.executeDelete (Some (Some Deletion.event, ViewSamples.museum)) s
      = Some s' /\
    js_prop (App.trip (App.cells s')) "events"
      = Some (JArr [ViewSamples.dinner; ViewSamples.hike]).
Proof.
  cbv zeta.
  assert (Hids : identified
            [ViewSamples.dinner; ViewSamples.museum; ViewSamples.hike])
    by (repeat constructor; by eexists).
  destruct (@delete_removes_the_entries_with_the_id Ref.runtime RefHost.host
              (Some Deletion.event) "events" ViewSamples.museum "2"
              [ViewSamples.dinner; ViewSamples.museum; ViewSamples.hike]
              (App.setTrip ViewSamples.journey Samples.mounted)
              eq_refl eq_refl eq_refl Hids eq_refl)
    as (s' & Hrun & Hlist & _).
  exists s'. split; [exact Hrun|exact Hlist].
Defined.

(** A deletion asked from the trip settings: the sample trip is stamped and
    nothing else. *)
Lemma delete_without_a_list_witness :
  let RT := Ref.runtime in
  let HT := RefHost.host in
  let s := App.setTrip ViewSamples.journey Samples.mounted in
  exists s',
    Deletion.executeDelete
      (Some (Some Deletion.tripSettings, ViewSamples.museum)) s = Some s' /\
    App.trip (App.cells s') = App.stamp ViewSamples.journey Samples.noon.
Proof.
  cbv zeta.
  destruct (@delete_without_a_list_only_restamps Ref.runtime RefHost.host
              (Some Deletion.tripSettings) ViewSamples.museum
              (App.setTrip ViewSamples.journey Samples.mounted) _ eq_refl)
    as (Hnone & _).
  destruct (Hnone eq_refl) as (s' & Hrun & Htrip & _).
  exists s'. split; [exact Hrun|exact Htrip].
Defined.

(** * The service worker *)

Section WorkerFacts.
Import ServiceWorker.

Lemma prefix_app (sub s x : string) :
  String.prefix sub s = true -> String.prefix sub (s +:+ x) = true.
Proof.
  revert s. induction sub as [|a sub IH]; intros s H;
    [by destruct (s +:+ x)|].
  destruct s as [|b s]; simpl in *; [discriminate|].
  destruct (ascii_dec a b); [by apply IH|discriminate].
Qed.

Lemma includes_app (s sub x : string) :
  includes s sub = true -> includes (s +:+ x) sub = true.
Proof.
  induction s as [|c s IH]; simpl; intros H.
  - rewrite orb_false_r in H. destruct sub; [|discriminate].
    by destruct x.
  - apply orb_true_iff in H as [H|H].
    + apply (prefix_app sub (String c s) x) in H. simpl in H.
      by rewrite H.
    + rewrite (IH H). apply orb_true_r.
Qed.

Lemma lookupAll_open (u name : string) (cs : cacheStorage) :
  lookupAll u (caches_open name cs) = lookupAll u cs.
Proof.
  induction cs as [|[n c] cs IH]; simpl; [done|].
  destruct (String.eqb n name); simpl; [done|]. by rewrite IH.
Qed.

Lemma lookupAll_put_ne (u u' name : string) (r : response) (cs : cacheStorage) :
  u <> u' -> lookupAll u (cache_put name u' r cs) = lookupAll u cs.
Proof.
  intros Hne. induction cs as [|[n c] cs IH]; simpl; [done|].
  destruct (String.eqb n name); simpl.
  - by rewrite lookup_insert_ne.
  - by rewrite IH.
Qed.

Lemma lookupAll_put_new (u name : string) (r : response) (cs : cacheStorage) :
  lookupAll u cs = None ->
  lookupAll u (cache_put name u r (caches_open name cs)) = Some r.
Proof.
  induction cs as [|[n c] cs IH]; simpl; intros H.
  - rewrite String.eqb_refl. simpl. by rewrite lookup_insert_eq.
  - destruct (c !! u) eqn:Hc; [discriminate|].
    destruct (String.eqb n name) eqn:Hn; simpl; rewrite Hn; simpl.
    + by rewrite lookup_insert_eq.
    + rewrite Hc. by apply IH.
Qed.

Lemma filter_all {A} (l : list A) : List.filter (fun _ => true) l = l.
Proof. induction l as [|x l IH]; simpl; [done|]. by rewrite IH. Qed.

Lemma filter_both {A} (f g : A -> bool) (l : list A) :
  List.filter f (List.filter g l) = List.filter (fun x => g x && f x) l.
Proof.
  induction l as [|x l IH]; simpl; [done|].
  destruct (g x); simpl; [|done]. destruct (f x); by rewrite IH.
Qed.

Lemma fold_delete (ks : list string) :
  forall cs,
    fold_left (fun acc key => caches_delete key acc) ks cs
    = List.filter (fun c => negb (existsb (String.eqb (fst c)) ks)) cs.
Proof.
  induction ks as [|k ks IH]; intros cs; simpl; [by rewrite filter_all|].
  rewrite IH. unfold caches_delete. rewrite filter_both.
  apply List.filter_ext. intros c. by rewrite negb_orb.
Qed.

Lemma onActivate_filter (cs : cacheStorage) :
  onActivate cs = List.filter (fun c => String.eqb (fst c) CACHE_NAME) cs.
Proof.
  unfold onActivate. rewrite fold_delete. apply List.filter_ext_in.
  intros c Hin.
  destruct (String.eqb (fst c) CACHE_NAME) eqn:Hc.
  - apply negb_true_iff. apply not_true_iff_false. intros Hex.
    apply existsb_exists in Hex as (k & Hk & Heq).
    apply filter_In in Hk as [_ Hk]. apply String.eqb_eq in Heq, Hc.
    rewrite <- Heq, Hc in Hk. by rewrite String.eqb_refl in Hk.
  - apply negb_false_iff. apply existsb_exists. exists (fst c).
    split; [|apply String.eqb_refl].
    apply filter_In. split; [|by rewrite Hc].
    unfold keys. by apply in_map.
Qed.

End WorkerFacts.

Section WorkerTheorems.
Context `{RT : Runtime}.
Import ServiceWorker.
Variable resolve : string -> string.

(** X21. The worker leaves every request whose URL contains [macros/s/]
    to the browser, whatever its method, and touches no cache for it.  The
    built-in endpoint of the sync helpers contains the keyword, so every push
    and every pull, whatever its [t] parameter, goes to the network. *)
Theorem sync_requests_bypass_the_worker
  (net : network) (req : request) (cs : cacheStorage) :
  (includes (url req) API_URL_KEYWORD = true ->
   onFetch resolve net req cs = (Bypass, cs)) /\
  (forall suffix, url req = SHEET_API_URL +:+ suffix ->
     onFetch resolve net req cs = (Bypass, cs)) /\
  (forall t, url req = pullUrl t -> onFetch resolve net req cs = (Bypass, cs)).
Proof.
  assert (Hkey : includes (url req) API_URL_KEYWORD = true ->
                 onFetch resolve net req cs = (Bypass, cs))
    by (intros H; unfold onFetch; by rewrite H).
  assert (Hsuffix : forall suffix, url req = SHEET_API_URL +:+ suffix ->
                      onFetch resolve net req cs = (Bypass, cs)).
  { intros suffix Hurl. apply Hkey. rewrite Hurl. apply includes_app.
    vm_compute. reflexivity. }
  split; [exact Hkey|]. split; [exact Hsuffix|].
  intros t Hurl. by apply (Hsuffix ("?t=" +:+ Number_toString t)).
Qed.

(** X22. A GET request that is not for the sync endpoint and has no stored
    response is answered from the network; when that response has status
    200 it is stored, and from then on the same request is answered with it
    whatever the network does, the caches staying as they are. *)
Theorem fetched_asset_is_then_served_from_cache
  (net net' : network) (req : request) (cs : cacheStorage) (r : response) :
  includes (url req) API_URL_KEYWORD = false ->
  method req = "GET" ->
  caches_match req cs = None ->
  net req = Some r -> status r = 200 ->
  fst (onFetch resolve net req cs) = Respond (Some r) /\
  onFetch resolve net' req (snd (onFetch resolve net req cs))
  = (Respond (Some r), snd (onFetch resolve net req cs)).
Proof.
  intros Hkey Hget Hmiss Hnet Hok.
  assert (Hrun : onFetch resolve net req cs
                 = (Respond (Some r),
                    cache_put CACHE_NAME (url req) r (caches_open CACHE_NAME cs))).
  { unfold onFetch. rewrite Hkey, Hmiss, Hnet, Hok, Hget. reflexivity. }
  rewrite Hrun. split; [done|]. simpl.
  unfold onFetch at 1. rewrite Hkey. unfold caches_match in *.
  rewrite Hget in *. simpl in *. by rewrite (lookupAll_put_new _ _ r cs Hmiss).
Qed.

(** X23. The fetch handler never replaces a stored response: whatever is
    stored for a URL before a request is handled is stored for it after.
    What it adds is the response to a GET request that is not for the sync
    endpoint, came from the network and has status 200. *)
Theorem worker_stores_only_new_responses_with_status_200
  (net : network) (req : request) (cs : cacheStorage) (u : string) :
  (forall r0, lookupAll u cs = Some r0 ->
     lookupAll u (snd (onFetch resolve net req cs)) = Some r0) /\
  (forall r, lookupAll u cs = None ->
     lookupAll u (snd (onFetch resolve net req cs)) = Some r ->
     u = url req /\ method req = "GET" /\ net req = Some r /\ status r = 200 /\
     includes (url req) API_URL_KEYWORD = false).
Proof.
  unfold onFetch, caches_match.
  destruct (includes (url req) API_URL_KEYWORD) eqn:Hkey; simpl;
    [split; [done|congruence]|].
  destruct (String.eqb (method req) "GET") eqn:Hget.
  - apply String.eqb_eq in Hget.
    destruct (lookupAll (url req) cs) as [c|] eqn:Hmiss; simpl;
      [split; [done|congruence]|].
    destruct (net req) as [r1|] eqn:Hnet;
      [|destruct (String.eqb (mode req) "navigate"); simpl;
        (split; [done|congruence])].
    destruct (status r1 =? 200) eqn:Hok; simpl; [|split; [done|congruence]].
    apply Z.eqb_eq in Hok.
    destruct (decide (u = url req)) as [->|Hne].
    + split; [congruence|]. intros r _.
      rewrite (lookupAll_put_new _ _ r1 cs Hmiss). by intros [= <-].
    + rewrite (lookupAll_put_ne u (url req) _ _ _ Hne), lookupAll_open.
      split; [done|congruence].
  - destruct (net req) as [r1|] eqn:Hnet;
      [|destruct (String.eqb (mode req) "navigate"); simpl;
        (split; [done|congruence])].
    destruct (status r1 =? 200) eqn:Hok; simpl; [|split; [done|congruence]].
    rewrite lookupAll_open. split; [done|congruence].
Qed.

(** X24. Activation deletes every cache but the current one: what is left
    is the caches named [CACHE_NAME], as they were. *)
Theorem activation_keeps_only_the_current_cache (cs : cacheStorage) :
  onActivate cs = List.filter (fun c => String.eqb (fst c) CACHE_NAME) cs /\
  Forall (fun name => name = CACHE_NAME) (keys (onActivate cs)).
Proof.
  split; [apply onActivate_filter|]. rewrite onActivate_filter. unfold keys.
  apply List.Forall_map. apply List.Forall_forall. intros c Hin.
  apply filter_In in Hin as [_ Hin]. by apply String.eqb_eq.
Qed.

End WorkerTheorems.

(** The page is fetched while online and asked again while offline. *)
Lemma fetched_asset_witness :
  let page := ServiceWorker.mkRequest "https://trip.example/index.html" "GET"
                "navigate" in
  let answer := ServiceWorker.mkResponse 200 "<html>" in
  let online : ServiceWorker.network := fun _ => Some answer in
  let offline : ServiceWorker.network := fun _ => None in
  let cs1 := snd (ServiceWorker.onFetch id online page []) in
  ServiceWorker.onFetch id offline page cs1
  = (ServiceWorker.Respond (Some answer), cs1).
Proof.
  cbv zeta.
  apply (fetched_asset_is_then_served_from_cache id
           (fun _ => Some (ServiceWorker.mkResponse 200 "<html>"))
           (fun _ => None)
           (ServiceWorker.mkRequest "https://trip.example/index.html" "GET"
              "navigate")
           [] (ServiceWorker.mkResponse 200 "<html>"));
    reflexivity.
Defined.

Section WorkerInstall.
Import ServiceWorker.






End WorkerInstall.

Section WorkerOffline.
Import ServiceWorker.
Variable resolve : string -> string.



End WorkerOffline.


(** * The long press *)

Section LongPressTheorem.
Import LongPress.

(** X26. With no timer pending, a press that is released before the delay
    has passed never runs the callback, then or later; a press held for the
    delay runs it once, and the release that follows changes nothing.  A
    second press that starts before the first is released leaves a timer
    that no release clears: the callback runs although the press was
    released at once. *)
Theorem short_press_never_fires (ms dt later : Z) (s : state) :
  pending s = [] -> 0 <= dt -> 0 <= later ->
  (dt < ms ->
     fired (elapse later (stop (elapse dt (start ms s)))) = fired s /\
     pending (stop (elapse dt (start ms s))) = []) /\
  (ms <= dt ->
     fired (elapse dt (start ms s)) = S (fired s) /\
     fired (elapse later (stop (elapse dt (start ms s)))) = S (fired s)) /\
  (ms <= dt ->
     fired (elapse dt (stop (start ms (start ms s)))) = S (fired s)).
Proof.
  intros Hnone Hdt Hlater. unfold elapse, stop, start. simpl. rewrite Hnone.
  simpl. split; [|split].
  - intros Hlt.
    assert (Hleb : (clock s + ms <=? clock s + dt) = false)
      by (apply Z.leb_gt; lia).
    rewrite Hleb. simpl. rewrite Nat.eqb_refl. simpl. split; [lia|done].
  - intros Hge.
    assert (Hleb : (clock s + ms <=? clock s + dt) = true)
      by (apply Z.leb_le; lia).
    rewrite Hleb. simpl. split; lia.
  - intros Hge.
    assert (Hleb : (clock s + ms <=? clock s + dt) = true)
      by (apply Z.leb_le; lia).
    rewrite Nat.eqb_refl.
    assert (Hid : Nat.eqb (nextId s) (S (nextId s)) = false)
      by (apply Nat.eqb_neq; lia).
    rewrite Hid. simpl. rewrite Hleb. simpl. lia.
Qed.

End LongPressTheorem.

(** A tap of 150 ms on a card: nothing is run, a second later neither. *)
Lemma short_press_witness :
  let s := LongPress.mkState None [] 0 1 0 in
  LongPress.fired
    (LongPress.elapse 1000
       (LongPress.stop
          (LongPress.elapse 150 (LongPress.start LongPress.DEFAULT_MS s))))
  = 0%nat.
Proof.
  cbv zeta.
  destruct (short_press_never_fires LongPress.DEFAULT_MS 150 1000
              (LongPress.mkState None [] 0 1 0) eq_refl
              ltac:(lia) ltac:(lia)) as (Hshort & _).
  destruct (Hshort ltac:(unfold LongPress.DEFAULT_MS; lia)) as [Hfired _].
  exact Hfired.
Defined.

(** * The pending indicator *)

Section PendingIndicator.
Context `{RT : Runtime}.
Import App.

Lemma pendingAgrees_initialState (b : browser) :
  timers b = [] -> pendingAgrees (initialState b).
Proof. intros Hb. split; [done|]. simpl. rewrite Hb. constructor. Qed.

Lemma commit_pending (s : state) : pendingAgrees s -> pendingAgrees (commit s).
Proof.
  intros [Hflag Htimers]. unfold commit. destruct (depsChanged s); [|done].
  unfold autoSyncEffect, clearDebounceTimer, pendingAgrees.
  destruct s as [c ref dc hc b]. simpl in *.
  destruct hc, ref as [id|]; simpl;
    destruct (js_truthy (trip c)) eqn:Ht; simpl; (split; [done|]);
    rewrite ?filter_twice;
    try (apply Forall_app; split; [|by repeat constructor]);
    try (by apply filter_Forall); done.
Qed.

Lemma debouncedPush_pending (net : postNetwork) (tr : js) (online : bool)
  (s : state) :
  js_truthy tr = true -> pendingAgrees s ->
  pendingAgrees (snd (debouncedPush net tr online s)).
Proof.
  intros Htr [Hflag Htimers]. destruct online.
  - destruct (net (length (posted (env s))) (pushBody tr s)) as [e|] eqn:Hnet.
    + rewrite (debouncedPush_rejected net tr s e Hnet). split; [|done].
      simpl. unfold flagStored, Storage.getItem, Storage.setItem.
      by rewrite lookup_insert_eq.
    + destruct (truthy_has_props tr "lastSynced" Htr) as (ls & Hls).
      rewrite (debouncedPush_resolved net tr ls s Hnet Hls). split; [|done].
      simpl. unfold flagStored, Storage.getItem, Storage.removeItem.
      by rewrite lookup_delete_eq.
  - unfold debouncedPush. unfold_m. split; [|done].
    simpl. unfold flagStored, Storage.getItem, Storage.setItem.
    by rewrite lookup_insert_eq.
Qed.

Lemma performInitialPull_pending (r : fetchResult) (s : state) :
  pendingAgrees s -> pendingAgrees (snd (performInitialPull r s)).
Proof.
  intros [Hflag Htimers]. destruct (navigator_onLine (env s)) eqn:Hon;
    [|by rewrite (performInitialPull_offline _ _ Hon)].
  rewrite (performInitialPull_online _ _ Hon).
  destruct (pulled r); try done. destruct (localDoc s); [|done].
  destruct (cloudNewer fields a); [|done].
  unfold adopted, pendingAgrees, flagStored, Storage.getItem,
    Storage.removeItem.
  destruct (js_truthy (obj_get "lastSynced" fields)); simpl;
    by rewrite lookup_delete_eq.
Qed.

Lemma runTimers_pending (net : postNetwork) (fired : list timer) :
  Forall (fun t => js_truthy (timer_trip t) = true) fired ->
  forall s, pendingAgrees s -> pendingAgrees (fold_left (runTimer net) fired s).
Proof.
  induction 1 as [|t l Ht Hall IH]; intros s Hs; [done|]. simpl. apply IH.
  unfold runTimer. apply commit_pending. by apply debouncedPush_pending.
Qed.

Lemma mountEffect_pending (s : state) :
  pendingAgrees s -> pendingAgrees (snd (mountEffect s)).
Proof.
  intros Hs. unfold mountEffect. unfold_m.
  destruct (item_truthy _); [|done].
  destruct (JSON_parse _) as [data|e]; [|done]. simpl.
  destruct (js_prop data "startDate"); [|done]. unfold_m. simpl.
  destruct (js_prop data "lastSynced") as [ls|]; [|done]. unfold_m. simpl.
  by destruct (js_truthy ls).
Qed.

(** X27. From the first render on, whatever happens (an edit, time
    passing with its timers firing, a change of connectivity, a pull), the
    pending indicator of the component shows what is stored under the
    pending key: a component mounted on the same storage starts with the
    same indicator.  With it goes that every pending timer carries a
    trip. *)
Theorem pending_indicator_agrees_with_stored_flag
  (net : postNetwork) (s : state) (ev : event) :
  pendingAgrees s ->
  (forall b, timers b = [] ->
     pendingAgrees (commit (snd (mountEffect (initialState b))))) /\
  pendingAgrees (step net s ev) /\
  hasPendingSync
    (cells (initialState
              (mkBrowser (localStorage (env (step net s ev)))
                 (clock (env (step net s ev)))
                 (navigator_onLine (env (step net s ev))) [] 1 [])))
  = hasPendingSync (cells (step net s ev)).
Proof.
  intros Hs.
  assert (Hstep : pendingAgrees (step net s ev)).
  { destruct Hs as [Hflag Htimers]. destruct ev as [d|dt|b|r]; simpl.
    - rewrite localEdit_state. cbv zeta. split.
      + simpl. rewrite Hflag. unfold flagStored, Storage.getItem.
        by rewrite lookup_insert_ne by discriminate.
      + simpl. apply Forall_app. split; [|by repeat constructor].
        unfold withoutDebounce.
        destruct (debounceTimerRef s); [by apply filter_Forall|done].
    - unfold elapse. apply runTimers_pending; [by apply filter_Forall|].
      split; [done|]. simpl. by apply filter_Forall.
    - unfold connectivity. by apply commit_pending.
    - apply commit_pending. by apply performInitialPull_pending. }
  split; [|split; [exact Hstep|]].
  - intros b Hb. apply commit_pending, mountEffect_pending.
    by apply pendingAgrees_initialState.
  - destruct Hstep as [Hflag _]. by rewrite Hflag.
Qed.

End PendingIndicator.

(** The POST of the first edit is rejected: the indicator is on, in the
    component and in one mounted afterwards. *)
Lemma pending_indicator_witness :
  let RT := Ref.runtime in
  let net : App.postNetwork := fun _ _ => Some Samples.err500 in
  let s1 := App.step net Samples.mounted (App.Edit (JObj Samples.tripLocal)) in
  pendingAgrees (App.step net s1 (App.Elapse 2000)) /\
  App.hasPendingSync (App.cells (App.step net s1 (App.Elapse 2000))) = true.
Proof.
  cbv zeta.
  assert (H0 : @pendingAgrees Samples.mounted) by (split; [done|constructor]).
  destruct (@pending_indicator_agrees_with_stored_flag Ref.runtime
              (fun _ _ => Some Samples.err500) Samples.mounted
              (App.Edit (JObj Samples.tripLocal)) H0) as (_ & H1 & _).
  destruct (@pending_indicator_agrees_with_stored_flag Ref.runtime
              (fun _ _ => Some Samples.err500) _ (App.Elapse 2000) H1)
    as (_ & H2 & _).
  split; [exact H2|]. vm_compute. reflexivity.
Defined.
